(** * onet: the service processor (processor.go) and the configuration
    files (app/config.go)

    A shallow embedding of the handler registry, the signature validator,
    the dispatch engine, the streaming forwarder and the REST bridge of
    [processor.go], and the properties of the specification proved (or
    refuted) on it.

    The Go packages the file calls ([reflect], [strings], [path],
    [regexp], [net/http], [protobuf], [encoding/json]) are not part of the
    repository. [reflect], [strings], [path], the one regular-expression
    shape the file builds and the part of [http.ServeMux] it uses are
    modelled below from their documented behaviour; the serialisers are
    parameters. The module [app] further down does the same for
    [app/config.go]. *)

From Stdlib Require Import ZArith String Ascii List Lia.
From stdpp Require Import base option list gmap strings pretty.

Set Warnings "-register-all".

Local Open Scope string_scope.
Local Open Scope list_scope.

(** ** Outcomes of a Go call: it returns, or it panics. *)

Inductive result (A : Type) : Type :=
| Ret (a : A)
| Panic (msg : string).
Arguments Ret {A} a.
Arguments Panic {A} msg.

#[global] Instance result_ret : MRet result := fun A a => Ret a.
#[global] Instance result_bind : MBind result := fun A B f m =>
  match m with
  | Ret a => f a
  | Panic msg => Panic msg
  end.

(** A Go [error] value: [None] is [nil], [Some msg] an error whose
    [Error()] text is [msg]. *)
Definition error : Type := option string.
Definition errors_New (msg : string) : error := Some msg.

(** A Go [[]byte]: [None] is the nil slice. *)
Definition bytes : Type := option (list Byte.byte).

(** ** strings.Split and path.Split *)

Module strings.

(** [strings.Split(s, sep)] at a one-byte separator (the source only splits
    on the dot): the substrings between the separators, [[s]] when there is
    none. *)
Fixpoint Split (s : string) (sep : ascii) : list string :=
  match s with
  | EmptyString => [EmptyString]
  | String c s' =>
      if Ascii.eqb c sep then EmptyString :: Split s' sep
      else match Split s' sep with
           | h :: t => String c h :: t
           | [] => [String c EmptyString]
           end
  end.

Fixpoint contains (c : ascii) (s : string) : bool :=
  match s with
  | EmptyString => false
  | String d s' => Ascii.eqb d c || contains c s'
  end.

End strings.

Module path.

(** [path.Split(p)]: the text after the final slash (the second result;
    the source drops the first). *)
Definition Split_file (p : string) : string :=
  List.last (strings.Split p "/"%char) EmptyString.

End path.

(** Indexing a slice: out of range is a run-time panic. *)
Definition index {A : Type} (l : list A) (i : nat) : result A :=
  match l !! i with
  | Some a => Ret a
  | None => Panic ("runtime error: index out of range [" +:+ pretty i +:+
                   "] with length " +:+ pretty (length l))
  end.

(** ** reflect: type descriptors *)

Module reflect.

Inductive Kind : Set :=
| Invalid | Bool | Int | Int8 | Int16 | Int32 | Int64
| Uint | Uint8 | Uint16 | Uint32 | Uint64 | Uintptr
| Float32 | Float64 | Complex64 | Complex128
| Array | Chan | Func | Interface | Map | Ptr | Slice | String' | Struct
| UnsafePointer.

#[global] Instance Kind_eq_dec : EqDecision Kind.
Proof. solve_decision. Defined.

Inductive ChanDir : Set := RecvDir | SendDir | BothDir.

(** The predeclared scalar types. *)
Inductive scalar : Set :=
| Tbool | Tint | Tint8 | Tint16 | Tint32 | Tint64
| Tuint | Tuint8 | Tuint16 | Tuint32 | Tuint64 | Tuintptr
| Tfloat32 | Tfloat64 | Tcomplex64 | Tcomplex128 | Tstring | Tunsafe.

(** A Go type. [Named pkg name ms pms u] is the defined type [pkg.name]
    with underlying type [u], [ms] its methods with a value receiver and
    [pms] those with a pointer receiver (a method is its name and its
    function type); a predeclared named type such as [error] has the empty
    package. A variadic function has its final parameter a slice and the
    flag set. Struct tags and the promotion of the methods of embedded
    fields are not represented. *)
Inductive type : Type :=
| Basic (s : scalar)
| PtrTo (elem : type)
| SliceOf (elem : type)
| ArrayOf (n : nat) (elem : type)
| MapOf (key elem : type)
| ChanOf (dir : ChanDir) (elem : type)
| FuncOf (ins outs : list type) (variadic : bool)
| StructOf (fields : list (string * type))
| InterfaceOf (methods : list (string * type))
| Named (pkg name : string) (methods ptrMethods : list (string * type))
        (underlying : type).

Definition scalar_kind (s : scalar) : Kind :=
  match s with
  | Tbool => Bool | Tint => Int | Tint8 => Int8 | Tint16 => Int16
  | Tint32 => Int32 | Tint64 => Int64 | Tuint => Uint | Tuint8 => Uint8
  | Tuint16 => Uint16 | Tuint32 => Uint32 | Tuint64 => Uint64
  | Tuintptr => Uintptr | Tfloat32 => Float32 | Tfloat64 => Float64
  | Tcomplex64 => Complex64 | Tcomplex128 => Complex128
  | Tstring => String' | Tunsafe => UnsafePointer
  end.

Definition scalar_name (s : scalar) : string :=
  match s with
  | Tbool => "bool" | Tint => "int" | Tint8 => "int8" | Tint16 => "int16"
  | Tint32 => "int32" | Tint64 => "int64" | Tuint => "uint"
  | Tuint8 => "uint8" | Tuint16 => "uint16" | Tuint32 => "uint32"
  | Tuint64 => "uint64" | Tuintptr => "uintptr" | Tfloat32 => "float32"
  | Tfloat64 => "float64" | Tcomplex64 => "complex64"
  | Tcomplex128 => "complex128" | Tstring => "string"
  | Tunsafe => "unsafe.Pointer"
  end.

(** The type a defined type stands for. *)
Fixpoint underlying (t : type) : type :=
  match t with
  | Named _ _ _ _ u => underlying u
  | _ => t
  end.

(** [Type.Kind()] *)
Definition kind (t : type) : Kind :=
  match underlying t with
  | Basic s => scalar_kind s
  | PtrTo _ => Ptr
  | SliceOf _ => Slice
  | ArrayOf _ _ => Array
  | MapOf _ _ => Map
  | ChanOf _ _ => Chan
  | FuncOf _ _ _ => Func
  | StructOf _ => Struct
  | InterfaceOf _ => Interface
  | Named _ _ _ _ _ => Invalid
  end.

(** [Type.Elem()]: panics unless the kind is Array, Chan, Map, Ptr or
    Slice. *)
Definition Elem (t : type) : result type :=
  match underlying t with
  | PtrTo e | SliceOf e | ArrayOf _ e | MapOf _ e | ChanOf _ e => Ret e
  | _ => Panic "reflect: Elem of invalid type"
  end.

(** [Type.NumIn()], [Type.In(i)], [Type.NumOut()], [Type.Out(i)]: panic
    unless the kind is Func, and on an index out of range. *)
Definition NumIn (t : type) : result nat :=
  match underlying t with
  | FuncOf ins _ _ => Ret (length ins)
  | _ => Panic "reflect: NumIn of non-func type"
  end.

Definition In (t : type) (i : nat) : result type :=
  match underlying t with
  | FuncOf ins _ _ => index ins i
  | _ => Panic "reflect: In of non-func type"
  end.

Definition NumOut (t : type) : result nat :=
  match underlying t with
  | FuncOf _ outs _ => Ret (length outs)
  | _ => Panic "reflect: NumOut of non-func type"
  end.

Definition Out (t : type) (i : nat) : result type :=
  match underlying t with
  | FuncOf _ outs _ => index outs i
  | _ => Panic "reflect: Out of non-func type"
  end.

(** [Type.NumField()], [Type.Field(i)]: panic unless the kind is Struct. *)
Definition NumField (t : type) : result nat :=
  match underlying t with
  | StructOf fs => Ret (length fs)
  | _ => Panic "reflect: NumField of non-struct type"
  end.

Definition Field (t : type) (i : nat) : result (string * type) :=
  match underlying t with
  | StructOf fs =>
      match fs !! i with
      | Some f => Ret f
      | None => Panic "reflect: Field index out of bounds"
      end
  | _ => Panic "reflect: Field of non-struct type"
  end.

(** Joining with a separator, as the printer of composite types does. *)
Fixpoint join (sep : string) (l : list string) : string :=
  match l with
  | [] => EmptyString
  | [x] => x
  | x :: rest => x +:+ sep +:+ join sep rest
  end.

Fixpoint mark_variadic (l : list string) : list string :=
  match l with
  | [] => []
  | [x] => ["..." +:+ String.substring 2 (String.length x - 2) x]
  | x :: rest => x :: mark_variadic rest
  end.

(** A function signature after the [func] keyword. *)
Definition signature (ins outs : list string) (variadic : bool) : string :=
  "(" +:+ join ", " (if variadic then mark_variadic ins else ins) +:+ ")" +:+
  match outs with
  | [] => EmptyString
  | [o] => " " +:+ o
  | _ => " (" +:+ join ", " outs +:+ ")"
  end.

(** [Type.String()]: a defined type prints as [pkg.Name] (the package
    name, not its import path), a type literal as in the language. *)
Fixpoint String (t : type) : string :=
  match t with
  | Basic s => scalar_name s
  | PtrTo e => "*" +:+ String e
  | SliceOf e => "[]" +:+ String e
  | ArrayOf n e => "[" +:+ pretty n +:+ "]" +:+ String e
  | MapOf k e => "map[" +:+ String k +:+ "]" +:+ String e
  | ChanOf BothDir e => "chan " +:+ String e
  | ChanOf RecvDir e => "<-chan " +:+ String e
  | ChanOf SendDir e => "chan<- " +:+ String e
  | FuncOf ins outs v => "func" +:+ signature (map String ins) (map String outs) v
  | StructOf fs =>
      match fs with
      | [] => "struct {}"
      | _ =>
          "struct { " +:+
          join "; " (map (fun f => match f with
                                   | (n, ft) => n +:+ " " +:+ String ft
                                   end) fs) +:+ " }"
      end
  | InterfaceOf ms =>
      match ms with
      | [] => "interface {}"
      | _ =>
          "interface { " +:+
          join "; " (map (fun m =>
                       match m with
                       | (n, FuncOf ins outs v) =>
                           n +:+ signature (map String ins) (map String outs) v
                       | (n, mt) => n +:+ " " +:+ String mt
                       end) ms) +:+ " }"
      end
  | Named pkg name _ _ _ =>
      if String.eqb pkg EmptyString then name else pkg +:+ "." +:+ name
  end.

(** The method set of a type: an interface's methods; a defined type's
    value-receiver methods; for a pointer to a defined type also its
    pointer-receiver methods. *)
Definition methodSet (t : type) : list (string * type) :=
  match t with
  | InterfaceOf ms => ms
  | Named _ _ ms _ u =>
      match underlying u with
      | InterfaceOf ims => ims
      | _ => ms
      end
  | PtrTo (Named _ _ ms pms u) =>
      match underlying u with
      | InterfaceOf _ | PtrTo _ => []
      | _ => ms ++ pms
      end
  | _ => []
  end.

(** The one method of the predeclared interface [error]:
    [Error() string]. *)
Definition is_Error_method (m : string * type) : bool :=
  String.eqb (fst m) "Error" &&
  match snd m with
  | FuncOf [] [Basic Tstring] false => true
  | _ => false
  end.

(** [var errType = reflect.TypeOf(( *error)(nil)).Elem()] *)
Definition errType : type :=
  Named EmptyString "error" [] [] (InterfaceOf [("Error", FuncOf [] [Basic Tstring] false)]).

(** [t.Implements(errType)] *)
Definition Implements_errType (t : type) : bool :=
  existsb is_Error_method (methodSet t).

End reflect.

(** ** Regular expressions

    [regexp.MatchString] on the patterns the REST bridge builds. The
    patterns are anchored at both ends, so a match is a match of the whole
    text; they are matched by derivatives. *)

Module regexp.

Inductive class : Set :=
| Char (c : ascii)          (* a literal byte *)
| Digit                     (* \d *)
| HexLower.                 (* [0-9a-f] *)

Inductive re : Set :=
| Void
| Eps
| Sym (c : class)
| Cat (r1 r2 : re)
| Alt (r1 r2 : re)
| Star (r : re).

Definition is_digit (c : ascii) : bool :=
  let n := nat_of_ascii c in Nat.leb 48 n && Nat.leb n 57.

Definition in_class (k : class) (c : ascii) : bool :=
  match k with
  | Char d => Ascii.eqb c d
  | Digit => is_digit c
  | HexLower =>
      let n := nat_of_ascii c in
      is_digit c || (Nat.leb 97 n && Nat.leb n 102)
  end.

Fixpoint nullable (r : re) : bool :=
  match r with
  | Void => false
  | Eps => true
  | Sym _ => false
  | Cat r1 r2 => nullable r1 && nullable r2
  | Alt r1 r2 => nullable r1 || nullable r2
  | Star _ => true
  end.

Fixpoint deriv (c : ascii) (r : re) : re :=
  match r with
  | Void | Eps => Void
  | Sym k => if in_class k c then Eps else Void
  | Cat r1 r2 =>
      if nullable r1 then Alt (Cat (deriv c r1) r2) (deriv c r2)
      else Cat (deriv c r1) r2
  | Alt r1 r2 => Alt (deriv c r1) (deriv c r2)
  | Star r1 => Cat (deriv c r1) (Star r1)
  end.

Fixpoint matches (r : re) (s : string) : bool :=
  match s with
  | EmptyString => nullable r
  | String c s' => matches (deriv c r) s'
  end.

(** A text taken literally. *)
Fixpoint lit (s : string) : re :=
  match s with
  | EmptyString => Eps
  | String c s' => Cat (Sym (Char c)) (lit s')
  end.

(** [r+] *)
Definition plus (r : re) : re := Cat r (Star r).

(** The bytes that have a meaning of their own in the syntax of a
    pattern. *)
Definition metacharacters : string := "\.+*?()|[]{}^$".

Fixpoint occurs (c : ascii) (s : string) : bool :=
  match s with
  | EmptyString => false
  | String d s' => Ascii.eqb c d || occurs c s'
  end.

(** A text that stands for itself when it is written into a pattern:
    ASCII bytes, none of them a metacharacter. *)
Fixpoint plain (s : string) : bool :=
  match s with
  | EmptyString => true
  | String c s' =>
      Nat.ltb (nat_of_ascii c) 128 && negb (occurs c metacharacters) && plain s'
  end.

End regexp.

(** ** The service processor *)

(** [Ok a] is Go's [(a, nil)], [Err msg] is [(zero, errors.New(msg))]: the
    callers in the source never read the value next to a non-nil error. *)
Inductive outcome (A : Type) : Type :=
| Ok (a : A)
| Err (msg : string).
Arguments Ok {A} a.
Arguments Err {A} msg.

(** A channel the handler made is known by its name. *)
Definition channel : Set := nat.

(** A channel made by the processor, as a state: the pending items, oldest
    first, the capacity and whether it has been closed. *)
Record chan (A : Type) : Type := MkChan {
  buf : list A;
  cap : nat;
  closed : bool
}.
Arguments MkChan {A} buf cap closed.
Arguments buf {A} c.
Arguments cap {A} c.
Arguments closed {A} c.

(** [make(chan A, n)] *)
Definition make_chan (A : Type) (n : nat) : chan A := MkChan [] n false.

Section Processor.

(** The Go values that travel as messages (decoded requests, replies,
    stream items). *)
Variable Message : Type.

(** What [reflect.Value.Interface()] gives back for a value a handler
    returned: the nil interface, a message, a non-nil error with its text,
    or a channel. *)
Inductive any : Type :=
| Nil
| Value (m : Message)
| Error (e : string)
| Channel (c : channel).

(** The [interface{}] handed to a registration. [hcall] is what calling
    the value does when it is a function: the returned values, one per
    result of [htype]. *)
Record value : Type := MkValue {
  htype : reflect.type;
  hcall : Message -> list any
}.

(** [None] is the nil interface. *)
Definition iface : Type := option value.

(** [reflect.TypeOf(f)]: nil for the nil interface. *)
Definition TypeOf (f : iface) : option reflect.type := htype <$> f.

(** Calling a method of a [reflect.Type]: a nil receiver panics. *)
Definition recv (t : option reflect.type) : result reflect.type :=
  match t with
  | Some ft => Ret ft
  | None => Panic "runtime error: invalid memory address or nil pointer dereference"
  end.

(** [serviceHandler] stores the handler and the message-type. *)
Record serviceHandler : Type := MkServiceHandler {
  handler : iface;
  msgType : reflect.type;
  streaming : bool
}.

Inductive kindGET : Set := invalidGET | emptyGET | intGET | sliceGET.

#[global] Instance kindGET_eq_dec : EqDecision kindGET.
Proof. solve_decision. Defined.

(** The variables the REST closure [h] of [RegisterRESTHandler] captures. *)
Record restHandler : Type := MkRestHandler {
  rest_k : kindGET;
  rest_fieldNameGET : string;
  rest_namespace : string;
  rest_resource : string;
  rest_sh : serviceHandler;
  rest_f : iface
}.

(** [ServiceProcessor]: the registry, and the router reached through the
    embedded context ([p.server.WebSocket.mux]) as the list of its
    registered patterns. *)
Record ServiceProcessor : Type := MkServiceProcessor {
  handlers : gmap string serviceHandler;
  mux : list (string * restHandler)
}.

(** [NewServiceProcessor] (with a router that has no routes yet). *)
Definition NewServiceProcessor : ServiceProcessor :=
  {| handlers := ∅; mux := [] |}.

Definition set_handlers (p : ServiceProcessor) (pm : string)
    (sh : serviceHandler) : ServiceProcessor :=
  {| handlers := <[pm := sh]> (handlers p); mux := mux p |}.

(** *** Validation *)

Definition handlerInputCheck (f : iface) : result error :=
  ft ← recv (TypeOf f);
  if decide (reflect.kind ft ≠ reflect.Func) then
    Ret (errors_New "Input is not a function")
  else
  n ← reflect.NumIn ft;
  if decide (n ≠ 1) then
    Ret (errors_New "Need one argument: *struct")
  else
  cr ← reflect.In ft 0;
  if decide (reflect.kind cr ≠ reflect.Ptr) then
    Ret (errors_New "Argument must be a *pointer* to a struct")
  else
  e ← reflect.Elem cr;
  if decide (reflect.kind e ≠ reflect.Struct) then
    Ret (errors_New "Argument must be a pointer to *struct*")
  else Ret None.

Definition createServiceHandler (f : iface)
    : result (outcome (string * serviceHandler)) :=
  (* check output *)
  ft ← recv (TypeOf f);
  n ← reflect.NumOut ft;
  if decide (n ≠ 2) then
    Ret (Err "Need 2 return values: network.Body and error")
  else
  (* first output *)
  ret ← reflect.Out ft 0;
  chk ← (if decide (reflect.kind ret ≠ reflect.Interface) then
           if decide (reflect.kind ret ≠ reflect.Ptr) then
             Ret (errors_New "1st return value must be a *pointer* to a struct or an interface")
           else
             e ← reflect.Elem ret;
             if decide (reflect.kind e ≠ reflect.Struct) then
               Ret (errors_New "1st return value must be a pointer to a *struct* or an interface")
             else Ret None
         else Ret None);
  match chk with
  | Some msg => Ret (Err msg)
  | None =>
      (* second output *)
      o1 ← reflect.Out ft 1;
      if negb (reflect.Implements_errType o1) then
        Ret (Err ("2nd return value has to implement error, but is: " +:+
                  reflect.String o1))
      else
      cr ← reflect.In ft 0;
      e ← reflect.Elem cr;
      pm ← index (strings.Split (reflect.String e) ".") 1;
      Ret (Ok (pm, MkServiceHandler f e false))
  end.

(** [RegisterHandler] will store the given handler that will be used by
    the service. The result is the returned error and the processor
    afterwards; a panic leaves the processor as it was at that point. *)
Definition RegisterHandler (f : iface) (p : ServiceProcessor)
    : result error * ServiceProcessor :=
  match handlerInputCheck f with
  | Panic msg => (Panic msg, p)
  | Ret (Some err) => (Ret (Some err), p)
  | Ret None =>
      match createServiceHandler f with
      | Panic msg => (Panic msg, p)
      | Ret (Err err) => (Ret (Some err), p)
      | Ret (Ok (pm, sh)) => (Ret None, set_handlers p pm sh)
      end
  end.

(** The body of [RegisterStreamingHandler] after the input check: the
    checks of the three outputs and the entry to store. *)
Definition streamingServiceHandler (f : iface)
    : result (outcome (string * serviceHandler)) :=
  (* check output *)
  ft ← recv (TypeOf f);
  n ← reflect.NumOut ft;
  if decide (n ≠ 3) then
    Ret (Err "Need 3 return values: chan interface{}, chan bool and error")
  else
  (* first output *)
  ret0 ← reflect.Out ft 0;
  if decide (reflect.kind ret0 ≠ reflect.Chan) then
    Ret (Err "1st return value must be a channel")
  else
  el0 ← reflect.Elem ret0;
  chk ← (if decide (reflect.kind el0 ≠ reflect.Interface) then
           if decide (reflect.kind el0 ≠ reflect.Ptr) then
             Ret (errors_New "1st return value must be a channel of a *pointer* to a struct")
           else
             e ← reflect.Elem el0;
             if decide (reflect.kind e ≠ reflect.Struct) then
               Ret (errors_New "1st return value must be a channel of a pointer to a *struct*")
             else Ret None
         else Ret None);
  match chk with
  | Some msg => Ret (Err msg)
  | None =>
      (* second output *)
      ret1 ← reflect.Out ft 1;
      if decide (reflect.kind ret1 ≠ reflect.Chan) then
        Ret (Err "2nd return value must be a channel")
      else
      el1 ← reflect.Elem ret1;
      if decide (reflect.kind el1 ≠ reflect.Bool) then
        Ret (Err "2nd return value must be a boolean channel")
      else
      (* third output *)
      o2 ← reflect.Out ft 2;
      if negb (reflect.Implements_errType o2) then
        Ret (Err ("3rd return value has to implement error, but is: " +:+
                  reflect.String o2))
      else
      cr ← reflect.In ft 0;
      e ← reflect.Elem cr;
      pm ← index (strings.Split (reflect.String e) ".") 1;
      Ret (Ok (pm, MkServiceHandler f e true))
  end.

(** [RegisterStreamingHandler] stores a handler that is responsible for
    streaming messages to the client via a channel. *)
Definition RegisterStreamingHandler (f : iface) (p : ServiceProcessor)
    : result error * ServiceProcessor :=
  match handlerInputCheck f with
  | Panic msg => (Panic msg, p)
  | Ret (Some err) => (Ret (Some err), p)
  | Ret None =>
      match streamingServiceHandler f with
      | Panic msg => (Panic msg, p)
      | Ret (Err err) => (Ret (Some err), p)
      | Ret (Ok (pm, sh)) => (Ret None, set_handlers p pm sh)
      end
  end.

(** [RegisterHandlers] takes a vararg of messages to register and returns
    the first error encountered or nil if everything was OK. *)
Fixpoint RegisterHandlers (procs : list iface) (p : ServiceProcessor)
    : result error * ServiceProcessor :=
  match procs with
  | [] => (Ret None, p)
  | pr :: rest =>
      match RegisterHandler pr p with
      | (Ret None, p') => RegisterHandlers rest p'
      | stop => stop
      end
  end.

Fixpoint RegisterStreamingHandlers (procs : list iface) (p : ServiceProcessor)
    : result error * ServiceProcessor :=
  match procs with
  | [] => (Ret None, p)
  | pr :: rest =>
      match RegisterStreamingHandler pr p with
      | (Ret None, p') => RegisterStreamingHandlers rest p'
      | stop => stop
      end
  end.

(** *** Dispatch *)

(** [StreamingTunnel] is used as a tunnel between service processor and
    its caller: [out] is the channel the processor makes, [close] the
    handler's own channel. *)
Record StreamingTunnel : Type := MkStreamingTunnel {
  out : chan bytes;
  close : option channel
}.

(** What a request does besides returning: the calls to the serialisers
    and to the handler, the logged errors and the goroutine it starts, in
    order. *)
Inductive event : Type :=
| EvDecode (t : reflect.type) (b : bytes)
| EvUnmarshal (t : reflect.type) (payload : string)
| EvCall (f : iface) (arg : Message)
| EvEncode (v : any)
| EvMarshal (v : any)
| EvLogError (msg : string)
| EvGo (inChan : any) (outChan : chan bytes).

(** A computation that returns or panics and leaves a trace. *)
Definition proc (A : Type) : Type := result A * list event.

#[global] Instance proc_ret : MRet proc := fun A a => (Ret a, []).
#[global] Instance proc_bind : MBind proc := fun A B k m =>
  match m with
  | (Ret a, t1) => let '(r, t2) := k a in (r, t1 ++ t2)
  | (Panic msg, t1) => (Panic msg, t1)
  end.

Definition emit (e : event) : proc unit := (Ret tt, [e]).
Definition lift {A : Type} (r : result A) : proc A := (r, []).

(** The external collaborators: [protobuf.DecodeWithConstructors] into a
    fresh value of the given type, [protobuf.Encode], [json.Unmarshal],
    [json.Marshal], [hex.DecodeString],
    [base64.StdEncoding.EncodeToString], and [regexp.MatchString] on the
    patterns that [matchPath] below does not read itself. *)
Variable DecodeWithConstructors : bytes -> reflect.type -> outcome Message.
Variable Encode : any -> outcome bytes.
Variable json_Unmarshal : string -> reflect.type -> outcome Message.
Variable json_Marshal : any -> outcome string.
Variable hex_DecodeString : string -> outcome string.
Variable base64_EncodeToString : string -> string.
Variable regexp_MatchString : string -> string -> outcome bool.

(** The type assertion [.(chan bool)] on the second result of a handler of
    type [ft]: the dynamic type is the declared one, and it has to be
    exactly [chan bool]. *)
Definition assert_chan_bool (ft : reflect.type) (v : any) : result channel :=
  o1 ← reflect.Out ft 1;
  match o1, v with
  | reflect.ChanOf reflect.BothDir (reflect.Basic reflect.Tbool), Channel c => Ret c
  | _, _ => Panic "interface conversion: interface {} is not chan bool"
  end.

(** The type assertion [.(error)] on a non-nil value. *)
Definition assert_error (v : any) : result string :=
  match v with
  | Error e => Ret e
  | _ => Panic "interface conversion: interface {} is not error: missing method Error"
  end.

(** [callInterfaceFunc]: the copy of the decoded input into the fresh
    argument always succeeds for an entry of the registry, whose message
    type is the element type of the argument, and is not represented. *)
Definition callInterfaceFunc (handler : iface) (input : Message)
    (streaming : bool) : proc (any * option channel * error) :=
  ft ← lift (recv (TypeOf handler));
  to ← lift (reflect.In ft 0);
  _ ← lift (reflect.Elem to);
  _ ← emit (EvCall handler input);
  let ret := match handler with
             | Some h => hcall h input
             | None => []
             end in
  if streaming then
    ierr ← lift (index ret 2);
    match ierr with
    | Nil =>
        r0 ← lift (index ret 0);
        r1 ← lift (index ret 1);
        c ← lift (assert_chan_bool ft r1);
        mret (r0, Some c, None)
    | _ =>
        e ← lift (assert_error ierr);
        mret (Nil, None, Some e)
    end
  else
    ierr ← lift (index ret 1);
    match ierr with
    | Nil =>
        r0 ← lift (index ret 0);
        mret (r0, None, None)
    | _ =>
        e ← lift (assert_error ierr);
        mret (Nil, None, Some e)
    end.

(** [ProcessClientRequest] implements the Service interface. The request
    [req] is not read. The goroutine it starts on a streaming route is the
    event [EvGo reply outChan]; its run is the transition system
    [Forwarder] below. *)
Definition ProcessClientRequest (p : ServiceProcessor) (path : string)
    (buf : bytes) : proc (bytes * option StreamingTunnel * error) :=
  let mh := handlers p !! path in
  '(reply, stopServiceChan, err) ←
    match mh with
    | None =>
        let err := "The requested message hasn't been registered: " +:+ path in
        _ ← emit (EvLogError err);
        mret (Nil, None, Some err)
    | Some h =>
        _ ← emit (EvDecode (msgType h) buf);
        match DecodeWithConstructors buf (msgType h) with
        | Err err => mret (Nil, None, Some err)
        | Ok msg => callInterfaceFunc (handler h) msg (streaming h)
        end
    end;
  match err with
  | Some e => mret (None, None, Some e)
  | None =>
      if from_option streaming false mh then
        let outChan := make_chan bytes 100 in
        _ ← emit (EvGo reply outChan);
        mret (None, Some (MkStreamingTunnel outChan stopServiceChan), None)
      else
        _ ← emit (EvEncode reply);
        match Encode reply with
        | Err err =>
            _ ← emit (EvLogError err);
            mret (None, None, Some EmptyString)
        | Ok b => mret (b, None, None)
        end
  end.

(** *** The REST bridge *)

(** What the closure reads of an [http.Request]: the method, the escaped
    path, the [Content-Type] header and what reading the body gives. *)
Record Request : Type := MkRequest {
  Method : string;
  EscapedPath : string;
  ContentType : string;
  Body : outcome string
}.

(** What it writes to the [http.ResponseWriter]. *)
Record Response : Type := MkResponse {
  StatusCode : nat;
  ResponseContentType : string;
  Written : string
}.

Definition newline : string := String (ascii_of_nat 10) EmptyString.
Definition dquote : string := String (ascii_of_nat 34) EmptyString.

(** [http.Error(w, msg, code)] *)
Definition http_Error (msg : string) (code : nat) : Response :=
  MkResponse code "text/plain; charset=utf-8" (msg +:+ newline).

Definition StatusOK : nat := 200.
Definition StatusBadRequest : nat := 400.
Definition StatusNotFound : nat := 404.
Definition StatusMethodNotAllowed : nat := 405.
Definition StatusInternalServerError : nat := 500.

(** The pattern [^/v\d/%s/%s/ tail $] with a plain namespace and a plain
    resource filled in: they stand for themselves. *)
Definition pathPattern (namespace resource : string) (tail : regexp.re)
    : regexp.re :=
  regexp.Cat (regexp.lit "/v")
    (regexp.Cat (regexp.Sym regexp.Digit)
       (regexp.Cat (regexp.lit "/")
          (regexp.Cat (regexp.lit namespace)
             (regexp.Cat (regexp.lit "/")
                (regexp.Cat (regexp.lit resource)
                   (regexp.Cat (regexp.lit "/") tail)))))).

(** The text of the pattern, as [fmt.Sprintf] makes it. *)
Definition pathPatternText (namespace resource tail : string) : string :=
  "^/v\d/" +:+ namespace +:+ "/" +:+ resource +:+ "/" +:+ tail +:+ "$".

(** [regexp.MatchString(fmt.Sprintf(...), path)]: the namespace and the
    resource are written into the pattern as they are. When both are
    plain the pattern is [pathPattern] and always compiles; any other
    text is a pattern for the library to read, and it may refuse it. *)
Definition matchPath (namespace resource tailText : string) (tail : regexp.re)
    (path : string) : outcome bool :=
  if regexp.plain namespace && regexp.plain resource
  then Ok (regexp.matches (pathPattern namespace resource tail) path)
  else regexp_MatchString (pathPatternText namespace resource tailText) path.

(** The first half of the closure [h]: the JSON payload, or the response
    of an early return. *)
Definition restPayload (h : restHandler) (r : Request) : string + Response :=
  if String.eqb (Method r) "GET" then
    match rest_k h with
    | emptyGET => inl "{}"
    | intGET =>
        match matchPath (rest_namespace h) (rest_resource h) "\d+"
                (regexp.plus (regexp.Sym regexp.Digit)) (EscapedPath r) with
        | Err err => inr (http_Error err StatusInternalServerError)
        | Ok false => inr (http_Error "invalid path" StatusNotFound)
        | Ok true =>
            let num := path.Split_file (EscapedPath r) in
            inl ("{" +:+ dquote +:+ rest_fieldNameGET h +:+ dquote +:+ ": " +:+ num +:+ "}")
        end
    | sliceGET =>
        match matchPath (rest_namespace h) (rest_resource h) "[0-9a-f]+"
                (regexp.plus (regexp.Sym regexp.HexLower)) (EscapedPath r) with
        | Err err => inr (http_Error err StatusInternalServerError)
        | Ok false => inr (http_Error "invalid path" StatusNotFound)
        | Ok true =>
            let hexStr := path.Split_file (EscapedPath r) in
            match hex_DecodeString hexStr with
            | Err err => inr (http_Error err StatusBadRequest)
            | Ok byteBuf =>
                let encoded := base64_EncodeToString byteBuf in
                inl ("{" +:+ dquote +:+ rest_fieldNameGET h +:+ dquote +:+ ": " +:+ dquote +:+
                     encoded +:+ dquote +:+ "}")
            end
        end
    | invalidGET => inr (http_Error "invalid GET" StatusBadRequest)
    end
  else if String.eqb (Method r) "POST" || String.eqb (Method r) "PUT" then
    if negb (String.eqb (ContentType r) "application/json") then
      inr (http_Error "content type needs to be application/json" StatusBadRequest)
    else
      match Body r with
      | Err err => inr (http_Error err StatusBadRequest)
      | Ok b => inl b
      end
  else
    inr (http_Error ("unsupported method: " +:+ Method r) StatusMethodNotAllowed).

(** The closure [h] of [RegisterRESTHandler]. *)
Definition restServe (h : restHandler) (r : Request) : proc Response :=
  match restPayload h r with
  | inr resp => mret resp
  | inl msgBuf =>
      _ ← emit (EvUnmarshal (msgType (rest_sh h)) msgBuf);
      match json_Unmarshal msgBuf (msgType (rest_sh h)) with
      | Err err => mret (http_Error err StatusBadRequest)
      | Ok msg =>
          '(out, tun, err) ← callInterfaceFunc (rest_f h) msg false;
          match err with
          | Some e => mret (http_Error e StatusBadRequest)
          | None =>
              match tun with
              | Some _ =>
                  mret (http_Error "streaming requests are not supported" StatusBadRequest)
              | None =>
                  _ ← emit (EvMarshal out);
                  match json_Marshal out with
                  | Err e => mret (http_Error e StatusInternalServerError)
                  | Ok reply => mret (MkResponse StatusOK "application/json" reply)
                  end
              end
          end
      end
  end.

(** [prepareHandlerGET] check whether the first argument of f has any
    fields; if it does then make sure the number of fields is either 0 or
    1; if there is 1 field then it has to be an int or a slice of bytes. *)
Definition prepareHandlerGET (f : iface) : result (outcome (kindGET * string)) :=
  ft ← recv (TypeOf f);
  a ← reflect.In ft 0;
  in0 ← reflect.Elem a;
  if decide (reflect.kind in0 ≠ reflect.Struct) then
    Ret (Err "input argument must be a struct")
  else
  n ← reflect.NumField in0;
  if decide (n = 0) then Ret (Ok (emptyGET, EmptyString))
  else if decide (n = 1) then
    fld ← reflect.Field in0 0;
    (* we support int and byte slices only *)
    isByteSlice ←
      ((if decide (reflect.kind (snd fld) = reflect.Slice) then
          e ← reflect.Elem (snd fld);
          Ret (bool_decide (reflect.kind e = reflect.Uint8))
        else Ret false) : result bool);
    match isByteSlice with
    | true => Ret (Ok (sliceGET, fst fld))
    | false =>
        if decide (reflect.kind (snd fld) = reflect.Int) then
          Ret (Ok (intGET, fst fld))
        else Ret (Err "only byte slices and int are supported")
    end
  else Ret (Err "number of fields must be 0 or 1").

(** [ServeMux.HandleFunc]: registering a pattern twice panics. *)
Definition HandleFunc (m : list (string * restHandler)) (pattern : string)
    (h : restHandler) : result (list (string * restHandler)) :=
  if existsb (fun e => String.eqb (fst e) pattern) m then
    Panic ("http: multiple registrations for " +:+ pattern)
  else Ret (m ++ [(pattern, h)]).

(** [RegisterRESTHandler] takes an interface of type
    [func(msg interface{})(ret interface{}, err error)], where msg and ret
    must be pointers to structs. *)
Definition RegisterRESTHandler (f : iface) (since : Z)
    (namespace method : string) (p : ServiceProcessor)
    : result error * ServiceProcessor :=
  if negb (String.eqb method "GET") && negb (String.eqb method "POST")
     && negb (String.eqb method "PUT") then
    (Ret (errors_New "invalid REST method"), p)
  else if (since <? 3)%Z then
    (Ret (errors_New "earliest supported API level must be greater or equal to 3"), p)
  else
    match createServiceHandler f with
    | Panic msg => (Panic msg, p)
    | Ret (Err err) => (Ret (Some err), p)
    | Ret (Ok (resource, sh)) =>
        match (if String.eqb method "GET" then prepareHandlerGET f
               else Ret (Ok (invalidGET, EmptyString))) with
        | Panic msg => (Panic msg, p)
        | Ret (Err err) => (Ret (Some err), p)
        | Ret (Ok (k, fieldNameGET)) =>
            let h := MkRestHandler k fieldNameGET namespace resource sh f in
            let finalSlash :=
              if bool_decide (k = intGET) || bool_decide (k = sliceGET)
              then "/" else EmptyString in
            match HandleFunc (mux p)
                    ("/v" +:+ pretty since +:+ "/" +:+ namespace +:+ "/" +:+
                     resource +:+ finalSlash) h with
            | Panic msg => (Panic msg, p)
            | Ret m => (Ret None, {| handlers := handlers p; mux := m |})
            end
        end
    end.

(** *** The forwarding goroutine

    The goroutine [ProcessClientRequest] starts on a streaming route, run
    together with the handler that feeds its channel and the transport
    that reads the tunnel. The handler is a producer of the values of
    [script], in order, that closes its channel after the last one. The
    goroutine receives from the handler's channel through
    [reflect.Select], which looks at the direction [dir] of the channel's
    type and panics on a send-only channel; a panic of the goroutine ends
    the program, the handler and the transport with it. *)

(** Where the goroutine stands: at [reflect.Select], at [outChan <- buf]
    with the encoded item in hand, returned, or panicked. *)
Inductive forwarder : Type :=
| Receiving
| Sending (b : bytes)
| Stopped
| Panicked (msg : string).

(** The program is still running. *)
Definition alive (f : forwarder) : Prop :=
  match f with
  | Panicked _ => False
  | _ => True
  end.

(** The panic of [reflect.Select] on a receive case whose channel cannot
    be received from. *)
Definition select_panic : string :=
  "reflect.Select: RecvDir case using send-only channel".

Record stream : Type := MkStream {
  script : list any;        (* what the handler has still to send *)
  hclosed : bool;           (* the handler has closed its channel *)
  inChan : list any;        (* the items pending in the handler's channel *)
  inCap : nat;              (* its capacity, 0 for an unbuffered channel *)
  fwd : forwarder;
  outChan : chan bytes;
  delivered : list bytes;   (* what the transport has read so far *)
  eof : bool                (* the transport has seen the channel closed *)
}.

(** The goroutine with a received value [v] in hand: it encodes it and
    goes on to send, or closes its channel and returns. *)
Definition received (v : any) (outC : chan bytes) : forwarder * chan bytes :=
  match Encode v with
  | Ok b => (Sending b, outC)
  | Err _ => (Stopped, MkChan (buf outC) (cap outC) true)
  end.

Inductive step (dir : reflect.ChanDir) : stream -> stream -> Prop :=
| handler_send v vs hc ic n f oc d e :
    (* a send into a free slot of the handler's channel *)
    alive f ->
    length ic < n ->
    step dir (MkStream (v :: vs) hc ic n f oc d e)
             (MkStream vs hc (ic ++ [v]) n f oc d e)
| handler_handoff v vs hc n oc d e :
    (* a send straight to the goroutine waiting in Select *)
    dir <> reflect.SendDir ->
    step dir (MkStream (v :: vs) hc [] n Receiving oc d e)
             (MkStream vs hc [] n (received v oc).1 (received v oc).2 d e)
| handler_close ic n f oc d e :
    alive f ->
    step dir (MkStream [] false ic n f oc d e)
             (MkStream [] true ic n f oc d e)
| forwarder_panics vs hc ic n oc d e :
    (* Select refuses the receive case: the channel is send-only *)
    dir = reflect.SendDir ->
    step dir (MkStream vs hc ic n Receiving oc d e)
             (MkStream vs hc ic n (Panicked select_panic) oc d e)
| forwarder_receive vs hc v ic n oc d e :
    (* Select returns a value: chosen = 0, ok = true *)
    dir <> reflect.SendDir ->
    step dir (MkStream vs hc (v :: ic) n Receiving oc d e)
             (MkStream vs hc ic n (received v oc).1 (received v oc).2 d e)
| forwarder_closed vs n oc d e :
    (* Select returns ok = false: the channel is closed and drained *)
    dir <> reflect.SendDir ->
    step dir (MkStream vs true [] n Receiving oc d e)
             (MkStream vs true [] n Stopped (MkChan (buf oc) (cap oc) true) d e)
| forwarder_send vs hc ic n b oc d e :
    (* outChan <- buf, when the buffer has room *)
    length (buf oc) < cap oc ->
    step dir (MkStream vs hc ic n (Sending b) oc d e)
             (MkStream vs hc ic n Receiving
                (MkChan (buf oc ++ [b]) (cap oc) (closed oc)) d e)
| transport_receive vs hc ic n f b bs c cl d :
    alive f ->
    step dir (MkStream vs hc ic n f (MkChan (b :: bs) c cl) d false)
             (MkStream vs hc ic n f (MkChan bs c cl) (d ++ [b]) false)
| transport_eof vs hc ic n f c d :
    (* a receive on the closed, drained channel *)
    alive f ->
    step dir (MkStream vs hc ic n f (MkChan [] c true) d false)
             (MkStream vs hc ic n f (MkChan [] c true) d true).

(** Reachability, by steps added at the end. *)
Inductive steps (dir : reflect.ChanDir) (s : stream) : stream -> Prop :=
| steps_refl : steps dir s s
| steps_step s1 s2 : steps dir s s1 -> step dir s1 s2 -> steps dir s s2.

(** The direction of the channel a streaming handler returns first, as
    its type has it: the dynamic type of the [reply] that the goroutine
    hands to [reflect.Select]. *)
Definition replyDir (f : iface) : option reflect.ChanDir :=
  match f with
  | None => None
  | Some v =>
      match reflect.Out (htype v) 0 with
      | Ret t =>
          match reflect.underlying t with
          | reflect.ChanOf d _ => Some d
          | _ => None
          end
      | Panic _ => None
      end
  end.

(** The stream when the tunnel is handed out: nothing sent yet, the
    goroutine about to select. *)
Definition start (vs : list any) (n : nat) (outC : chan bytes) : stream :=
  MkStream vs false [] n Receiving outC [] false.

(** The steps a stream has still to make, at most. *)
Definition weight (s : stream) : nat :=
  4 * length (script s) + (if hclosed s then 0 else 1) +
  3 * length (inChan s) +
  match fwd s with
  | Receiving => 1
  | Sending _ => 3
  | Stopped | Panicked _ => 0
  end +
  length (buf (outChan s)) + (if eof s then 0 else 1).

End Processor.

Arguments Nil {Message}.
Arguments Value {Message}.
Arguments Error {Message}.
Arguments Channel {Message}.
Arguments MkValue {Message}.
Arguments htype {Message}.
Arguments hcall {Message}.
Arguments TypeOf {Message}.
Arguments MkServiceHandler {Message}.
Arguments handler {Message}.
Arguments msgType {Message}.
Arguments streaming {Message}.
Arguments MkServiceProcessor {Message}.
Arguments handlers {Message}.
Arguments mux {Message}.
Arguments set_handlers {Message}.
Arguments handlerInputCheck {Message}.
Arguments createServiceHandler {Message}.
Arguments streamingServiceHandler {Message}.
Arguments prepareHandlerGET {Message}.
Arguments RegisterHandler {Message}.
Arguments RegisterStreamingHandler {Message}.
Arguments RegisterHandlers {Message}.
Arguments RegisterStreamingHandlers {Message}.
Arguments RegisterRESTHandler {Message}.
Arguments ProcessClientRequest {Message}.
Arguments callInterfaceFunc {Message}.
Arguments MkRestHandler {Message}.
Arguments restPayload {Message}.
Arguments restServe {Message}.
Arguments EvDecode {Message}.
Arguments EvUnmarshal {Message}.
Arguments EvCall {Message}.
Arguments EvEncode {Message}.
Arguments EvMarshal {Message}.
Arguments EvLogError {Message}.
Arguments EvGo {Message}.
Arguments MkStream {Message}.
Arguments script {Message}.
Arguments hclosed {Message}.
Arguments inChan {Message}.
Arguments inCap {Message}.
Arguments fwd {Message}.
Arguments outChan {Message}.
Arguments delivered {Message}.
Arguments eof {Message}.
Arguments replyDir {Message}.
Arguments step {Message}.
Arguments steps {Message}.
Arguments received {Message}.
Arguments start {Message}.
Arguments weight {Message}.
Arguments rest_k {Message}.
Arguments rest_fieldNameGET {Message}.
Arguments rest_namespace {Message}.
Arguments rest_resource {Message}.

(** The last statements of [createServiceHandler] and of
    [RegisterStreamingHandler], past the checks: the route key is the
    second segment of the printed input type. *)
Definition derive {Message : Type} (f : iface Message) (s : reflect.type)
    (stream : bool) : result (outcome (string * serviceHandler Message)) :=
  pm ← index (strings.Split (reflect.String s) ".") 1;
  Ret (Ok (pm, MkServiceHandler f s stream)).

(** ** The shapes of the specification

    The handler shapes in the words of the specification, next to the
    checks of the source. *)

Module Shape.
Import reflect.

(** A pointer to a struct. *)
Definition ptr_to_struct (t : type) : Prop :=
  exists s, underlying t = PtrTo s /\ kind s = Struct.

(** A first result of a unary handler: a pointer to a struct, or an
    interface. *)
Definition reply_type (t : type) : Prop :=
  ptr_to_struct t \/ kind t = Interface.

(** A first result of a streaming handler: a channel of an interface or of
    a pointer to a struct. *)
Definition reply_channel (t : type) : Prop :=
  exists d el, underlying t = ChanOf d el /\
               (kind el = Interface \/ ptr_to_struct el).

(** A boolean channel. *)
Definition bool_channel (t : type) : Prop :=
  exists d el, underlying t = ChanOf d el /\ kind el = Bool.

(** A value satisfying the error capability. *)
Definition error_type (t : type) : Prop := Implements_errType t = true.

(** The unary shape: exactly one argument, a pointer to a struct, and
    exactly two results, the reply and an error. *)
Definition unary (ft : type) : Prop :=
  exists a r e v,
    underlying ft = FuncOf [a] [r; e] v /\
    ptr_to_struct a /\ reply_type r /\ error_type e.

(** The streaming shape: the same argument, and exactly three results. *)
Definition streaming (ft : type) : Prop :=
  exists a c b e v,
    underlying ft = FuncOf [a] [c; b; e] v /\
    ptr_to_struct a /\ reply_channel c /\ bool_channel b /\ error_type e.

(** The input struct type of a handler. *)
Definition input_struct (ft s : type) : Prop :=
  exists a outs v,
    underlying ft = FuncOf [a] outs v /\ underlying a = PtrTo s /\
    kind s = Struct.

(** The places of a signature a diagnostic can name. *)
Inductive position : Set :=
| WholeInput
| ArgumentList
| Argument
| ResultList
| Result (i : nat).

(** The place a diagnostic of the source names, by how it starts. *)
Definition position_named (msg : string) : option position :=
  if String.prefix "Input is not a function" msg then Some WholeInput
  else if String.prefix "Need one argument" msg then Some ArgumentList
  else if String.prefix "Argument must be" msg then Some Argument
  else if String.prefix "Need 2 return values" msg
          || String.prefix "Need 3 return values" msg then Some ResultList
  else if String.prefix "1st return value" msg then Some (Result 0)
  else if String.prefix "2nd return value" msg then Some (Result 1)
  else if String.prefix "3rd return value" msg then Some (Result 2)
  else None.

(** What each result of a handler has to be. *)
Definition result_ok (stream : bool) (i : nat) (t : type) : Prop :=
  match stream, i with
  | false, 0 => reply_type t
  | false, 1 => error_type t
  | true, 0 => reply_channel t
  | true, 1 => bool_channel t
  | true, 2 => error_type t
  | _, _ => True
  end.

(** The signature [ft] is wrong at the place [pos]. *)
Definition offends (stream : bool) (ft : type) (pos : position) : Prop :=
  match pos with
  | WholeInput => kind ft <> Func
  | ArgumentList =>
      exists ins outs v, underlying ft = FuncOf ins outs v /\ length ins <> 1
  | Argument =>
      exists a outs v, underlying ft = FuncOf [a] outs v /\ ~ ptr_to_struct a
  | ResultList =>
      exists ins outs v, underlying ft = FuncOf ins outs v /\
                         length outs <> (if stream then 3 else 2)
  | Result i =>
      exists ins outs v r,
        underlying ft = FuncOf ins outs v /\ outs !! i = Some r /\
        ~ result_ok stream i r
  end.

(** The fields a GET route accepts: none, or one of kind int or a slice
    of bytes. *)
Definition get_field_ok (t : type) : Prop :=
  kind t = Int \/ exists e, underlying t = SliceOf e /\ kind e = Uint8.

Definition get_fields_ok (s : type) : Prop :=
  exists fs, underlying s = StructOf fs /\
    (fs = [] \/ exists n t, fs = [(n, t)] /\ get_field_ok t).

(** The path of a GET route with an integer parameter as the
    specification has it: any version number. *)
Definition specPathPattern (namespace resource : string) : regexp.re :=
  regexp.Cat (regexp.lit "/v")
    (regexp.Cat (regexp.plus (regexp.Sym regexp.Digit))
       (regexp.Cat (regexp.lit "/")
          (regexp.Cat (regexp.lit namespace)
             (regexp.Cat (regexp.lit "/")
                (regexp.Cat (regexp.lit resource)
                   (regexp.Cat (regexp.lit "/")
                      (regexp.plus (regexp.Sym regexp.Digit)))))))).

End Shape.

(** ** The operations of a service processor *)

Inductive operation (Message : Type) : Type :=
| OpRegisterHandler (f : iface Message)
| OpRegisterStreamingHandler (f : iface Message)
| OpRegisterHandlers (procs : list (iface Message))
| OpRegisterStreamingHandlers (procs : list (iface Message))
| OpRegisterRESTHandler (f : iface Message) (since : Z) (namespace method : string)
| OpProcessClientRequest (path : string) (buf : bytes).
Arguments OpRegisterHandler {Message}.
Arguments OpRegisterStreamingHandler {Message}.
Arguments OpRegisterHandlers {Message}.
Arguments OpRegisterStreamingHandlers {Message}.
Arguments OpRegisterRESTHandler {Message}.
Arguments OpProcessClientRequest {Message}.

(** The processor after an operation, returned or panicked.
    [ProcessClientRequest] only reads its receiver. *)
Definition after {Message : Type} (o : operation Message)
    (p : ServiceProcessor Message) : ServiceProcessor Message :=
  match o with
  | OpRegisterHandler f => (RegisterHandler f p).2
  | OpRegisterStreamingHandler f => (RegisterStreamingHandler f p).2
  | OpRegisterHandlers procs => (RegisterHandlers procs p).2
  | OpRegisterStreamingHandlers procs => (RegisterStreamingHandlers procs p).2
  | OpRegisterRESTHandler f since namespace method =>
      (RegisterRESTHandler f since namespace method p).2
  | OpProcessClientRequest _ _ => p
  end.

Definition is_registration {Message : Type} (o : operation Message) : bool :=
  match o with
  | OpProcessClientRequest _ _ => false
  | _ => true
  end.

(** ** Sample handlers

    Messages are numbers here; the decoder reads the length of the
    payload and the encoder writes one byte per unit. As [protobuf.Encode]
    does, the encoder gives no bytes and no error for the nil interface,
    and an error for what is not a message. *)

Module Sample.
Import reflect.

Definition Body : type :=
  Named "network" "Body" [] [] (StructOf [("A", Basic Tint)]).

Definition Pair : type :=
  StructOf [("A", Basic Tstring); ("B", Basic Tstring)].

(** [func(msg *network.Body) (ret *network.Body, err error)] *)
Definition unaryType : type :=
  FuncOf [PtrTo Body] [PtrTo Body; errType] false.

(** [func(msg *network.Body) (interface{}, error)] *)
Definition anyType : type :=
  FuncOf [PtrTo Body] [InterfaceOf []; errType] false.

(** [func(msg *network.Body) (chan interface{}, chan bool, error)] *)
Definition streamType : type :=
  FuncOf [PtrTo Body]
    [ChanOf BothDir (InterfaceOf []); ChanOf BothDir (Basic Tbool); errType]
    false.

(** [func(msg *struct{}) (ret *network.Body, err error)] *)
Definition anonType : type :=
  FuncOf [PtrTo (StructOf [])] [PtrTo Body; errType] false.

(** [func(msg *struct{}) (chan interface{}, chan bool, error)] *)
Definition anonStreamType : type :=
  FuncOf [PtrTo (StructOf [])]
    [ChanOf BothDir (InterfaceOf []); ChanOf BothDir (Basic Tbool); errType]
    false.

(** [func(msg *struct{ A string; B string }) (ret *network.Body, err error)] *)
Definition pairType : type :=
  FuncOf [PtrTo Pair] [PtrTo Body; errType] false.

Definition echo : iface nat :=
  Some (MkValue unaryType (fun m => [Value m; Nil])).

Definition silent : iface nat :=
  Some (MkValue anyType (fun _ => [Nil; Nil])).

Definition broken : iface nat :=
  Some (MkValue unaryType (fun _ => [Channel 7; Nil])).

Definition ticker : iface nat :=
  Some (MkValue streamType (fun _ => [Channel 0; Channel 1; Nil])).

Definition anon : iface nat := Some (MkValue anonType (fun m => [Value m; Nil])).

Definition anonStream : iface nat :=
  Some (MkValue anonStreamType (fun _ => [Channel 0; Channel 1; Nil])).

Definition pair : iface nat := Some (MkValue pairType (fun m => [Value m; Nil])).

Definition decode (b : bytes) (t : type) : outcome nat :=
  Ok (length (default [] b)).

Definition encode (v : any nat) : outcome bytes :=
  match v with
  | Nil => Ok None
  | Value m => Ok (Some (replicate m Byte.x01))
  | _ => Err "Encode takes a pointer to struct"
  end.

Definition unmarshal (payload : string) (t : type) : outcome nat :=
  Ok (String.length payload).

Definition marshal (v : any nat) : outcome string :=
  match v with
  | Value m => Ok (pretty m)
  | _ => Ok "null"
  end.

Definition hexDecode (s : string) : outcome string := Ok s.
Definition base64 (s : string) : string := s.

(** The library on a pattern that is not plain; the routes of the samples
    never come to it. *)
Definition matchString (pattern text : string) : outcome bool :=
  Err "error parsing regexp".

(** A processor with the three routes [Body] can have, one at a time. *)
Definition withHandler (f : iface nat) (stream : bool) : ServiceProcessor nat :=
  set_handlers (NewServiceProcessor nat) "Body" (MkServiceHandler f Body stream).

End Sample.

(** ** Reading a trace and a stream *)

(** The events in which a handler function is invoked, and those in which
    a payload is decoded. *)
Definition is_call {Message : Type} (e : event Message) : bool :=
  match e with
  | EvCall _ _ => true
  | _ => false
  end.

Definition is_decode {Message : Type} (e : event Message) : bool :=
  match e with
  | EvDecode _ _ | EvUnmarshal _ _ => true
  | _ => false
  end.

(** One registry holds at least the keys of another. *)
Definition keeps {Message : Type} (p q : ServiceProcessor Message) : Prop :=
  forall k, is_Some (handlers p !! k) -> is_Some (handlers q !! k).

(** The encoded item the goroutine holds, if any. *)
Definition in_hand {Message : Type} (s : stream Message) : list bytes :=
  match fwd s with
  | Sending b => [b]
  | _ => []
  end.

(** What holds of a stream all along a run in which every item encodes
    and the goroutine can receive: the items read, buffered, in hand and
    still to come make up the encoded script [bs], in order; the handler
    closes after its last send; the goroutine has returned exactly when
    its channel is closed, which is only after the handler's channel is
    closed and drained; the transport sees the end only on the closed,
    drained channel; and the goroutine has not panicked. *)
Definition consistent {Message : Type} (Encode : any Message -> outcome bytes)
    (bs : list bytes) (s : stream Message) : Prop :=
  (exists rest,
      Forall2 (fun v b => Encode v = Ok b) (inChan s ++ script s) rest /\
      delivered s ++ buf (outChan s) ++ in_hand s ++ rest = bs) /\
  (hclosed s = true -> script s = []) /\
  (fwd s = Stopped <-> closed (outChan s) = true) /\
  (fwd s = Stopped -> hclosed s = true /\ inChan s = []) /\
  0 < cap (outChan s) /\
  (eof s = true -> closed (outChan s) = true /\ buf (outChan s) = []) /\
  alive (fwd s).

(** ** The texts a pattern matches

    The language of a regular expression, to say what the derivative
    matcher of [regexp] accepts. *)

Inductive accepts : regexp.re -> string -> Prop :=
| accepts_eps : accepts regexp.Eps EmptyString
| accepts_sym k c :
    regexp.in_class k c = true ->
    accepts (regexp.Sym k) (String c EmptyString)
| accepts_cat r1 r2 s1 s2 :
    accepts r1 s1 -> accepts r2 s2 -> accepts (regexp.Cat r1 r2) (s1 +:+ s2)
| accepts_alt_l r1 r2 s : accepts r1 s -> accepts (regexp.Alt r1 r2) s
| accepts_alt_r r1 r2 s : accepts r2 s -> accepts (regexp.Alt r1 r2) s
| accepts_star_nil r : accepts (regexp.Star r) EmptyString
| accepts_star_app r s1 s2 :
    accepts r s1 -> accepts (regexp.Star r) s2 ->
    accepts (regexp.Star r) (s1 +:+ s2).

(** Every byte of a text is in a class. *)
Fixpoint all_in (k : regexp.class) (s : string) : bool :=
  match s with
  | EmptyString => true
  | String c s' => regexp.in_class k c && all_in k s'
  end.

(** The paths the closure of a GET route with a parameter accepts: a
    one-digit version, the namespace, the resource and a non-empty
    parameter. *)
Definition route_path (namespace resource : string) (d : ascii)
    (seg : string) : string :=
  "/v" +:+ String d ("/" +:+ namespace +:+ "/" +:+ resource +:+ "/" +:+ seg).

(** What holds of a stream all along a run in which the item [bad], sent
    after items that encode to [bs], does not encode: until the goroutine
    meets [bad] the items read, buffered, in hand and still to come
    before [bad] make up [bs]; once it has met it the goroutine has
    returned, its channel is closed and the items read and buffered are
    [bs]. *)
Definition cut_short {Message : Type} (Encode : any Message -> outcome bytes)
    (bs : list bytes) (bad : any Message) (s : stream Message) : Prop :=
  (hclosed s = true -> script s = []) /\
  0 < cap (outChan s) /\
  (eof s = true -> closed (outChan s) = true /\ buf (outChan s) = []) /\
  ((fwd s <> Stopped /\ closed (outChan s) = false /\
    exists pre rest tail,
      inChan s ++ script s = pre ++ bad :: tail /\
      Forall2 (fun v b => Encode v = Ok b) pre rest /\
      delivered s ++ buf (outChan s) ++ in_hand s ++ rest = bs)
   \/ (fwd s = Stopped /\ closed (outChan s) = true /\
       delivered s ++ buf (outChan s) = bs)).

(** ** app: the configuration files (app/config.go)

    The parsers of keys and of TOML, the suites, the file system and the
    TLS loader are parameters. A Go map is a [gmap]; a [range] over a map
    visits its entries in an order the language leaves open, so the loops
    over maps take the order as a list of entries, and the properties
    below hold for every order. *)

Module app.

(** [strings.HasPrefix] *)
Fixpoint HasPrefix (s prefix : string) {struct prefix} : bool :=
  match prefix with
  | EmptyString => true
  | String a p =>
      match s with
      | EmptyString => false
      | String b s' => Ascii.eqb a b && HasPrefix s' p
      end
  end.

(** [strings.Contains] *)
Fixpoint Contains (s substr : string) : bool :=
  HasPrefix s substr ||
  match s with
  | EmptyString => false
  | String _ s' => Contains s' substr
  end.

(** [strings.Split(s, sep)] for a non-empty separator, scanning from the
    left: [skip] counts the bytes of a separator still to pass over. *)
Fixpoint split_from (sep : string) (skip : nat) (s : string) : list string :=
  match s with
  | EmptyString => [EmptyString]
  | String c s' =>
      match skip with
      | S k => split_from sep k s'
      | O =>
          if HasPrefix s sep then
            EmptyString :: split_from sep (String.length sep - 1) s'
          else
            match split_from sep 0 s' with
            | h :: t => String c h :: t
            | [] => [String c EmptyString]
            end
      end
  end.

Fixpoint explode (s : string) : list string :=
  match s with
  | EmptyString => []
  | String c s' => String c EmptyString :: explode s'
  end.

(** [strings.Split]; with the empty separator the text is cut after each
    byte (after each UTF-8 sequence, in Go). *)
Definition Split (s sep : string) : list string :=
  match sep with
  | EmptyString => explode s
  | _ => split_from sep 0 s
  end.

(** *** CertificateURL *)

Definition CertificateURLType : Set := string.
Definition CertificateURL : Set := string.

(** [String] is a CertificateURL type containing a certificate. *)
Definition String' : CertificateURLType := "string".
(** [File] is a CertificateURL type that contains the path to a file
    containing a certificate. *)
Definition File : CertificateURLType := "file".
Definition InvalidCertificateURLType : CertificateURLType := "wrong".
Definition DefaultCertificateURLType : CertificateURLType := File.

Definition typeCertificateURLSep : string := "://".

(** [certificateURLType] converts a string to a CertificateURLType. In
    case of failure, it returns InvalidCertificateURLType. *)
Definition certificateURLType (t : string) : CertificateURLType :=
  if String.eqb t EmptyString then DefaultCertificateURLType
  else
    let cuType := t in
    let types := [String'; File] in
    if existsb (fun t' => String.eqb t' cuType) types then cuType
    else InvalidCertificateURLType.

(** [typePart] returns only the string representing the type of a
    CertificateURL (empty string for no type specified). *)
Definition typePart (cu : CertificateURL) : result string :=
  let vals := Split cu typeCertificateURLSep in
  if Nat.eqb (length vals) 1 then Ret EmptyString
  else index vals 0.

(** [blobPart] returns only the string representing the blob of a
    CertificateURL. *)
Definition blobPart (cu : CertificateURL) : result string :=
  let vals := Split cu typeCertificateURLSep in
  if Nat.eqb (length vals) 1 then index vals 0
  else index vals 1.

(** [Valid] returns true if the CertificateURL is well formed or false
    otherwise. *)
Definition Valid (cu : CertificateURL) : result bool :=
  let vals := Split cu typeCertificateURLSep in
  if Nat.ltb 2 (length vals) then Ret false
  else
    t ← typePart cu;
    let cuType := certificateURLType t in
    if String.eqb cuType InvalidCertificateURLType then Ret false
    else Ret true.

(** The method [CertificateURLType] of a CertificateURL. *)
Definition CertificateURLType_of (cu : CertificateURL)
    : result CertificateURLType :=
  v ← Valid cu;
  match v with
  | false => Ret InvalidCertificateURLType
  | true => t ← typePart cu; Ret (certificateURLType t)
  end.

(** [Content] returns the bytes representing the certificate;
    [ReadFile] is [ioutil.ReadFile]. *)
Definition Content (ReadFile : string -> outcome string) (cu : CertificateURL)
    : result (outcome string) :=
  cuType ← CertificateURLType_of cu;
  if String.eqb cuType String' then
    b ← blobPart cu; Ret (Ok b)
  else if String.eqb cuType File then
    b ← blobPart cu; Ret (ReadFile b)
  else
    Ret (Err ("Unknown CertificateURL type (" +:+ cuType +:+
              "), cannot get its content")).

(** *** Service and server descriptions *)

(** [ServiceConfig] is the configuration of a specific service to
    override default parameters as the key pair. *)
Record ServiceConfig : Set := MkServiceConfig {
  Public : string;
  Private : string
}.

(** [ServerServiceConfig] is a public configuration for a server (i.e.
    private key is missing). *)
Record ServerServiceConfig : Set := MkServerServiceConfig {
  SPublic : string
}.

(** [ServerToml] is one entry in the group.toml file. *)
Record ServerToml : Type := MkServerToml {
  Address : string;
  Suite : string;
  TPublic : string;
  Description : string;
  Services : gmap string ServerServiceConfig;
  URL : string
}.

Definition set_Description (s : ServerToml) (d : string) : ServerToml :=
  MkServerToml (Address s) (Suite s) (TPublic s) d (Services s) (URL s).

(** [GroupToml] holds the data of the group.toml file: the servers,
    which the Go struct holds by pointer. *)
Record GroupToml : Type := MkGroupToml {
  Servers : list ServerToml
}.

(** [NewGroupToml] creates a new GroupToml struct from the given
    ServerTomls. *)
Definition NewGroupToml (servers : list ServerToml) : GroupToml :=
  MkGroupToml servers.

Section Config.

(** The suites, points and scalars of [kyber], with the functions of
    [encoding], [suites], [onet] and [network] the file calls. *)
Variables Suite_ Scalar Point ServiceIdentity : Type.
Variable ServiceFactory_Suite : string -> option Suite_.
Variable suite_Scalar : Suite_ -> Scalar.
Variable suite_String : Suite_ -> string.
Variable StringHexToScalar : Suite_ -> string -> outcome Scalar.
Variable StringHexToPoint : Suite_ -> string -> outcome Point.
Variable WriteHexPoint : Suite_ -> Point -> outcome string.
Variable NewServiceIdentity : string -> Point -> Scalar -> ServiceIdentity.
Variable toml_Encode_group : list ServerToml -> outcome string.
Variable toml_Encode_server : ServerToml -> outcome string.

(** [parseServiceIdentity] creates the service identity. *)
Definition parseServiceIdentity (name pub priv : string)
    : outcome ServiceIdentity :=
  match ServiceFactory_Suite name with
  | None =>
      Err ("Service `" +:+ name +:+ "` has not been registered with a suite")
  | Some suite =>
      match (if String.eqb priv EmptyString then Ok (suite_Scalar suite)
             else match StringHexToScalar suite priv with
                  | Ok private => Ok private
                  | Err err =>
                      Err ("parsing `" +:+ name +:+ "` private key: " +:+ err)
                  end) with
      | Err err => Err err
      | Ok private =>
          match StringHexToPoint suite pub with
          | Err err => Err ("parsing `" +:+ name +:+ "` public key: " +:+ err)
          | Ok public => Ok (NewServiceIdentity name public private)
          end
      end
  end.

(** The loop of [parseServiceConfig] over the entries in the order
    [configs], with [si] the identities made so far. *)
Fixpoint parseServiceConfigFrom (configs : list (string * ServiceConfig))
    (si : list ServiceIdentity) : outcome (list ServiceIdentity) :=
  match configs with
  | [] => Ok si
  | (name, sc) :: rest =>
      match parseServiceIdentity name (Public sc) (Private sc) with
      | Err err => Err err
      | Ok sid => parseServiceConfigFrom rest (si ++ [sid])
      end
  end.

(** [parseServiceConfig] takes the map and creates service identities. *)
Definition parseServiceConfig (configs : list (string * ServiceConfig))
    : outcome (list ServiceIdentity) :=
  parseServiceConfigFrom configs [].

Fixpoint parseServerServiceConfigFrom
    (configs : list (string * ServerServiceConfig))
    (si : list ServiceIdentity) : outcome (list ServiceIdentity) :=
  match configs with
  | [] => Ok si
  | (name, sc) :: rest =>
      match parseServiceIdentity name (SPublic sc) EmptyString with
      | Err err => Err err
      | Ok sid => parseServerServiceConfigFrom rest (si ++ [sid])
      end
  end.

(** [parseServerServiceConfig] takes the map and creates service
    identities with only the public key. *)
Definition parseServerServiceConfig
    (configs : list (string * ServerServiceConfig))
    : outcome (list ServiceIdentity) :=
  parseServerServiceConfigFrom configs [].

(** [NewServerToml] takes a public key and an address and returns the
    corresponding ServerToml; nil ([None]) when the key cannot be
    written. The loop that keeps only the public keys runs over the
    entries of [services] in the order [order]. *)
Definition NewServerToml (suite : Suite_) (public : Point) (addr desc : string)
    (order : list (string * ServiceConfig)) : option ServerToml :=
  match WriteHexPoint suite public with
  | Err _ => None
  | Ok buff =>
      let publics :=
        foldl (fun (publics : gmap string ServerServiceConfig) e =>
                 <[e.1 := MkServerServiceConfig (Public e.2)]> publics)
              ∅ order in
      Some (MkServerToml addr (suite_String suite) buff desc publics EmptyString)
  end.

(** [GroupToml.String] returns the TOML representation of this
    GroupToml, and fills in the empty descriptions of its servers on the
    way: the result is the text and the group afterwards. *)
Definition GroupToml_String (gt : GroupToml) : string * GroupToml :=
  let servers :=
    map (fun s => if String.eqb (Description s) EmptyString
                  then set_Description s "Description of your server"
                  else s) (Servers gt) in
  (match toml_Encode_group servers with
   | Err err => "Error encoding grouptoml" +:+ err
   | Ok text => text
   end, MkGroupToml servers).

(** [ServerToml.String] returns the TOML representation of the
    ServerToml, and the server afterwards. *)
Definition ServerToml_String (s : ServerToml) : string * ServerToml :=
  let s' := if String.eqb (Description s) EmptyString
            then set_Description s "## Put your description here for convenience ##"
            else s in
  (match toml_Encode_server s' with
   | Err err => "## Error encoding server informations ##" +:+ err
   | Ok text => text
   end, s').

(** An entry of a service map from which [parseServiceIdentity] makes
    the identity [sid]. *)
Definition parses (e : string * ServiceConfig) (sid : ServiceIdentity) : Prop :=
  parseServiceIdentity e.1 (Public e.2) (Private e.2) = Ok sid.

(** *** The configuration of a conode *)

(** [CothorityConfig] is the configuration structure of the cothority
    daemon. *)
Record CothorityConfig : Type := MkCothorityConfig {
  CSuite : string;
  CPublic : string;
  CServices : gmap string ServiceConfig;
  CPrivate : string;
  CAddress : string;
  ListenAddress : string;
  CDescription : string;
  WebSocketTLSCertificate : CertificateURL;
  WebSocketTLSCertificateKey : CertificateURL
}.

Definition set_CSuite (hc : CothorityConfig) (suite : string) : CothorityConfig :=
  MkCothorityConfig suite (CPublic hc) (CServices hc) (CPrivate hc)
    (CAddress hc) (ListenAddress hc) (CDescription hc)
    (WebSocketTLSCertificate hc) (WebSocketTLSCertificateKey hc).

(** What the file reads and writes of a [network.ServerIdentity]. *)
Record ServerIdentity : Type := MkServerIdentity {
  IPublic : Point;
  IAddress : string;
  IDescription : string;
  IServiceIdentities : list ServiceIdentity;
  IURL : string;
  Iprivate : option Scalar
}.

(** [network.NewServerIdentity(public, address)] *)
Definition NewServerIdentity (public : Point) (address : string)
    : ServerIdentity :=
  MkServerIdentity public address EmptyString [] EmptyString None.

(** [si.SetPrivate(private)] and the assignments to the fields of [si]. *)
Definition SetPrivate (si : ServerIdentity) (private : Scalar) : ServerIdentity :=
  MkServerIdentity (IPublic si) (IAddress si) (IDescription si)
    (IServiceIdentities si) (IURL si) (Some private).

Definition set_IDescription (si : ServerIdentity) (d : string) : ServerIdentity :=
  MkServerIdentity (IPublic si) (IAddress si) d
    (IServiceIdentities si) (IURL si) (Iprivate si).

Definition set_IURL (si : ServerIdentity) (u : string) : ServerIdentity :=
  MkServerIdentity (IPublic si) (IAddress si) (IDescription si)
    (IServiceIdentities si) u (Iprivate si).

Definition set_IServiceIdentities (si : ServerIdentity)
    (sids : list ServiceIdentity) : ServerIdentity :=
  MkServerIdentity (IPublic si) (IAddress si) (IDescription si)
    sids (IURL si) (Iprivate si).

(** What the file sets of an [onet.Server]: made by
    [NewServerTCPWithListenAddr], with the TLS configuration of its
    WebSocket. *)
Variable Certificate : Type.
Record Server : Type := MkServer {
  SIdentity : ServerIdentity;
  SSuite : Suite_;
  SListen : string;
  TLSConfig : option Certificate
}.

Variable toml_DecodeFile : string -> outcome CothorityConfig.
Variable suites_Find : string -> outcome Suite_.
Variable ReadFile : string -> outcome string.
Variable X509KeyPair : string -> string -> outcome Certificate.

(** The order in which a [range] loop visits the entries of a map of
    services; the language leaves it open. *)
Variable range_services :
  gmap string ServiceConfig -> list (string * ServiceConfig).
Variable range_server_services :
  gmap string ServerServiceConfig -> list (string * ServerServiceConfig).

Definition set_TLSConfig (server : Server) (cert : Certificate) : Server :=
  MkServer (SIdentity server) (SSuite server) (SListen server) (Some cert).

(** [ParseCothority] parses the config file into a CothorityConfig. It
    returns the CothorityConfig, the Host so we can already use it, and
    an error if the file is inaccessible or has wrong values in it. *)
Definition ParseCothority (file : string)
    : result (outcome (CothorityConfig * Server)) :=
  match toml_DecodeFile file with
  | Err err => Ret (Err err)
  | Ok hc0 =>
      (* Backwards compatibility with configs before we included the
         suite name *)
      let hc := if String.eqb (CSuite hc0) EmptyString
                then set_CSuite hc0 "Ed25519" else hc0 in
      match suites_Find (CSuite hc) with
      | Err err => Ret (Err err)
      | Ok suite =>
          (* Try to decode the Hex values *)
          match StringHexToScalar suite (CPrivate hc) with
          | Err err => Ret (Err ("parsing private key: " +:+ err))
          | Ok private =>
              match StringHexToPoint suite (CPublic hc) with
              | Err err => Ret (Err ("parsing public key: " +:+ err))
              | Ok point =>
                  let si := NewServerIdentity point (CAddress hc) in
                  let si := SetPrivate si private in
                  let si := set_IDescription si (CDescription hc) in
                  match parseServiceConfig (range_services (CServices hc)) with
                  | Err err => Ret (Err err)
                  | Ok sids =>
                      let si := set_IServiceIdentities si sids in
                      (* Same as NewServerTCP if hc.ListenAddress is empty *)
                      let server := MkServer si suite (ListenAddress hc) None in
                      (* Set Websocket TLS if possible *)
                      if negb (String.eqb (WebSocketTLSCertificate hc) EmptyString)
                         && negb (String.eqb (WebSocketTLSCertificateKey hc)
                                    EmptyString)
                      then
                        c ← Content ReadFile (WebSocketTLSCertificate hc);
                        match c with
                        | Err err =>
                            Ret (Err ("getting WebSocketTLSCertificate content: "
                                      +:+ err))
                        | Ok tlsCertificate =>
                            k ← Content ReadFile (WebSocketTLSCertificateKey hc);
                            match k with
                            | Err err =>
                                Ret (Err ("getting WebSocketTLSCertificateKey content: "
                                          +:+ err))
                            | Ok tlsCertificateKey =>
                                match X509KeyPair tlsCertificate tlsCertificateKey with
                                | Err err =>
                                    Ret (Err ("loading X509KeyPair: " +:+ err))
                                | Ok cert =>
                                    Ret (Ok (hc, set_TLSConfig server cert))
                                end
                            end
                        end
                      else Ret (Ok (hc, server))
                  end
              end
          end
      end
  end.

(** *** The group of conodes *)

Variable ReadHexPoint : Suite_ -> string -> outcome Point.

(** [toServerIdentity] converts this ServerToml struct to a
    ServerIdentity: the identity, nil when the suite or the key is
    wrong, and the error. *)
Definition toServerIdentity (s : ServerToml) : option ServerIdentity * error :=
  match suites_Find (Suite s) with
  | Err err => (None, Some err)
  | Ok suite =>
      match ReadHexPoint suite (TPublic s) with
      | Err err => (None, Some err)
      | Ok public =>
          let si := NewServerIdentity public (Address s) in
          let si := set_IURL si (URL s) in
          let si := set_IDescription si (Description s) in
          match parseServerServiceConfig
                  (range_server_services (Services s)) with
          | Ok sids => (Some (set_IServiceIdentities si sids), None)
          | Err err => (Some (set_IServiceIdentities si []), Some err)
          end
      end
  end.

(** [Group] holds the Roster and the server-description. The identities
    of a roster are held by pointer, and the descriptions are found
    under these pointers: the pointer of an identity that
    [ReadGroupDescToml] makes is its position in the group file, and
    [None] is the nil pointer. *)
Variable Roster : Type.
Variable NewRoster : list (option ServerIdentity) -> Roster.

Record Group : Type := MkGroup {
  GRoster : Roster;
  GDescription : gmap nat string
}.

(** [GetDescription] returns the description of a ServerIdentity. *)
Definition GetDescription (g : Group) (e : nat) : string :=
  default EmptyString (GDescription g !! e).

Definition set_Suite (s : ServerToml) (suite : string) : ServerToml :=
  MkServerToml (Address s) suite (TPublic s) (Description s) (Services s)
    (URL s).

(** The loop of [ReadGroupDescToml] from the server of position [i] on,
    with the entities and descriptions made so far. *)
Fixpoint convertServers (servers : list ServerToml) (i : nat)
    (entities : list (option ServerIdentity)) (descs : gmap nat string)
    : outcome (list (option ServerIdentity) * gmap nat string) :=
  match servers with
  | [] => Ok (entities, descs)
  | s :: rest =>
      (* Backwards compatibility with old group files. *)
      let s := if String.eqb (Suite s) EmptyString
               then set_Suite s "Ed25519" else s in
      match toServerIdentity s with
      | (_, Some err) => Err err
      | (en, None) =>
          convertServers rest (S i) (entities ++ [en])
            (<[i := Description s]> descs)
      end
  end.

(** [ReadGroupDescToml] reads a group.toml file and returns the list of
    ServerIdentities and descriptions in the file; [decoded] is what
    [toml.DecodeReader] makes of the file. *)
Definition ReadGroupDescToml (decoded : outcome GroupToml) : outcome Group :=
  match decoded with
  | Err err => Err err
  | Ok group =>
      match convertServers (Servers group) 0 [] ∅ with
      | Err err => Err err
      | Ok (entities, descs) => Ok (MkGroup (NewRoster entities) descs)
      end
  end.

End Config.

Arguments IPublic {Scalar Point ServiceIdentity}.
Arguments IAddress {Scalar Point ServiceIdentity}.
Arguments IDescription {Scalar Point ServiceIdentity}.
Arguments IServiceIdentities {Scalar Point ServiceIdentity}.
Arguments IURL {Scalar Point ServiceIdentity}.
Arguments Iprivate {Scalar Point ServiceIdentity}.
Arguments SIdentity {Suite_ Scalar Point ServiceIdentity Certificate}.
Arguments SSuite {Suite_ Scalar Point ServiceIdentity Certificate}.
Arguments SListen {Suite_ Scalar Point ServiceIdentity Certificate}.
Arguments TLSConfig {Suite_ Scalar Point ServiceIdentity Certificate}.
Arguments GRoster {Roster}.
Arguments GDescription {Roster}.
Arguments GetDescription {Roster}.

End app.

(** ** More handlers and configurations to run *)

Module Cases.
Import reflect.

Definition echo : value nat := MkValue Sample.unaryType (fun m => [Value m; Nil]).

(** A handler that returns an error. *)
Definition failing : value nat :=
  MkValue Sample.unaryType (fun _ => [Nil; Error "boom"]).

Definition ticker : value nat :=
  MkValue Sample.streamType (fun _ => [Channel 0; Channel 1; Nil]).

(** [func(msg *network.Body) (chan interface{}, <-chan bool, error)] *)
Definition recvType : type :=
  FuncOf [PtrTo Sample.Body]
    [ChanOf BothDir (InterfaceOf []); ChanOf RecvDir (Basic Tbool); errType]
    false.

Definition oneWay : value nat :=
  MkValue recvType (fun _ => [Channel 0; Channel 1; Nil]).

(** [func(msg *network.Body) (chan<- interface{}, chan bool, error)] *)
Definition sendType : type :=
  FuncOf [PtrTo Sample.Body]
    [ChanOf SendDir (InterfaceOf []); ChanOf BothDir (Basic Tbool); errType]
    false.

Definition sendOnly : value nat :=
  MkValue sendType (fun _ => [Channel 0; Channel 1; Nil]).

(** The struct [Body] of another package, and a streaming handler of it:
    [func(msg *other.Body) (chan interface{}, chan bool, error)] *)
Definition OtherBody : type := Named "other" "Body" [] [] (StructOf []).

Definition otherType : type :=
  FuncOf [PtrTo OtherBody]
    [ChanOf BothDir (InterfaceOf []); ChanOf BothDir (Basic Tbool); errType]
    false.

Definition otherTicker : value nat :=
  MkValue otherType (fun _ => [Channel 0; Channel 1; Nil]).

(** Not a function. *)
Definition number : value nat := MkValue (Basic Tint) (fun _ => []).

(** The closures of two GET routes, and a GET request. *)
Definition intRoute : restHandler nat :=
  MkRestHandler intGET "A" "ns" "Body"
    (MkServiceHandler Sample.echo Sample.Body false) Sample.echo.

Definition sliceRoute : restHandler nat :=
  MkRestHandler sliceGET "A" "ns" "Body"
    (MkServiceHandler Sample.echo Sample.Body false) Sample.echo.

Definition get (path : string) : Request :=
  MkRequest "GET" path EmptyString (Ok EmptyString).

(** A conode with one service, its suite and its files. *)
Definition readFile (name : string) : outcome string :=
  Ok ("contents of " +:+ name).

Definition factory (name : string) : option unit :=
  if String.eqb name "svc" then Some tt else None.

Definition hexScalar (_ : unit) (s : string) : outcome string :=
  if String.eqb s EmptyString then Err "empty scalar" else Ok s.

Definition hexPoint (_ : unit) (s : string) : outcome string :=
  if String.eqb s EmptyString then Err "empty point" else Ok s.

Definition suiteScalar (_ : unit) : string := "scalar of the suite".

Definition newIdentity (name public private : string)
    : string * string * string :=
  (name, public, private).

Definition writePoint (_ : unit) (p : string) : outcome string := Ok p.

Definition findSuite (name : string) : outcome unit :=
  if String.eqb name "Ed25519" then Ok tt else Err "suite not found".

Definition services : list (string * app.ServiceConfig) :=
  [("svc", app.MkServiceConfig "spub" "spriv")].

Definition config : app.CothorityConfig :=
  app.MkCothorityConfig EmptyString "pub" (list_to_map services) "priv"
    "tls://127.0.0.1:7770" EmptyString "a conode" EmptyString EmptyString.

Definition decodeFile (file : string) : outcome app.CothorityConfig :=
  Ok config.

Definition keyPair (c k : string) : outcome (string * string) := Ok (c, k).

Definition range {A : Type} (m : gmap string A) : list (string * A) :=
  map_to_list m.

Definition server : app.ServerToml :=
  app.MkServerToml "tls://127.0.0.1:7770" EmptyString "pub" "a conode"
    (list_to_map [("svc", app.MkServerServiceConfig "spub")]) EmptyString.

End Cases.

(** * Properties *)

Section ReflectFacts.
Import reflect.

Lemma underlying_idem (t : type) : underlying (underlying t) = underlying t.
Proof. induction t; simpl; auto. Qed.

Lemma underlying_not_Named (t : type) pkg name ms pms u :
  underlying t <> Named pkg name ms pms u.
Proof. induction t; simpl; auto; discriminate. Qed.

Lemma kind_underlying (t : type) : kind (underlying t) = kind t.
Proof. unfold kind. now rewrite underlying_idem. Qed.

Lemma scalar_kind_composite (s : scalar) :
  scalar_kind s <> Ptr /\ scalar_kind s <> Chan /\ scalar_kind s <> Func /\
  scalar_kind s <> Struct /\ scalar_kind s <> Interface /\
  scalar_kind s <> Slice.
Proof. destruct s; simpl; repeat split; discriminate. Qed.

Lemma kind_Ptr (t : type) : kind t = Ptr <-> exists e, underlying t = PtrTo e.
Proof.
  unfold kind. split.
  - destruct (underlying t) eqn:E; try discriminate; eauto.
    intros H. now destruct (scalar_kind_composite s) as (? & _).
  - intros [e ->]. reflexivity.
Qed.

Lemma kind_Chan (t : type) :
  kind t = Chan <-> exists d e, underlying t = ChanOf d e.
Proof.
  unfold kind. split.
  - destruct (underlying t) eqn:E; try discriminate; eauto.
    intros H. now destruct (scalar_kind_composite s) as (? & ? & _).
  - intros (d & e & ->). reflexivity.
Qed.

Lemma kind_Func (t : type) :
  kind t = Func <-> exists ins outs v, underlying t = FuncOf ins outs v.
Proof.
  unfold kind. split.
  - destruct (underlying t) eqn:E; try discriminate; eauto.
    intros H. now destruct (scalar_kind_composite s) as (? & ? & ? & _).
  - intros (i & o & v & ->). reflexivity.
Qed.

Lemma kind_Struct (t : type) :
  kind t = Struct <-> exists fs, underlying t = StructOf fs.
Proof.
  unfold kind. split.
  - destruct (underlying t) eqn:E; try discriminate; eauto.
    intros H. now destruct (scalar_kind_composite s) as (? & ? & ? & ? & _).
  - intros (fs & ->). reflexivity.
Qed.

Lemma kind_Slice (t : type) :
  kind t = Slice <-> exists e, underlying t = SliceOf e.
Proof.
  unfold kind. split.
  - destruct (underlying t) eqn:E; try discriminate; eauto.
    intros H. now destruct (scalar_kind_composite s) as (? & ? & ? & ? & ? & ?).
  - intros (fs & ->). reflexivity.
Qed.

Lemma Elem_PtrTo (t e : type) : underlying t = PtrTo e -> Elem t = Ret e.
Proof. unfold Elem. now intros ->. Qed.

Lemma Elem_ChanOf (t : type) d e : underlying t = ChanOf d e -> Elem t = Ret e.
Proof. unfold Elem. now intros ->. Qed.

Lemma Elem_SliceOf (t e : type) : underlying t = SliceOf e -> Elem t = Ret e.
Proof. unfold Elem. now intros ->. Qed.

Lemma ptr_to_struct_iff (t : type) :
  Shape.ptr_to_struct t <->
  kind t = Ptr /\ exists e, Elem t = Ret e /\ kind e = Struct.
Proof.
  unfold Shape.ptr_to_struct, Elem. split.
  - intros (s & E & K). split; [apply kind_Ptr; eauto|]. rewrite E. eauto.
  - intros (K & e & E & KS). apply kind_Ptr in K as (e' & U).
    rewrite U in E. injection E as ->. eauto.
Qed.

End ReflectFacts.

Section Validator.
Import reflect Shape.
Context {Message : Type}.
Implicit Types (v : value Message) (p : ServiceProcessor Message).

Local Ltac kind_facts :=
  repeat match goal with
  | H : ¬ (kind _ ≠ _) |- _ => apply dec_stable in H
  | H : ¬ (length _ ≠ _) |- _ => apply dec_stable in H
  end.

Lemma handlerInputCheck_cases v :
  (exists msg pos,
      handlerInputCheck (Some v) = Ret (Some msg) /\
      position_named msg = Some pos /\
      forall b, offends b (htype v) pos)
  \/ (handlerInputCheck (Some v) = Ret None /\
      exists a outs va s,
        underlying (htype v) = FuncOf [a] outs va /\
        underlying a = PtrTo s /\ kind s = Struct).
Proof.
  unfold handlerInputCheck. cbn.
  destruct (decide (kind (htype v) ≠ Func)) as [K|K].
  { left. exists "Input is not a function", WholeInput. repeat split; auto. }
  kind_facts. apply kind_Func in K as (ins & outs & va & U).
  unfold NumIn, reflect.In. rewrite U. cbn.
  destruct (decide (length ins ≠ 1)) as [L|L].
  { left. exists "Need one argument: *struct", ArgumentList.
    repeat split; auto. intros b. cbn. rewrite U. eauto. }
  kind_facts. destruct ins as [|a [|]]; try discriminate. cbn.
  destruct (decide (kind a ≠ Ptr)) as [KP|KP].
  { left. exists "Argument must be a *pointer* to a struct", Argument.
    repeat split; auto. intros b. cbn. rewrite U.
    exists a, outs, va. split; auto. intros (s & E & _).
    apply KP, kind_Ptr. eauto. }
  kind_facts. apply kind_Ptr in KP as (s & E). rewrite (Elem_PtrTo _ _ E). cbn.
  destruct (decide (kind s ≠ Struct)) as [KS|KS].
  { left. exists "Argument must be a pointer to *struct*", Argument.
    repeat split; auto. intros b. cbn. rewrite U.
    exists a, outs, va. split; auto. intros (s' & E' & K').
    assert (s' = s) as -> by congruence. auto. }
  kind_facts. right. split; auto. exists a, outs, va, s. auto.
Qed.

Lemma createServiceHandler_cases v a outs va s :
  underlying (htype v) = FuncOf [a] outs va ->
  underlying a = PtrTo s -> kind s = Struct ->
  (exists msg pos,
      createServiceHandler (Some v) = Ret (Err msg) /\
      position_named msg = Some pos /\
      offends false (htype v) pos)
  \/ (unary (htype v) /\
      createServiceHandler (Some v) = derive (Some v) s false).
Proof.
  intros U E KS. unfold createServiceHandler. cbn.
  unfold NumOut, Out, reflect.In. rewrite U. cbn.
  destruct (decide (length outs ≠ 2)) as [L|L].
  { left. exists "Need 2 return values: network.Body and error", ResultList.
    repeat split; auto. cbn. rewrite U. eauto. }
  kind_facts. destruct outs as [|r [|e [|]]]; try discriminate. cbn.
  assert (Bad0 : ~ reply_type r -> offends false (htype v) (Result 0)).
  { intros N. cbn. rewrite U. exists [a], [r; e], va, r. auto. }
  assert (R : reply_type r ->
    (exists msg pos,
      (if negb (Implements_errType e)
       then Ret (Err ("2nd return value has to implement error, but is: " +:+ String e))
       else index [a] 0 ≫= λ cr, Elem cr ≫= λ e0,
              index (strings.Split (String e0) ".") 1 ≫= λ pm,
                Ret (Ok (pm, MkServiceHandler (Some v) e0 false)))
      = Ret (Err msg) /\ position_named msg = Some pos /\
      offends false (htype v) pos)
    \/ (unary (htype v) /\
        (if negb (Implements_errType e)
         then Ret (Err ("2nd return value has to implement error, but is: " +:+ String e))
         else index [a] 0 ≫= λ cr, Elem cr ≫= λ e0,
                index (strings.Split (String e0) ".") 1 ≫= λ pm,
                  Ret (Ok (pm, MkServiceHandler (Some v) e0 false)))
        = derive (Some v) s false)).
  { intros HR. destruct (Implements_errType e) eqn:IE; cbn.
    - right. split.
      + exists a, r, e, va. repeat split; auto. exists s; auto.
      + rewrite (Elem_PtrTo _ _ E). reflexivity.
    - left. eexists _, (Result 1). split; [reflexivity|split; [reflexivity|]].
      cbn. rewrite U. exists [a], [r; e], va, e. repeat split; auto.
      unfold error_type. congruence. }
  destruct (decide (kind r ≠ Interface)) as [KI|KI].
  - destruct (decide (kind r ≠ Ptr)) as [KP|KP].
    { left. eexists _, (Result 0). split; [reflexivity|split; [reflexivity|]].
      apply Bad0. intros [(x & Ex & _)|]; [|contradiction].
      apply KP, kind_Ptr; eauto. }
    kind_facts. apply kind_Ptr in KP as (x & Ex).
    rewrite (Elem_PtrTo _ _ Ex). cbn.
    destruct (decide (kind x ≠ Struct)) as [KX|KX].
    { left. eexists _, (Result 0). split; [reflexivity|split; [reflexivity|]].
      apply Bad0. intros [(x' & Ex' & K')|]; [|contradiction].
      assert (x' = x) as -> by congruence. auto. }
    kind_facts. cbn. apply R. left. exists x. auto.
  - kind_facts. cbn. apply R. right. auto.
Qed.

Lemma streamingServiceHandler_cases v a outs va s :
  underlying (htype v) = FuncOf [a] outs va ->
  underlying a = PtrTo s -> kind s = Struct ->
  (exists msg pos,
      streamingServiceHandler (Some v) = Ret (Err msg) /\
      position_named msg = Some pos /\
      offends true (htype v) pos)
  \/ (streaming (htype v) /\
      streamingServiceHandler (Some v) = derive (Some v) s true).
Proof.
  intros U E KS. unfold streamingServiceHandler. cbn.
  unfold NumOut, Out, reflect.In. rewrite U. cbn.
  destruct (decide (length outs ≠ 3)) as [L|L].
  { left. exists "Need 3 return values: chan interface{}, chan bool and error", ResultList.
    repeat split; auto. cbn. rewrite U. eauto. }
  kind_facts. destruct outs as [|c [|b [|e [|]]]]; try discriminate. cbn.
  assert (Bad : forall i r, [c; b; e] !! i = Some r -> ~ result_ok true i r ->
                            offends true (htype v) (Result i)).
  { intros i r Hi N. cbn. rewrite U. exists [a], [c; b; e], va, r. auto. }
  destruct (decide (kind c ≠ Chan)) as [KC|KC].
  { left. eexists _, (Result 0). split; [reflexivity|split; [reflexivity|]].
    apply (Bad 0 c); auto. intros (d & el & Ec & _). apply KC, kind_Chan; eauto. }
  kind_facts. apply kind_Chan in KC as (d & el & Ec).
  rewrite (Elem_ChanOf _ _ _ Ec). cbn.
  assert (R : (kind el = Interface \/ ptr_to_struct el) ->
    forall K : result (outcome (string * serviceHandler Message)),
    K = (if decide (kind b ≠ Chan) is left _
         then Ret (Err "2nd return value must be a channel")
         else Elem b ≫= λ el1,
           if decide (kind el1 ≠ Bool) is left _
           then Ret (Err "2nd return value must be a boolean channel")
           else if negb (Implements_errType e)
             then Ret (Err ("3rd return value has to implement error, but is: " +:+ String e))
             else index [a] 0 ≫= λ cr, Elem cr ≫= λ e0,
                    index (strings.Split (String e0) ".") 1 ≫= λ pm,
                      Ret (Ok (pm, MkServiceHandler (Some v) e0 true))) ->
    (exists msg pos, K = Ret (Err msg) /\ position_named msg = Some pos /\
                     offends true (htype v) pos)
    \/ (streaming (htype v) /\ K = derive (Some v) s true)).
  { intros HC K ->.
    destruct (decide (kind b ≠ Chan)) as [KB|KB].
    { left. eexists _, (Result 1). split; [reflexivity|split; [reflexivity|]].
      apply (Bad 1 b); auto. intros (d1 & el1 & Eb & _).
      apply KB, kind_Chan; eauto. }
    kind_facts. apply kind_Chan in KB as (d1 & el1 & Eb).
    rewrite (Elem_ChanOf _ _ _ Eb). cbn.
    destruct (decide (kind el1 ≠ Bool)) as [KL|KL].
    { left. eexists _, (Result 1). split; [reflexivity|split; [reflexivity|]].
      apply (Bad 1 b); auto. intros (d2 & el2 & Eb2 & K2).
      assert (el2 = el1) as -> by congruence. auto. }
    kind_facts. destruct (Implements_errType e) eqn:IE; cbn.
    - right. split.
      + exists a, c, b, e, va. repeat split; auto.
        * exists s; auto.
        * exists d, el; auto.
        * exists d1, el1; auto.
      + rewrite (Elem_PtrTo _ _ E). reflexivity.
    - left. eexists _, (Result 2). split; [reflexivity|split; [reflexivity|]].
      apply (Bad 2 e); auto. cbn. unfold error_type. congruence. }
  destruct (decide (kind el ≠ Interface)) as [KI|KI].
  - destruct (decide (kind el ≠ Ptr)) as [KP|KP].
    { left. eexists _, (Result 0). split; [reflexivity|split; [reflexivity|]].
      apply (Bad 0 c); auto. intros (d2 & el2 & Ec2 & HC).
      assert (el2 = el) as -> by congruence.
      destruct HC as [|(x & Ex & _)]; [contradiction|].
      apply KP, kind_Ptr; eauto. }
    kind_facts. apply kind_Ptr in KP as (x & Ex).
    rewrite (Elem_PtrTo _ _ Ex). cbn.
    destruct (decide (kind x ≠ Struct)) as [KX|KX].
    { left. eexists _, (Result 0). split; [reflexivity|split; [reflexivity|]].
      apply (Bad 0 c); auto. intros (d2 & el2 & Ec2 & HC).
      assert (el2 = el) as -> by congruence.
      destruct HC as [|(x' & Ex' & K')]; [contradiction|].
      assert (x' = x) as -> by congruence. auto. }
    kind_facts. cbn. apply R; [|reflexivity]. right. exists x. auto.
  - kind_facts. cbn. apply R; [|reflexivity]. left. auto.
Qed.


(** A well-shaped signature is wrong at no place. *)
Lemma unary_offends_nowhere (ft : type) (pos : position) :
  unary ft -> ~ offends false ft pos.
Proof.
  intros (a & r & e & va & U & PA & PR & PE) O.
  destruct pos as [| | | |i]; cbn in O.
  - apply O, kind_Func. eauto.
  - destruct O as (ins & outs & v' & U' & L). rewrite U in U'.
    injection U' as <- <- <-. now apply L.
  - destruct O as (a' & outs & v' & U' & N). rewrite U in U'.
    injection U' as <- <- <-. now apply N.
  - destruct O as (ins & outs & v' & U' & L). rewrite U in U'.
    injection U' as <- <- <-. now apply L.
  - destruct O as (ins & outs & v' & r' & U' & Hi & N). rewrite U in U'.
    injection U' as <- <- <-.
    destruct i as [|[|i]]; cbn in Hi; try discriminate;
      injection Hi as <-; now apply N.
Qed.

Lemma streaming_offends_nowhere (ft : type) (pos : position) :
  streaming ft -> ~ offends true ft pos.
Proof.
  intros (a & c & b & e & va & U & PA & PC & PB & PE) O.
  destruct pos as [| | | |i]; cbn in O.
  - apply O, kind_Func. eauto.
  - destruct O as (ins & outs & v' & U' & L). rewrite U in U'.
    injection U' as <- <- <-. now apply L.
  - destruct O as (a' & outs & v' & U' & N). rewrite U in U'.
    injection U' as <- <- <-. now apply N.
  - destruct O as (ins & outs & v' & U' & L). rewrite U in U'.
    injection U' as <- <- <-. now apply L.
  - destruct O as (ins & outs & v' & r' & U' & Hi & N). rewrite U in U'.
    injection U' as <- <- <-.
    destruct i as [|[|[|i]]]; cbn in Hi; try discriminate;
      injection Hi as <-; now apply N.
Qed.

(** What [RegisterHandler] does on a value with a type: a diagnostic for a
    signature that is not unary, the derivation of the key for one that
    is. *)
Lemma RegisterHandler_cases v p :
  (~ unary (htype v) /\
   exists msg pos,
     RegisterHandler (Some v) p = (Ret (Some msg), p) /\
     position_named msg = Some pos /\ offends false (htype v) pos)
  \/ (unary (htype v) /\
      exists s, input_struct (htype v) s /\
        handlerInputCheck (Some v) = Ret None /\
        createServiceHandler (Some v) = derive (Some v) s false).
Proof.
  unfold RegisterHandler.
  destruct (handlerInputCheck_cases v)
    as [(msg & pos & -> & N & O)|(-> & a & outs & va & s & U & E & K)].
  { left. split; [|eauto 6]. intros Hu.
    now apply (unary_offends_nowhere _ pos Hu). }
  destruct (createServiceHandler_cases v a outs va s U E K)
    as [(msg & pos & -> & N & O)|(Hu & ->)].
  { left. split; [|eauto 6]. intros Hu.
    now apply (unary_offends_nowhere _ pos Hu). }
  right. split; auto. exists s. repeat split; auto. exists a, outs, va. auto.
Qed.

Lemma RegisterStreamingHandler_cases v p :
  (~ streaming (htype v) /\
   exists msg pos,
     RegisterStreamingHandler (Some v) p = (Ret (Some msg), p) /\
     position_named msg = Some pos /\ offends true (htype v) pos)
  \/ (streaming (htype v) /\
      exists s, input_struct (htype v) s /\
        handlerInputCheck (Some v) = Ret None /\
        streamingServiceHandler (Some v) = derive (Some v) s true).
Proof.
  unfold RegisterStreamingHandler.
  destruct (handlerInputCheck_cases v)
    as [(msg & pos & -> & N & O)|(-> & a & outs & va & s & U & E & K)].
  { left. split; [|eauto 6]. intros Hu.
    now apply (streaming_offends_nowhere _ pos Hu). }
  destruct (streamingServiceHandler_cases v a outs va s U E K)
    as [(msg & pos & -> & N & O)|(Hu & ->)].
  { left. split; [|eauto 6]. intros Hu.
    now apply (streaming_offends_nowhere _ pos Hu). }
  right. split; auto. exists s. repeat split; auto. exists a, outs, va. auto.
Qed.

(** The nil interface has no type: the first method called on the nil
    [reflect.Type] panics, in both registrations. *)
(** C5, at the nil interface. The nil interface is not a function, and
    no registration returns an error for it: [handlerInputCheck] panics
    at [reflect.TypeOf(f).Kind()], a call on a nil [reflect.Type], before
    the comparison that would answer [Input is not a function], and so
    do both registrations and both batch registrations; the processor is
    unchanged, and nothing is returned. *)
Theorem registration_of_nil p :
  let nil_dereference :=
    "runtime error: invalid memory address or nil pointer dereference" in
  TypeOf (@None (value Message)) = None /\
  handlerInputCheck (@None (value Message)) = Panic nil_dereference /\
  RegisterHandler None p = (Panic nil_dereference, p) /\
  RegisterStreamingHandler None p = (Panic nil_dereference, p) /\
  RegisterHandlers [None] p = (Panic nil_dereference, p) /\
  RegisterStreamingHandlers [None] p = (Panic nil_dereference, p) /\
  (forall r q, RegisterHandler None p <> (Ret r, q)) /\
  (forall r q, RegisterStreamingHandler None p <> (Ret r, q)).
Proof.
  intros nil_dereference.
  assert (H : handlerInputCheck (@None (value Message)) = Panic nil_dereference)
    by reflexivity.
  assert (R : RegisterHandler None p = (Panic nil_dereference, p)).
  { unfold RegisterHandler, createServiceHandler. now rewrite H. }
  assert (S : RegisterStreamingHandler None p = (Panic nil_dereference, p)).
  { unfold RegisterStreamingHandler, streamingServiceHandler. now rewrite H. }
  split; [reflexivity|]. split; [exact H|]. split; [exact R|].
  split; [exact S|].
  split; [cbn [RegisterHandlers]; now rewrite R|].
  split; [cbn [RegisterStreamingHandlers]; now rewrite S|].
  split; intros r q; [rewrite R|rewrite S]; discriminate.
Qed.

(** Every value other than the nil interface with a malformed signature
    is refused with an error: [RegisterHandler] (a signature that is not
    unary) and [RegisterStreamingHandler] (one that is not streaming)
    return a non-nil error whose message names a place where the
    signature is wrong, and the processor, so its registry, is the same
    after the call. *)
Lemma registration_rejects_malformed v p :
  (~ unary (htype v) ->
   exists msg pos,
     RegisterHandler (Some v) p = (Ret (Some msg), p) /\
     position_named msg = Some pos /\ offends false (htype v) pos)
  /\ (~ streaming (htype v) ->
      exists msg pos,
        RegisterStreamingHandler (Some v) p = (Ret (Some msg), p) /\
        position_named msg = Some pos /\ offends true (htype v) pos).
Proof.
  split; intros N.
  - destruct (RegisterHandler_cases v p) as [(_ & H)|(Hu & _)]; tauto.
  - destruct (RegisterStreamingHandler_cases v p) as [(_ & H)|(Hu & _)]; tauto.
Qed.

End Validator.

Section Keys.
Import reflect Shape.
Context {Message : Type}.
Implicit Types (v : value Message) (p : ServiceProcessor Message).

Lemma Split_without (s : string) (c : ascii) :
  strings.contains c s = false -> strings.Split s c = [s].
Proof.
  induction s as [|d s IH]; cbn -[Ascii.eqb]; [reflexivity|].
  intros H. apply orb_false_iff in H as [-> H]. now rewrite (IH H).
Qed.

Lemma Split_at (a b : string) (c : ascii) :
  strings.contains c a = false ->
  strings.Split (a +:+ String.String c b) c = a :: strings.Split b c.
Proof.
  induction a as [|d a IH].
  - intros _. change (EmptyString +:+ String.String c b) with (String.String c b).
    cbn -[Ascii.eqb]. now rewrite Ascii.eqb_refl.
  - change (String.String d a +:+ String.String c b)
      with (String.String d (a +:+ String.String c b)).
    cbn -[Ascii.eqb]. intros H. apply orb_false_iff in H as [-> H].
    now rewrite (IH H).
Qed.

(** A defined type [pkg.name] prints in two segments. *)
Lemma Split_Named pkg name ms pms u :
  pkg <> EmptyString ->
  strings.contains "." pkg = false -> strings.contains "." name = false ->
  strings.Split (String (Named pkg name ms pms u)) "." = [pkg; name].
Proof.
  intros Hp Hpkg Hname. cbn.
  apply String.eqb_neq in Hp. rewrite Hp.
  change (pkg +:+ "." +:+ name) with (pkg +:+ String.String "." name).
  rewrite Split_at by assumption. now rewrite Split_without.
Qed.

(** For a valid unary signature whose input struct is a defined type
    [pkg.name], [RegisterHandler] returns nil and the key of the stored
    entry is [name], the final segment of the printed type. *)
Lemma RegisterHandler_named v p pkg name ms pms u :
  unary (htype v) ->
  input_struct (htype v) (Named pkg name ms pms u) ->
  pkg <> EmptyString ->
  strings.contains "." pkg = false -> strings.contains "." name = false ->
  RegisterHandler (Some v) p =
    (Ret None,
     set_handlers p name
       (MkServiceHandler (Some v) (Named pkg name ms pms u) false))
  /\ List.last (strings.Split (String (Named pkg name ms pms u)) ".")
       EmptyString = name.
Proof.
  intros Hu (a & outs & va & U & E & K) Hp Hpkg Hname.
  rewrite Split_Named by assumption. split; [|reflexivity].
  destruct (RegisterHandler_cases v p) as [(N & _)|(_ & s & HI & HC & HD)];
    [contradiction|].
  destruct HI as (a' & outs' & va' & U' & E' & K').
  assert (s = Named pkg name ms pms u) as -> by congruence.
  unfold RegisterHandler. rewrite HC, HD. unfold derive.
  rewrite Split_Named by assumption. reflexivity.
Qed.

(** For a valid signature whose input struct prints without a dot, the
    derivation of the key panics. *)
Lemma RegisterHandler_dotless v p s :
  unary (htype v) -> input_struct (htype v) s ->
  strings.contains "." (String s) = false ->
  RegisterHandler (Some v) p =
    (Panic "runtime error: index out of range [1] with length 1", p).
Proof.
  intros Hu (a & outs & va & U & E & K) Hdot.
  destruct (RegisterHandler_cases v p) as [(N & _)|(_ & s' & HI & HC & HD)];
    [contradiction|].
  destruct HI as (a' & outs' & va' & U' & E' & K').
  assert (s' = s) as -> by congruence.
  unfold RegisterHandler. rewrite HC, HD. unfold derive.
  now rewrite Split_without.
Qed.

End Keys.

(** C1. [RegisterHandler] at the valid unary signature
    [func(msg *struct{}) (ret *network.Body, err error)]: the signature
    check accepts it, the printed input type [struct {}] has one segment,
    which is also its final one, and the call panics on the index 1; it
    does not return nil and stores no entry. *)
Theorem RegisterHandler_unnamed_struct (p : ServiceProcessor nat) :
  Shape.unary Sample.anonType /\
  handlerInputCheck Sample.anon = Ret None /\
  strings.Split (reflect.String (reflect.StructOf [])) "." = ["struct {}"] /\
  RegisterHandler Sample.anon p =
    (Panic "runtime error: index out of range [1] with length 1", p).
Proof.
  split; [|split; [reflexivity|split; reflexivity]].
  exists (reflect.PtrTo (reflect.StructOf [])), (reflect.PtrTo Sample.Body),
    reflect.errType, false.
  repeat split.
  - exists (reflect.StructOf []). split; reflexivity.
  - left. exists Sample.Body. split; reflexivity.
Qed.

(** C10. There are inputs that the signature check accepts, a function
    whose one argument is a pointer to an unnamed struct and whose results
    are valid, on which [RegisterHandler] and [RegisterStreamingHandler]
    panic while deriving the route key, indexing segment 1 of a name that
    has no dot, and leave the processor as it was. *)
Theorem registration_panics_on_unnamed_struct :
  exists (f g : value nat) (fs : list (string * reflect.type)),
    reflect.In (htype f) 0 = Ret (reflect.PtrTo (reflect.StructOf fs)) /\
    reflect.In (htype g) 0 = Ret (reflect.PtrTo (reflect.StructOf fs)) /\
    strings.contains "." (reflect.String (reflect.StructOf fs)) = false /\
    Shape.unary (htype f) /\ Shape.streaming (htype g) /\
    handlerInputCheck (Some f) = Ret None /\
    handlerInputCheck (Some g) = Ret None /\
    forall p : ServiceProcessor nat,
      RegisterHandler (Some f) p =
        (Panic "runtime error: index out of range [1] with length 1", p) /\
      RegisterStreamingHandler (Some g) p =
        (Panic "runtime error: index out of range [1] with length 1", p).
Proof.
  exists (MkValue Sample.anonType (fun m => [Value m; Nil])),
         (MkValue Sample.anonStreamType (fun _ => [Channel 0; Channel 1; Nil])),
         [].
  split; [reflexivity|]. split; [reflexivity|]. split; [reflexivity|].
  split.
  { exists (reflect.PtrTo (reflect.StructOf [])), (reflect.PtrTo Sample.Body),
      reflect.errType, false.
    repeat split.
    - exists (reflect.StructOf []). split; reflexivity.
    - left. exists Sample.Body. split; reflexivity. }
  split.
  { exists (reflect.PtrTo (reflect.StructOf [])),
      (reflect.ChanOf reflect.BothDir (reflect.InterfaceOf [])),
      (reflect.ChanOf reflect.BothDir (reflect.Basic reflect.Tbool)),
      reflect.errType, false.
    repeat split.
    - exists (reflect.StructOf []). split; reflexivity.
    - exists reflect.BothDir, (reflect.InterfaceOf []). split; [reflexivity|].
      left. reflexivity.
    - exists reflect.BothDir, (reflect.Basic reflect.Tbool). split; reflexivity. }
  repeat split; reflexivity.
Qed.

Section Rest.
Import reflect Shape.
Context {Message : Type}.
Implicit Types (v : value Message) (p : ServiceProcessor Message).

(** An unsupported method or an API level below 3 is refused before the
    handler is looked at. *)
Lemma RegisterRESTHandler_rejects (f : iface Message) since namespace method p :
  (since < 3)%Z \/ (method <> "GET" /\ method <> "POST" /\ method <> "PUT") ->
  exists msg, RegisterRESTHandler f since namespace method p = (Ret (Some msg), p).
Proof.
  intros H. unfold RegisterRESTHandler.
  destruct (String.eqb method "GET") eqn:G;
  destruct (String.eqb method "POST") eqn:P;
  destruct (String.eqb method "PUT") eqn:U; cbn;
    try (eexists; reflexivity);
    (destruct H as [H|(HG & HP & HU)];
     [apply Z.ltb_lt in H; rewrite H; eexists; reflexivity
     |exfalso;
      first [apply String.eqb_eq in G; contradiction
            |apply String.eqb_eq in P; contradiction
            |apply String.eqb_eq in U; contradiction]]).
Qed.

Lemma get_fields_ok_Struct (s : type) : get_fields_ok s -> kind s = Struct.
Proof. intros (fs & U & _). apply kind_Struct. eauto. Qed.

Lemma prepareHandlerGET_cases v s :
  input_struct (htype v) s ->
  (exists msg, prepareHandlerGET (Some v) = Ret (Err msg) /\ ~ get_fields_ok s)
  \/ (exists k n, prepareHandlerGET (Some v) = Ret (Ok (k, n)) /\
                  get_fields_ok s).
Proof.
  intros (a & outs & va & U & E & K). unfold prepareHandlerGET. cbn.
  unfold reflect.In. rewrite U. cbn. rewrite (Elem_PtrTo _ _ E). cbn.
  destruct (decide (kind s ≠ Struct)) as [N|_]; [contradiction|].
  apply kind_Struct in K as (fs & Us). unfold NumField, Field. rewrite Us. cbn.
  destruct fs as [|[n t] [|g fs]]; cbn.
  - right. exists emptyGET, EmptyString. split; auto. exists []. auto.
  - destruct (decide (kind t = Slice)) as [KS|KS].
    + apply kind_Slice in KS as (e & Ue). rewrite (Elem_SliceOf _ _ Ue). cbn.
      destruct (bool_decide (kind e = Uint8)) eqn:B.
      * apply bool_decide_eq_true in B. right. exists sliceGET, n.
        split; auto. exists [(n, t)]. split; auto. right. exists n, t.
        split; auto. right. eauto.
      * apply bool_decide_eq_false in B.
        assert (KT : kind t = Slice) by (apply kind_Slice; eauto).
        destruct (decide (kind t = Int)) as [KI|KI]; [congruence|].
        left. eexists. split; [reflexivity|].
        intros (fs & Ufs & [->|(n' & t' & -> & F)]); rewrite Us in Ufs;
          [discriminate|]. injection Ufs as <- <-.
        destruct F as [F|(e' & Ue' & Ke')]; [congruence|].
        assert (e' = e) as -> by congruence. auto.
    + cbn. destruct (decide (kind t = Int)) as [KI|KI].
      * right. exists intGET, n. split; auto. exists [(n, t)]. split; auto.
        right. exists n, t. split; auto. left. auto.
      * left. eexists. split; [reflexivity|].
        intros (fs & Ufs & [->|(n' & t' & -> & F)]); rewrite Us in Ufs;
          [discriminate|]. injection Ufs as <- <-.
        destruct F as [F|(e' & Ue' & Ke')]; [congruence|].
        apply KS, kind_Slice. eauto.
  - left. eexists. split; [reflexivity|].
    intros (fs' & Ufs & [->|(n' & t' & -> & F)]); rewrite Us in Ufs;
      discriminate.
Qed.

(** With the method GET and a level of 3 or more, an input struct whose
    fields are not the accepted ones is refused with an error, unless the
    derivation of the route key has panicked first. *)
Lemma RegisterRESTHandler_GET_fields v since namespace p s :
  (3 <= since)%Z -> input_struct (htype v) s -> ~ get_fields_ok s ->
  (exists msg,
      RegisterRESTHandler (Some v) since namespace "GET" p = (Ret (Some msg), p))
  \/ (exists m,
      createServiceHandler (Some v) = Panic m /\
      RegisterRESTHandler (Some v) since namespace "GET" p = (Panic m, p)).
Proof.
  intros Hs HI N. unfold RegisterRESTHandler.
  cbn -[prepareHandlerGET createServiceHandler Z.ltb].
  apply Z.ltb_ge in Hs. rewrite Hs.
  destruct (createServiceHandler (Some v)) as [[[resource sh]|err]|m].
  - destruct (prepareHandlerGET_cases v s HI) as [(msg & -> & _)|(k & n & _ & G)];
      [|contradiction].
    left. eauto.
  - left. eauto.
  - right. eauto.
Qed.

End Rest.

(** C7. [RegisterRESTHandler] with the method GET and the level 3 at the
    handler [func(msg *struct{ A string; B string }) (ret *network.Body,
    err error)]: the input struct has two fields, so it is not one a GET
    route accepts, and the call panics while deriving the route key; it
    returns no error. *)
Theorem RegisterRESTHandler_GET_unnamed_struct (p : ServiceProcessor nat) :
  Shape.unary Sample.pairType /\
  Shape.input_struct Sample.pairType Sample.Pair /\
  ~ Shape.get_fields_ok Sample.Pair /\
  RegisterRESTHandler Sample.pair 3 "ns" "GET" p =
    (Panic "runtime error: index out of range [1] with length 1", p).
Proof.
  split; [|split; [|split; [|reflexivity]]].
  - exists (reflect.PtrTo Sample.Pair), (reflect.PtrTo Sample.Body),
      reflect.errType, false.
    repeat split.
    + exists Sample.Pair. split; reflexivity.
    + left. exists Sample.Body. split; reflexivity.
  - exists (reflect.PtrTo Sample.Pair), [reflect.PtrTo Sample.Body; reflect.errType],
      false.
    repeat split.
  - intros (fs & U & [->|(n & t & -> & _)]); discriminate.
Qed.

(** C6. A GET route of kind integer registered at the API level 10: the
    registration succeeds and the router serves it at [/v10/ns/Body/], the
    path [/v10/ns/Body/42] matches the pattern of the specification, with
    any version number, and the closure answers it with 404, invalid path:
    its pattern has one digit after the [v]. *)
Theorem rest_int_route_version_10 :
  exists h : restHandler nat,
    RegisterRESTHandler Sample.echo 10 "ns" "GET" (NewServiceProcessor nat) =
      (Ret None, MkServiceProcessor ∅ [("/v10/ns/Body/", h)]) /\
    rest_k h = intGET /\ rest_fieldNameGET h = "A" /\
    regexp.matches (Shape.specPathPattern "ns" "Body") "/v10/ns/Body/42" = true /\
    restServe Sample.unmarshal Sample.marshal Sample.hexDecode Sample.base64
      Sample.matchString h
      (MkRequest "GET" "/v10/ns/Body/42" EmptyString (Ok EmptyString)) =
      (Ret (http_Error "invalid path" StatusNotFound), []).
Proof.
  eexists. split; [reflexivity|]. repeat split; vm_compute; reflexivity.
Qed.

(** The same route at the level 3: the path [/v3/ns/Body/42] is accepted
    and the payload handed to the JSON decoder, before the handler runs,
    is the one-field object of the field [A] with the value 42. *)
Lemma rest_int_route_version_3 :
  exists h : restHandler nat,
    RegisterRESTHandler Sample.echo 3 "ns" "GET" (NewServiceProcessor nat) =
      (Ret None, MkServiceProcessor ∅ [("/v3/ns/Body/", h)]) /\
    regexp.matches (Shape.specPathPattern "ns" "Body") "/v3/ns/Body/42" = true /\
    restPayload Sample.hexDecode Sample.base64 Sample.matchString h
      (MkRequest "GET" "/v3/ns/Body/42" EmptyString (Ok EmptyString)) =
      inl ("{" +:+ dquote +:+ "A" +:+ dquote +:+ ": 42}") /\
    restPayload Sample.hexDecode Sample.base64 Sample.matchString h
      (MkRequest "GET" "/v3/ns/Body/4x" EmptyString (Ok EmptyString)) =
      inr (http_Error "invalid path" StatusNotFound).
Proof.
  eexists. split; [reflexivity|]. repeat split; vm_compute; reflexivity.
Qed.

Section Registry.
Context {Message : Type}.
Implicit Types (f : iface Message) (p q : ServiceProcessor Message).

Lemma keeps_refl p : keeps p p.
Proof. now intros k. Qed.

Lemma keeps_trans p q r : keeps p q -> keeps q r -> keeps p r.
Proof. intros H1 H2 k Hk. auto. Qed.

Lemma keeps_set_handlers p pm sh : keeps p (set_handlers p pm sh).
Proof.
  intros k Hk. cbn. destruct (decide (pm = k)) as [->|N].
  - rewrite lookup_insert_eq. eauto.
  - now rewrite lookup_insert_ne.
Qed.

Lemma RegisterHandler_keeps f p : keeps p (RegisterHandler f p).2.
Proof.
  unfold RegisterHandler.
  destruct (handlerInputCheck f) as [[e|]|m]; cbn; try apply keeps_refl.
  destruct (createServiceHandler f) as [[[pm sh]|e]|m]; cbn;
    auto using keeps_refl, keeps_set_handlers.
Qed.

Lemma RegisterStreamingHandler_keeps f p :
  keeps p (RegisterStreamingHandler f p).2.
Proof.
  unfold RegisterStreamingHandler.
  destruct (handlerInputCheck f) as [[e|]|m]; cbn; try apply keeps_refl.
  destruct (streamingServiceHandler f) as [[[pm sh]|e]|m]; cbn;
    auto using keeps_refl, keeps_set_handlers.
Qed.

Lemma RegisterHandlers_keeps procs p : keeps p (RegisterHandlers procs p).2.
Proof.
  revert p. induction procs as [|pr rest IH]; intros p; cbn.
  - apply keeps_refl.
  - pose proof (RegisterHandler_keeps pr p) as H.
    destruct (RegisterHandler pr p) as [[[e|]|m] q]; cbn in *; auto.
    eapply keeps_trans; eauto.
Qed.

Lemma RegisterStreamingHandlers_keeps procs p :
  keeps p (RegisterStreamingHandlers procs p).2.
Proof.
  revert p. induction procs as [|pr rest IH]; intros p; cbn.
  - apply keeps_refl.
  - pose proof (RegisterStreamingHandler_keeps pr p) as H.
    destruct (RegisterStreamingHandler pr p) as [[[e|]|m] q]; cbn in *; auto.
    eapply keeps_trans; eauto.
Qed.

(** [RegisterRESTHandler] adds a route to the router and leaves the
    registry alone. *)
Lemma RegisterRESTHandler_handlers f since namespace method p :
  handlers (RegisterRESTHandler f since namespace method p).2 = handlers p.
Proof.
  unfold RegisterRESTHandler.
  repeat match goal with
         | |- context [if ?b then _ else _] => destruct b
         | |- context [match ?x with _ => _ end] => destruct x
         end; reflexivity.
Qed.

(** C8. The registry never shrinks: after each operation of the
    processor every route key that was present is still present, and an
    operation that is not a registration leaves the processor as it
    was. *)
Theorem registry_never_shrinks (o : operation Message) p k :
  is_Some (handlers p !! k) ->
  is_Some (handlers (after o p) !! k) /\
  (is_registration o = false -> after o p = p).
Proof.
  intros Hk. split.
  - destruct o; cbn.
    + now apply RegisterHandler_keeps.
    + now apply RegisterStreamingHandler_keeps.
    + now apply RegisterHandlers_keeps.
    + now apply RegisterStreamingHandlers_keeps.
    + now rewrite RegisterRESTHandler_handlers.
    + assumption.
  - destruct o; cbn; intros; congruence.
Qed.

End Registry.

Section Dispatch.
Context {Message : Type}.
Variable DecodeWithConstructors : bytes -> reflect.type -> outcome Message.
Variable Encode : any Message -> outcome bytes.
Implicit Types (p : ServiceProcessor Message) (h : serviceHandler Message).

Abbreviation dispatch := (ProcessClientRequest DecodeWithConstructors Encode).

(** C4. For a route key that is not in the registry and every payload,
    [ProcessClientRequest] returns nil reply bytes, a nil tunnel and the
    error that the message is not registered; all it does on the way is
    log that error: no handler is invoked and nothing is decoded. *)
Theorem unregistered_route p (path : string) (buf : bytes) :
  handlers p !! path = None ->
  exists tr,
    dispatch p path buf =
      (Ret (None, None,
            Some ("The requested message hasn't been registered: " +:+ path)),
       tr) /\
    tr = [EvLogError ("The requested message hasn't been registered: " +:+ path)] /\
    existsb is_call tr = false /\ existsb is_decode tr = false.
Proof.
  intros H. eexists. unfold ProcessClientRequest. rewrite H. cbn.
  repeat split.
Qed.

(** What a dispatch that returns a nil error has done. *)
Lemma dispatch_success p path buf b tun tr :
  dispatch p path buf = (Ret (b, tun, None), tr) ->
  exists h msg reply sc t1,
    handlers p !! path = Some h /\
    DecodeWithConstructors buf (msgType h) = Ok msg /\
    callInterfaceFunc (handler h) msg (streaming h) = (Ret (reply, sc, None), t1) /\
    ((streaming h = true /\ b = None /\
      tun = Some (MkStreamingTunnel (make_chan bytes 100) sc) /\
      tr = EvDecode (msgType h) buf :: t1 ++ [EvGo reply (make_chan bytes 100)])
     \/ (streaming h = false /\ tun = None /\ Encode reply = Ok b /\
         tr = EvDecode (msgType h) buf :: t1 ++ [EvEncode reply])).
Proof.
  intros H. unfold ProcessClientRequest in H.
  destruct (handlers p !! path) as [h|] eqn:Hh;
    cbn -[callInterfaceFunc] in H; [|discriminate].
  destruct (DecodeWithConstructors buf (msgType h)) as [msg|e] eqn:D;
    cbn -[callInterfaceFunc] in H; [|discriminate].
  destruct (callInterfaceFunc (handler h) msg (streaming h))
    as [[[[reply sc] [e|]]|m] t1] eqn:C; cbn in H; try discriminate.
  exists h, msg, reply, sc, t1.
  split; [reflexivity|split; [assumption|split; [exact C|]]].
  destruct (streaming h) eqn:S; cbn in H.
  - injection H as <- <- <-. left. repeat split.
  - destruct (Encode reply) as [b'|e] eqn:E; cbn in H; [|discriminate].
    injection H as <- <- <-. right. repeat split.
Qed.

(** The tunnel of a unary call is nil. *)
Lemma callInterfaceFunc_unary (f : iface Message) msg reply sc err t1 :
  callInterfaceFunc f msg false = (Ret (reply, sc, err), t1) -> sc = None.
Proof.
  unfold callInterfaceFunc.
  destruct (recv (TypeOf f)) as [ft|]; cbn; [|discriminate].
  destruct (reflect.In ft 0) as [to|]; cbn; [|discriminate].
  destruct (reflect.Elem to) as [el|]; cbn; [|discriminate].
  destruct (index _ 1) as [[| | |]|]; cbn; try discriminate;
    try (intros [= <- <- <- <-]; reflexivity).
  destruct (index _ 0) as [r0|]; cbn; [|discriminate].
  intros [= <- <- <- <-]; reflexivity.
Qed.

(** A call that returns without an error has called a function, once,
    and hands on its results: the first as the reply, and on a streaming
    route the second as the channel to stop it. *)
Lemma callInterfaceFunc_returns (f : iface Message) msg st reply sc t1 :
  callInterfaceFunc f msg st = (Ret (reply, sc, None), t1) ->
  exists v, f = Some v /\ t1 = [EvCall f msg] /\
    hcall v msg !! 0 = Some reply /\
    hcall v msg !! (if st then 2 else 1) = Some Nil /\
    if st then exists c, sc = Some c /\ hcall v msg !! 1 = Some (Channel c)
    else sc = None.
Proof.
  unfold callInterfaceFunc. destruct f as [v|]; cbn; [|discriminate].
  destruct (reflect.In (htype v) 0) as [to|]; cbn; [|discriminate].
  destruct (reflect.Elem to) as [el|]; cbn; [|discriminate].
  unfold index. destruct st.
  - destruct (hcall v msg !! 2) as [[| | |]|] eqn:E2; cbn; try discriminate.
    destruct (hcall v msg !! 0) as [r0|] eqn:E0; cbn; [|discriminate].
    destruct (hcall v msg !! 1) as [r1|] eqn:E1; cbn; [|discriminate].
    unfold assert_chan_bool.
    destruct (reflect.Out (htype v) 1) as [o1|]; cbn; [|discriminate].
    destruct o1 as [| | | | |[] [[]| | | | | | | | |]| | | |], r1;
      cbn; try discriminate.
    intros [= <- <- <-]. exists v. repeat split; auto. eauto.
  - destruct (hcall v msg !! 1) as [[| | |]|] eqn:E1; cbn; try discriminate.
    destruct (hcall v msg !! 0) as [r0|] eqn:E0; cbn; [|discriminate].
    intros [= <- <- <-]. exists v. repeat split; auto.
Qed.

(** C2, as the code has it. For every dispatch that returns a nil error
    the reply bytes and the tunnel are never both non-nil, the route is
    registered, its handler is a function, the payload decoded to the
    message the handler was called with, once, and the handler returned
    a nil error. On a streaming route the reply bytes are nil and the
    tunnel is not: its channel is new with room for 100 items, its stop
    channel is the second result of the handler, and the goroutine is
    started on the first. On a unary route the tunnel is nil and the
    reply bytes are what the encoder gave for the first result of the
    handler, nil when the encoder gives nil. *)
Theorem dispatch_success_shape p path buf b tun tr :
  dispatch p path buf = (Ret (b, tun, None), tr) ->
  (b = None \/ tun = None) /\
  exists h v msg reply,
    handlers p !! path = Some h /\ handler h = Some v /\
    DecodeWithConstructors buf (msgType h) = Ok msg /\
    hcall v msg !! 0 = Some reply /\
    ((streaming h = true /\ b = None /\
      hcall v msg !! 2 = Some Nil /\
      exists c, hcall v msg !! 1 = Some (Channel c) /\
        tun = Some (MkStreamingTunnel (make_chan bytes 100) (Some c)) /\
        tr = [EvDecode (msgType h) buf; EvCall (Some v) msg;
              EvGo reply (make_chan bytes 100)])
     \/ (streaming h = false /\ tun = None /\
         hcall v msg !! 1 = Some Nil /\
         Encode reply = Ok b /\
         tr = [EvDecode (msgType h) buf; EvCall (Some v) msg;
               EvEncode reply])).
Proof.
  intros H.
  destruct (dispatch_success _ _ _ _ _ _ H)
    as (h & msg & reply & sc & t1 & Hh & D & C & Shape).
  destruct (callInterfaceFunc_returns _ _ _ _ _ _ C)
    as (v & Hv & -> & R0 & RE & RS).
  split.
  { destruct Shape as [(_ & -> & _)|(_ & -> & _)]; auto. }
  exists h, v, msg, reply. rewrite Hv in *.
  split; [exact Hh|]. split; [reflexivity|]. split; [exact D|].
  split; [exact R0|].
  destruct Shape as [(S & -> & -> & ->)|(S & -> & E & ->)]; rewrite S in *.
  - left. destruct RS as (c & -> & R1).
    split; [reflexivity|]. split; [reflexivity|]. split; [exact RE|].
    exists c. split; [exact R1|]. split; reflexivity.
  - right. split; [reflexivity|]. split; [reflexivity|].
    split; [exact RE|]. split; [exact E|reflexivity].
Qed.


End Dispatch.

(** C2, as stated, fails. A unary route whose handler returns the nil
    interface and a nil error, with an encoder that, as [protobuf.Encode]
    does, gives no bytes and no error for it: the dispatch returns a nil
    error, nil reply bytes and a nil tunnel. *)
Lemma dispatch_nil_reply_nil_tunnel :
  Shape.unary Sample.anyType /\
  ProcessClientRequest Sample.decode Sample.encode
    (Sample.withHandler Sample.silent false) "Body" (Some []) =
    (Ret (None, None, None),
     [EvDecode Sample.Body (Some []); EvCall Sample.silent 0; EvEncode Nil]).
Proof.
  split.
  - exists (reflect.PtrTo Sample.Body), (reflect.InterfaceOf []),
      reflect.errType, false.
    repeat split.
    + exists Sample.Body. split; reflexivity.
    + right. reflexivity.
  - vm_compute. reflexivity.
Qed.

Section Stream.
Context {Message : Type}.
Variable Encode : any Message -> outcome bytes.
Implicit Types (s : stream Message) (bs : list bytes) (vs : list (any Message)).

Variable dir : reflect.ChanDir.
Hypothesis receivable : dir <> reflect.SendDir.

Lemma consistent_start vs bs n (oc : chan bytes) :
  Forall2 (fun v b => Encode v = Ok b) vs bs ->
  buf oc = [] -> closed oc = false -> 0 < cap oc ->
  consistent Encode bs (start vs n oc).
Proof.
  intros F B C K. unfold consistent, start, in_hand. cbn. rewrite B, C.
  repeat split; try discriminate; auto.
  exists bs. auto.
Qed.

Lemma received_encodable v b (oc : chan bytes) :
  Encode v = Ok b -> received Encode v oc = (Sending b, oc).
Proof. unfold received. now intros ->. Qed.

Lemma consistent_step bs s s' :
  consistent Encode bs s -> step Encode dir s s' -> consistent Encode bs s'.
Proof.
  intros ((rest & F & EQ) & I2 & I3 & I4 & I5 & I6 & I7) St.
  unfold consistent, in_hand in *.
  inversion St; subst; cbn in *.
  - (* handler_send *)
    split; [exists rest; split; [now rewrite <- app_assoc|reflexivity]|].
    split; [intros Hc; specialize (I2 Hc); discriminate|].
    split; [assumption|]. split; [|auto].
    intros Hf. destruct (I4 Hf) as [Hc _]. specialize (I2 Hc). discriminate.
  - (* handler_handoff *)
    inversion F as [|v0 b l l' Ev F']; subst.
    rewrite (received_encodable _ _ _ Ev). cbn.
    split; [exists l'; auto|].
    split; [intros Hc; specialize (I2 Hc); discriminate|].
    split; [split; [discriminate|intros Hc; apply I3 in Hc; discriminate]|].
    split; [discriminate|auto].
  - (* handler_close *)
    split; [exists rest; auto|]. split; [auto|]. split; [assumption|].
    split; [|auto]. intros Hf. destruct (I4 Hf). discriminate.
  - (* forwarder_panics *)
    contradiction.
  - (* forwarder_receive *)
    inversion F as [|v0 b l l' Ev F']; subst.
    rewrite (received_encodable _ _ _ Ev). cbn.
    split; [exists l'; auto|]. split; [assumption|].
    split; [split; [discriminate|intros Hc; apply I3 in Hc; discriminate]|].
    split; [discriminate|auto].
  - (* forwarder_closed *)
    split; [exists rest; auto|]. split; [assumption|].
    split; [tauto|]. split; [auto|]. split; [assumption|].
    split; [|exact I]. intros He. destruct (I6 He). auto.
  - (* forwarder_send *)
    split; [exists rest; split; [assumption|now rewrite <- !app_assoc]|].
    split; [assumption|].
    split; [split; [discriminate|intros Hc; apply I3 in Hc; discriminate]|].
    split; [discriminate|]. split; [assumption|].
    split; [|exact I].
    intros He. destruct (I6 He) as [Hc _]. apply I3 in Hc. discriminate.
  - (* transport_receive *)
    split; [exists rest; split; [assumption|now rewrite <- !app_assoc]|].
    repeat split; auto; try tauto; discriminate.
  - (* transport_eof *)
    split; [exists rest; auto|]. repeat split; auto; tauto.
Qed.

Lemma consistent_steps bs s s' :
  consistent Encode bs s -> steps Encode dir s s' -> consistent Encode bs s'.
Proof. induction 2; eauto using consistent_step. Qed.

(** On a channel that can be received from the goroutine never panics. *)
Lemma alive_step s s' :
  step Encode dir s s' -> alive (fwd s) -> alive (fwd s').
Proof.
  inversion 1; subst; cbn; auto; try contradiction;
    unfold received; destruct (Encode v); cbn; auto.
Qed.

Lemma alive_steps s s' :
  steps Encode dir s s' -> alive (fwd s) -> alive (fwd s').
Proof. induction 1; eauto using alive_step. Qed.

(** Every step uses up weight: a run has at most [weight s] steps. *)
Lemma weight_step s s' : step Encode dir s s' -> weight s' < weight s.
Proof.
  inversion 1; subst; unfold weight, received; cbn;
    repeat match goal with
           | |- context [Encode ?v] => destruct (Encode v); cbn
           end;
    repeat match goal with
           | |- context [if ?b then _ else _] => destruct b
           | |- context [match ?f with Receiving => _ | _ => _ end] => destruct f
           end; cbn; rewrite ?length_app; cbn; lia.
Qed.

(** Only the goroutine closes the channel of the tunnel, as it returns. *)
Lemma closed_by_forwarder s s' :
  step Encode dir s s' ->
  closed (outChan s) = false -> closed (outChan s') = true ->
  fwd s = Receiving /\ fwd s' = Stopped.
Proof.
  inversion 1; subst; unfold received; cbn; try congruence;
    try (destruct (Encode v); cbn; try congruence); auto.
Qed.

(** Until the transport has seen the end, some step is possible. *)
Lemma progress bs s :
  consistent Encode bs s -> eof s = false -> exists s', step Encode dir s s'.
Proof.
  intros (_ & I2 & I3 & I4 & I5 & I6 & I7).
  destruct s as [sc hc ic n f [ob oc ocl] d e]. cbn in *. intros ->.
  destruct ob as [|b ob].
  2: { eexists. now apply transport_receive. }
  destruct ocl.
  { eexists. now apply transport_eof. }
  destruct f as [|b| |m].
  - destruct ic as [|v ic].
    + destruct hc.
      * eexists. now apply forwarder_closed.
      * destruct sc as [|v vs].
        -- eexists. now apply handler_close.
        -- eexists. now apply handler_handoff.
    + eexists. now apply forwarder_receive.
  - eexists. apply forwarder_send. cbn. lia.
  - destruct I3 as [I3 _]. specialize (I3 eq_refl). discriminate.
  - contradiction.
Qed.

Lemma delivered_prefix bs s :
  consistent Encode bs s -> delivered s `prefix_of` bs.
Proof. intros ((rest & _ & <-) & _). eexists. reflexivity. Qed.

Lemma delivered_all bs s :
  consistent Encode bs s -> eof s = true -> delivered s = bs.
Proof.
  intros ((rest & F & <-) & I2 & I3 & I4 & I5 & I6 & I7) He.
  destruct (I6 He) as [Hc Hb]. apply I3 in Hc. destruct (I4 Hc) as [Hh Hi].
  specialize (I2 Hh). unfold in_hand. rewrite Hb, Hc, Hi, I2 in *.
  inversion F. now rewrite !app_nil_r.
Qed.

End Stream.

Section Tunnel.
Context {Message : Type}.
Variable DecodeWithConstructors : bytes -> reflect.type -> outcome Message.
Variable Encode : any Message -> outcome bytes.

(** The stream of a route whose handler returns a channel that can be
    received from ([chan T] or [<-chan T]). For a handler that sends the
    values [vs] and then closes its channel, all of which encode, to
    [bs]: the goroutine started by the dispatch forwards to the channel
    of the tunnel, and in every state [s] of a run of the stream the
    items the transport has read are the first of [bs], in order; once
    it has seen the channel closed they are all of [bs]; until then a
    step is always possible; every step uses up weight, so every run
    ends, and it ends with the transport at the closed channel; and the
    channel is closed by the goroutine as it returns, by no one else. *)
Lemma stream_forwarded (p : ServiceProcessor Message) path buf tun tr
    (h : serviceHandler Message) (dir : reflect.ChanDir)
    (vs : list (any Message)) (bs : list bytes) (n : nat) (s : stream Message) :
  ProcessClientRequest DecodeWithConstructors Encode p path buf =
    (Ret (None, Some tun, None), tr) ->
  handlers p !! path = Some h ->
  replyDir (handler h) = Some dir -> dir <> reflect.SendDir ->
  Forall2 (fun v b => Encode v = Ok b) vs bs ->
  steps Encode dir (start vs n (out tun)) s ->
  (exists reply, In (EvGo reply (out tun)) tr) /\
  out tun = make_chan bytes 100 /\
  delivered s `prefix_of` bs /\
  (eof s = true -> delivered s = bs /\ closed (outChan s) = true) /\
  (eof s = false -> exists s', step Encode dir s s') /\
  (forall s', step Encode dir s s' ->
     weight s' < weight s /\
     (closed (outChan s) = false -> closed (outChan s') = true ->
      fwd s = Receiving /\ fwd s' = Stopped)).
Proof.
  intros H _ _ Hd F R.
  destruct (dispatch_success _ _ _ _ _ _ _ _ H)
    as (h0 & msg & reply & sc & t1 & Hh & _ & _ &
        [(S & _ & [= ->] & ->)|(_ & [=] & _)]).
  cbn in *.
  assert (C : consistent Encode bs s).
  { eapply (consistent_steps Encode dir Hd); [|exact R].
    apply consistent_start; auto. cbn. lia. }
  split. { exists reply. right. apply in_or_app. right. now left. }
  split; [reflexivity|].
  split; [now apply (delivered_prefix Encode)|].
  split.
  { intros He. split; [now apply (delivered_all Encode)|].
    destruct C as (_ & _ & _ & _ & _ & I6 & _). now destruct (I6 He). }
  split; [now apply (progress Encode dir Hd bs)|].
  intros s' St. split.
  - now apply (weight_step Encode dir).
  - now apply (closed_by_forwarder Encode dir).
Qed.

End Tunnel.

(** * The theorems at sample inputs *)

Lemma steps_first {Message : Type} (Encode : any Message -> outcome bytes)
    (dir : reflect.ChanDir) (s s1 s2 : stream Message) :
  step Encode dir s s1 -> steps Encode dir s1 s2 -> steps Encode dir s s2.
Proof.
  intros H R. induction R as [|s2 s3 R IH St].
  - eapply steps_step; [apply steps_refl|exact H].
  - eapply steps_step; eauto.
Qed.

(** A run of the stream of a handler that sends one message over an
    unbuffered channel and closes it: hand-off, send, close, end of the
    handler's channel, read, end of the tunnel. *)
Lemma sample_run :
  steps Sample.encode reflect.BothDir
    (start [Value 2] 0 (make_chan bytes 100))
    (MkStream [] true [] 0 Stopped (MkChan [] 100 true)
       [Some [Byte.x01; Byte.x01]] true).
Proof.
  eapply steps_first; [apply handler_handoff; discriminate|]. cbn.
  eapply steps_first; [apply forwarder_send; cbn; lia|]. cbn.
  eapply steps_first; [apply handler_close; exact I|].
  eapply steps_first; [apply forwarder_closed; discriminate|]. cbn.
  eapply steps_first; [apply transport_receive; exact I|]. cbn.
  eapply steps_first; [apply transport_eof; exact I|].
  apply steps_refl.
Qed.

Lemma stream_forwarded_witness :
  ProcessClientRequest Sample.decode Sample.encode
    (Sample.withHandler Sample.ticker true) "Body" (Some []) =
    (Ret (None, Some (MkStreamingTunnel (make_chan bytes 100) (Some 1)), None),
     [EvDecode Sample.Body (Some []); EvCall Sample.ticker 0;
      EvGo (Channel 0) (make_chan bytes 100)]) /\
  Forall2 (fun v b => Sample.encode v = Ok b) [Value 2]
    [Some [Byte.x01; Byte.x01]] /\
  let s := MkStream [] true [] 0 Stopped (MkChan [] 100 true)
             [Some [Byte.x01; Byte.x01]] true in
  replyDir Sample.ticker = Some reflect.BothDir /\
  steps Sample.encode reflect.BothDir
    (start [Value 2] 0 (make_chan bytes 100)) s /\
  delivered s `prefix_of` [Some [Byte.x01; Byte.x01]] /\
  (eof s = true ->
   delivered s = [Some [Byte.x01; Byte.x01]] /\ closed (outChan s) = true).
Proof.
  assert (H1 : ProcessClientRequest Sample.decode Sample.encode
                 (Sample.withHandler Sample.ticker true) "Body" (Some []) =
               (Ret (None, Some (MkStreamingTunnel (make_chan bytes 100) (Some 1)),
                     None),
                [EvDecode Sample.Body (Some []); EvCall Sample.ticker 0;
                 EvGo (Channel 0) (make_chan bytes 100)]))
    by (vm_compute; reflexivity).
  assert (H2 : Forall2 (fun v b => Sample.encode v = Ok b) [Value 2]
                 [Some [Byte.x01; Byte.x01]])
    by (repeat constructor).
  split; [exact H1|]. split; [exact H2|].
  intros s. split; [reflexivity|]. split; [exact sample_run|].
  assert (Hd : reflect.BothDir <> reflect.SendDir) by discriminate.
  destruct (stream_forwarded Sample.decode Sample.encode
              (Sample.withHandler Sample.ticker true) "Body" (Some []) _ _
              (MkServiceHandler Sample.ticker Sample.Body true)
              reflect.BothDir _ _ 0 s
              H1 eq_refl eq_refl Hd H2 sample_run) as (_ & _ & P & E & _).
  split; assumption.
Defined.

Lemma unregistered_route_witness :
  handlers (NewServiceProcessor nat) !! "Body" = None /\
  exists tr,
    ProcessClientRequest Sample.decode Sample.encode (NewServiceProcessor nat)
      "Body" (Some []) =
      (Ret (None, None,
            Some "The requested message hasn't been registered: Body"), tr) /\
    tr = [EvLogError "The requested message hasn't been registered: Body"] /\
    existsb is_call tr = false /\ existsb is_decode tr = false.
Proof.
  split; [reflexivity|].
  apply (unregistered_route Sample.decode Sample.encode
           (NewServiceProcessor nat) "Body" (Some [])).
  reflexivity.
Defined.

Lemma dispatch_success_shape_witness :
  let p := Sample.withHandler Sample.echo false in
  let tr := [EvDecode Sample.Body (Some [Byte.x00]); EvCall Sample.echo 1;
             EvEncode (Value 1)] in
  ProcessClientRequest Sample.decode Sample.encode p "Body" (Some [Byte.x00]) =
    (Ret (Some [Byte.x01], None, None), tr) /\
  (Some [Byte.x01] = None \/ @None StreamingTunnel = None) /\
  exists h v msg reply,
    handlers p !! "Body" = Some h /\ handler h = Some v /\
    Sample.decode (Some [Byte.x00]) (msgType h) = Ok msg /\
    hcall v msg !! 0 = Some reply /\
    ((streaming h = true /\ Some [Byte.x01] = None /\
      hcall v msg !! 2 = Some Nil /\
      exists c, hcall v msg !! 1 = Some (Channel c) /\
        None = Some (MkStreamingTunnel (make_chan bytes 100) (Some c)) /\
        tr = [EvDecode (msgType h) (Some [Byte.x00]); EvCall (Some v) msg;
              EvGo reply (make_chan bytes 100)])
     \/ (streaming h = false /\ @None StreamingTunnel = None /\
         hcall v msg !! 1 = Some Nil /\
         Sample.encode reply = Ok (Some [Byte.x01]) /\
         tr = [EvDecode (msgType h) (Some [Byte.x00]); EvCall (Some v) msg;
               EvEncode reply])).
Proof.
  intros p tr. split; [vm_compute; reflexivity|].
  apply (dispatch_success_shape Sample.decode Sample.encode p "Body"
           (Some [Byte.x00]) (Some [Byte.x01]) None tr).
  vm_compute; reflexivity.
Defined.


Lemma registry_never_shrinks_witness :
  let p := Sample.withHandler Sample.silent false in
  is_Some (handlers p !! "Body") /\
  is_Some (handlers (after (OpRegisterHandler Sample.echo) p) !! "Body") /\
  (is_registration (OpRegisterHandler Sample.echo) = false ->
   after (OpRegisterHandler Sample.echo) p = p).
Proof.
  intros p.
  assert (H : is_Some (handlers p !! "Body"))
    by (eexists; vm_compute; reflexivity).
  split; [exact H|].
  exact (registry_never_shrinks (OpRegisterHandler Sample.echo) p "Body" H).
Defined.

Lemma registration_rejects_malformed_witness :
  let v := MkValue (reflect.Basic reflect.Tint) (fun _ : nat => []) in
  ~ Shape.unary (htype v) /\ ~ Shape.streaming (htype v) /\
  (exists msg pos,
      RegisterHandler (Some v) (NewServiceProcessor nat) =
        (Ret (Some msg), NewServiceProcessor nat) /\
      Shape.position_named msg = Some pos /\
      Shape.offends false (htype v) pos) /\
  (exists msg pos,
      RegisterStreamingHandler (Some v) (NewServiceProcessor nat) =
        (Ret (Some msg), NewServiceProcessor nat) /\
      Shape.position_named msg = Some pos /\
      Shape.offends true (htype v) pos).
Proof.
  intros v.
  assert (N1 : ~ Shape.unary (htype v)).
  { intros (a & r & e & va & U & _). discriminate U. }
  assert (N2 : ~ Shape.streaming (htype v)).
  { intros (a & c & b & e & va & U & _). discriminate U. }
  split; [exact N1|]. split; [exact N2|].
  split.
  - exact (proj1 (registration_rejects_malformed v (NewServiceProcessor nat)) N1).
  - exact (proj2 (registration_rejects_malformed v (NewServiceProcessor nat)) N2).
Defined.

(** * More of the processor *)

Section DispatchMore.
Import reflect.
Context {Message : Type}.
Variable DecodeWithConstructors : bytes -> reflect.type -> outcome Message.
Variable Encode : any Message -> outcome bytes.
Implicit Types (p : ServiceProcessor Message) (h : serviceHandler Message)
  (v : value Message).

Abbreviation dispatch' := (ProcessClientRequest DecodeWithConstructors Encode).

(** [callInterfaceFunc] calls the function once, unless it panics before
    the call. *)
Lemma callInterfaceFunc_trace (f : iface Message) msg st r t :
  callInterfaceFunc f msg st = (r, t) ->
  (t = [] /\ exists m, r = Panic m) \/ t = [EvCall f msg].
Proof.
  unfold callInterfaceFunc.
  destruct (recv (TypeOf f)) as [ft|m]; cbn;
    [|intros HH; injection HH as <- <-; left; eauto].
  destruct (In ft 0) as [to|m]; cbn; [|intros HH; injection HH as <- <-; left; eauto].
  destruct (Elem to) as [el|m]; cbn; [|intros HH; injection HH as <- <-; left; eauto].
  intros H. right.
  destruct st;
    repeat match type of H with
           | context [index ?l ?i] => destruct (index l i) as [[| | |]|]; cbn in H
           | context [assert_chan_bool _ ?a ?b] =>
               destruct (assert_chan_bool _ a b); cbn in H
           end; injection H as <- <-; reflexivity.
Qed.

(** A valid handler type lets the call go through to the function. *)
Lemma callInterfaceFunc_calls v msg st a s :
  In (htype v) 0 = Ret a -> Elem a = Ret s ->
  callInterfaceFunc (Some v) msg st =
    (let ret := hcall v msg in
     if st then
       ierr ← index ret 2;
       match ierr with
       | Nil =>
           r0 ← index ret 0;
           r1 ← index ret 1;
           c ← assert_chan_bool _ (htype v) r1;
           Ret (r0, Some c, None)
       | _ => e ← assert_error _ ierr; Ret (Nil, None, Some e)
       end
     else
       ierr ← index ret 1;
       match ierr with
       | Nil => r0 ← index ret 0; Ret (r0, None, None)
       | _ => e ← assert_error _ ierr; Ret (Nil, None, Some e)
       end,
     [EvCall (Some v) msg]).
Proof.
  intros HI HE. unfold callInterfaceFunc. cbn. rewrite HI. cbn. rewrite HE. cbn.
  destruct st; cbn.
  - destruct (index (hcall v msg) 2) as [[| | |]|]; cbn; try reflexivity.
    destruct (index (hcall v msg) 0); cbn; try reflexivity.
    destruct (index (hcall v msg) 1); cbn; try reflexivity.
    destruct (assert_chan_bool _ (htype v) a1); reflexivity.
  - destruct (index (hcall v msg) 1) as [[| | |]|]; cbn; try reflexivity.
    destruct (index (hcall v msg) 0); reflexivity.
Qed.

(** X1. In every dispatch the handler is invoked at most once and the
    payload decoded at most once; a handler that is invoked is the one
    registered under the route key, and its argument is what the decoder
    gave for the payload at the entry's message type. So nothing is
    invoked for an unregistered key or a payload that does not decode. *)
Theorem dispatch_calls_once p path buf r tr :
  dispatch' p path buf = (r, tr) ->
  length (List.filter is_call tr) <= 1 /\
  length (List.filter is_decode tr) <= 1 /\
  forall f m, List.In (EvCall f m) tr ->
    exists h, handlers p !! path = Some h /\ f = handler h /\
              DecodeWithConstructors buf (msgType h) = Ok m.
Proof.
  unfold ProcessClientRequest.
  destruct (handlers p !! path) as [h|] eqn:Hh; cbn -[callInterfaceFunc].
  2: { intros HH; injection HH as <- <-. cbn. repeat split; try lia.
       intros f m [H|[]]. discriminate. }
  destruct (DecodeWithConstructors buf (msgType h)) as [msg|e] eqn:D;
    cbn -[callInterfaceFunc].
  2: { intros HH; injection HH as <- <-. cbn. repeat split; try lia.
       intros f m [H|[]]. discriminate. }
  destruct (callInterfaceFunc (handler h) msg (streaming h)) as [c t1] eqn:C.
  assert (G : forall t2, existsb is_call t2 = false ->
                         existsb is_decode t2 = false ->
              let tr' := EvDecode (msgType h) buf :: t1 ++ t2 in
              length (List.filter is_call tr') <= 1 /\
              length (List.filter is_decode tr') <= 1 /\
              forall f m, List.In (EvCall f m) tr' ->
                exists h0, Some h = Some h0 /\ f = handler h0 /\
                           DecodeWithConstructors buf (msgType h0) = Ok m).
  { intros t2 Hc Hd tr'. unfold tr'.
    assert (F1 : List.filter is_call t2 = []).
    { clear -Hc. induction t2 as [|e t2 IH]; [reflexivity|].
      cbn in *. apply orb_false_iff in Hc as [-> Ht]. auto. }
    assert (F2 : List.filter is_decode t2 = []).
    { clear -Hd. induction t2 as [|e t2 IH]; [reflexivity|].
      cbn in *. apply orb_false_iff in Hd as [-> Ht]. auto. }
    assert (N : forall f m, ~ List.In (EvCall f m) t2).
    { clear -Hc. intros f m Hin.
      assert (existsb is_call t2 = true); [|congruence].
      apply existsb_exists. exists (EvCall f m). auto. }
    destruct (callInterfaceFunc_trace _ _ _ _ _ C) as [[-> _]| ->]; cbn.
    - rewrite F1, F2. cbn. repeat split; try lia.
      intros f m [H|H]; [discriminate|]. now apply N in H.
    - rewrite F1, F2. cbn. repeat split; try lia.
      intros f m [H|[H|H]]; [discriminate| |now apply N in H].
      injection H as <- <-. eauto. }
  assert (G0 : forall t2, existsb is_call t2 = false ->
                          existsb is_decode t2 = false ->
              forall tr', tr' = EvDecode (msgType h) buf :: t1 ++ t2 ->
              length (List.filter is_call tr') <= 1 /\
              length (List.filter is_decode tr') <= 1 /\
              forall f m, List.In (EvCall f m) tr' ->
                exists h0, Some h = Some h0 /\ f = handler h0 /\
                           DecodeWithConstructors buf (msgType h0) = Ok m).
  { intros t2 Hc Hd tr' ->. now apply G. }
  clear G.
  destruct c as [[[reply sc] [e|]]|m]; cbn.
  - intros HH; injection HH as <- <-. now apply (G0 []).
  - destruct (streaming h); cbn.
    + intros HH; injection HH as <- <-.
      apply (G0 [EvGo reply (make_chan bytes 100)]); reflexivity.
    + destruct (Encode reply) as [b|err]; cbn; intros HH;
        injection HH as <- <-.
      * apply (G0 [EvEncode reply]); reflexivity.
      * apply (G0 [EvEncode reply; EvLogError err]); reflexivity.
  - intros HH; injection HH as <- <-. apply (G0 []); auto.
    now rewrite app_nil_r.
Qed.

(** X2. The error of a handler is returned as it is: on a unary route
    (second result) or a streaming route (third result), with a nil reply
    and a nil tunnel; the reply is not encoded and no goroutine is
    started. *)
Theorem handler_error_propagated p path buf h v msg e a s :
  handlers p !! path = Some h ->
  handler h = Some v ->
  In (htype v) 0 = Ret a -> Elem a = Ret s ->
  DecodeWithConstructors buf (msgType h) = Ok msg ->
  hcall v msg !! (if streaming h then 2 else 1) = Some (Error e) ->
  dispatch' p path buf =
    (Ret (None, None, Some e),
     [EvDecode (msgType h) buf; EvCall (Some v) msg]).
Proof.
  intros Hh Hv HI HE D R. unfold ProcessClientRequest.
  rewrite Hh. cbn -[callInterfaceFunc]. rewrite D, Hv.
  rewrite (callInterfaceFunc_calls _ _ _ _ _ HI HE).
  unfold index. destruct (streaming h); rewrite R; reflexivity.
Qed.

End DispatchMore.

Section RegisterThenDispatch.
Import reflect Shape.
Context {Message : Type}.
Variable DecodeWithConstructors : bytes -> reflect.type -> outcome Message.
Variable Encode : any Message -> outcome bytes.
Implicit Types (p : ServiceProcessor Message) (v : value Message).

(** The streaming registration of a handler whose input struct is a
    defined type [pkg.name] stores the entry under [name]. *)
Lemma RegisterStreamingHandler_named v p pkg name ms pms u :
  streaming (htype v) ->
  input_struct (htype v) (Named pkg name ms pms u) ->
  pkg <> EmptyString ->
  strings.contains "." pkg = false -> strings.contains "." name = false ->
  RegisterStreamingHandler (Some v) p =
    (Ret None,
     set_handlers p name
       (MkServiceHandler (Some v) (Named pkg name ms pms u) true)).
Proof.
  intros Hu (a & outs & va & U & E & K) Hp Hpkg Hname.
  destruct (RegisterStreamingHandler_cases v p)
    as [(N & _)|(_ & s & HI & HC & HD)]; [contradiction|].
  destruct HI as (a' & outs' & va' & U' & E' & K').
  assert (s = Named pkg name ms pms u) as -> by congruence.
  unfold RegisterStreamingHandler. rewrite HC, HD. unfold derive.
  rewrite Split_Named by assumption. reflexivity.
Qed.

Lemma input_struct_In (ft s : type) :
  input_struct ft s -> exists a, In ft 0 = Ret a /\ Elem a = Ret s.
Proof.
  intros (a & outs & va & U & E & _). exists a. split.
  - unfold In. rewrite U. reflexivity.
  - now apply Elem_PtrTo.
Qed.

(** X3. Registration and dispatch compose on a unary route: once
    [RegisterHandler] has taken a handler whose input struct is the
    defined type [pkg.name], a request for the key [name] whose payload
    decodes is answered by that handler: it is called once with the
    decoded message, and when it returns a reply and a nil error the
    result is the encoding of the reply, with a nil tunnel. *)
Theorem register_then_dispatch v p pkg name ms pms u buf msg reply b :
  unary (htype v) ->
  input_struct (htype v) (Named pkg name ms pms u) ->
  pkg <> EmptyString ->
  strings.contains "." pkg = false -> strings.contains "." name = false ->
  DecodeWithConstructors buf (Named pkg name ms pms u) = Ok msg ->
  hcall v msg = [reply; Nil] ->
  Encode reply = Ok b ->
  (RegisterHandler (Some v) p).1 = Ret None /\
  ProcessClientRequest DecodeWithConstructors Encode
    (RegisterHandler (Some v) p).2 name buf =
    (Ret (b, None, None),
     [EvDecode (Named pkg name ms pms u) buf; EvCall (Some v) msg;
      EvEncode reply]).
Proof.
  intros Hu HI Hp Hpkg Hname D R E.
  destruct (RegisterHandler_named v p pkg name ms pms u Hu HI Hp Hpkg Hname)
    as [-> _].
  split; [reflexivity|]. cbn [snd].
  destruct (input_struct_In _ _ HI) as (a & Ha & He).
  unfold ProcessClientRequest, set_handlers. cbn [handlers].
  rewrite lookup_insert_eq. cbn -[callInterfaceFunc]. rewrite D.
  rewrite (callInterfaceFunc_calls _ _ _ _ _ Ha He). rewrite R. cbn.
  rewrite E. reflexivity.
Qed.

(** X4. The same on a streaming route, for a handler whose second result
    has the type [chan bool]: when it returns its two channels and a nil
    error the dispatch returns a tunnel whose close channel is the
    handler's own, with a new output channel of capacity 100, and starts
    the forwarding goroutine on the handler's output channel. *)
Theorem register_then_dispatch_streaming v p pkg name ms pms u buf msg
    (outC closeC : channel) :
  streaming (htype v) ->
  input_struct (htype v) (Named pkg name ms pms u) ->
  pkg <> EmptyString ->
  strings.contains "." pkg = false -> strings.contains "." name = false ->
  Out (htype v) 1 = Ret (ChanOf BothDir (Basic Tbool)) ->
  DecodeWithConstructors buf (Named pkg name ms pms u) = Ok msg ->
  hcall v msg = [Channel outC; Channel closeC; Nil] ->
  (RegisterStreamingHandler (Some v) p).1 = Ret None /\
  ProcessClientRequest DecodeWithConstructors Encode
    (RegisterStreamingHandler (Some v) p).2 name buf =
    (Ret (None,
          Some (MkStreamingTunnel (make_chan bytes 100) (Some closeC)),
          None),
     [EvDecode (Named pkg name ms pms u) buf; EvCall (Some v) msg;
      EvGo (Channel outC) (make_chan bytes 100)]).
Proof.
  intros Hu HI Hp Hpkg Hname HO D R.
  rewrite (RegisterStreamingHandler_named v p pkg name ms pms u Hu HI Hp Hpkg Hname).
  split; [reflexivity|]. cbn [snd].
  destruct (input_struct_In _ _ HI) as (a & Ha & He).
  unfold ProcessClientRequest, set_handlers. cbn [handlers].
  rewrite lookup_insert_eq. cbn -[callInterfaceFunc]. rewrite D.
  rewrite (callInterfaceFunc_calls _ _ _ _ _ Ha He). rewrite R.
  unfold assert_chan_bool. rewrite HO. reflexivity.
Qed.

(** X5. [RegisterStreamingHandler] checks the second result by kind only,
    the dispatch asserts the type [chan bool]: a streaming handler whose
    second result is another boolean channel type (receive-only,
    send-only, a defined channel type, a channel of a defined boolean
    type) is registered without an error. For a request to it that
    decodes the handler runs; when it returns a nil error the dispatch
    panics in the type assertion, and when it returns an error the
    dispatch returns that error, without a panic. *)
Theorem streaming_close_channel_type v p pkg name ms pms u buf msg t1 :
  streaming (htype v) ->
  input_struct (htype v) (Named pkg name ms pms u) ->
  pkg <> EmptyString ->
  strings.contains "." pkg = false -> strings.contains "." name = false ->
  Out (htype v) 1 = Ret t1 -> t1 <> ChanOf BothDir (Basic Tbool) ->
  DecodeWithConstructors buf (Named pkg name ms pms u) = Ok msg ->
  (RegisterStreamingHandler (Some v) p).1 = Ret None /\
  (forall r0 r1, hcall v msg = [r0; r1; Nil] ->
   exists m,
     ProcessClientRequest DecodeWithConstructors Encode
       (RegisterStreamingHandler (Some v) p).2 name buf =
       (Panic m,
        [EvDecode (Named pkg name ms pms u) buf; EvCall (Some v) msg])) /\
  (forall r0 r1 e, hcall v msg = [r0; r1; Error e] ->
   ProcessClientRequest DecodeWithConstructors Encode
     (RegisterStreamingHandler (Some v) p).2 name buf =
     (Ret (None, None, Some e),
      [EvDecode (Named pkg name ms pms u) buf; EvCall (Some v) msg])).
Proof.
  intros Hu HI Hp Hpkg Hname HO HT D.
  rewrite (RegisterStreamingHandler_named v p pkg name ms pms u Hu HI Hp Hpkg Hname).
  split; [reflexivity|]. cbn [snd].
  destruct (input_struct_In _ _ HI) as (a & Ha & He).
  unfold ProcessClientRequest, set_handlers. cbn [handlers].
  rewrite lookup_insert_eq. cbn -[callInterfaceFunc]. rewrite D.
  rewrite (callInterfaceFunc_calls _ _ _ _ _ Ha He).
  split.
  - intros r0 r1 R. rewrite R.
    unfold assert_chan_bool. rewrite HO. cbn.
    destruct t1 as [| | | | |[] [[]| | | | | | | | |]| | | |];
      try (eexists; reflexivity).
    contradiction.
  - intros r0 r1 e R. rewrite R. reflexivity.
Qed.

End RegisterThenDispatch.

Section SendOnly.
Import reflect Shape.
Context {Message : Type}.
Variable DecodeWithConstructors : bytes -> reflect.type -> outcome Message.
Variable Encode : any Message -> outcome bytes.
Implicit Types (p : ServiceProcessor Message) (v : value Message)
  (s : stream Message).

(** On a send-only channel the goroutine never gets past
    [reflect.Select]: nothing reaches the tunnel and nobody closes it. *)
Lemma send_only_step (outC : chan bytes) s s' :
  buf outC = [] -> closed outC = false ->
  step Encode SendDir s s' ->
  delivered s = [] /\ outChan s = outC /\ eof s = false /\
  (fwd s = Receiving \/ fwd s = Panicked select_panic) ->
  delivered s' = [] /\ outChan s' = outC /\ eof s' = false /\
  (fwd s' = Receiving \/ fwd s' = Panicked select_panic).
Proof.
  intros B C St (D & O & E & F).
  inversion St; subst; cbn in *; try contradiction; try discriminate; auto.
  destruct F; discriminate.
Qed.

Lemma send_only_steps (outC : chan bytes) s s' :
  buf outC = [] -> closed outC = false ->
  steps Encode SendDir s s' ->
  delivered s = [] /\ outChan s = outC /\ eof s = false /\
  (fwd s = Receiving \/ fwd s = Panicked select_panic) ->
  delivered s' = [] /\ outChan s' = outC /\ eof s' = false /\
  (fwd s' = Receiving \/ fwd s' = Panicked select_panic).
Proof. induction 3; eauto using send_only_step. Qed.

(** C3, at a handler whose channel is send-only. A streaming handler
    whose first result has the type [chan<- T] passes the signature
    check, which looks at the kind only, and is registered; a request to
    it is answered with a tunnel, and the goroutine is started on the
    handler's channel. Whatever the handler then sends, and whether it
    closes its channel or not, in every state of a run nothing has been
    delivered, the channel of the tunnel is open and empty and the
    transport has not seen its end; the goroutine is at [reflect.Select]
    or has panicked there, the panic is its only move, and after it
    nothing moves any more. *)
Theorem stream_send_only_panics v p pkg name ms pms u buf msg
    (outC closeC : channel) (vs : list (any Message)) (n : nat) s :
  streaming (htype v) ->
  input_struct (htype v) (Named pkg name ms pms u) ->
  pkg <> EmptyString ->
  strings.contains "." pkg = false -> strings.contains "." name = false ->
  replyDir (Some v) = Some SendDir ->
  Out (htype v) 1 = Ret (ChanOf BothDir (Basic Tbool)) ->
  DecodeWithConstructors buf (Named pkg name ms pms u) = Ok msg ->
  hcall v msg = [Channel outC; Channel closeC; Nil] ->
  steps Encode SendDir (start vs n (make_chan bytes 100)) s ->
  (RegisterStreamingHandler (Some v) p).1 = Ret None /\
  ProcessClientRequest DecodeWithConstructors Encode
    (RegisterStreamingHandler (Some v) p).2 name buf =
    (Ret (None,
          Some (MkStreamingTunnel (make_chan bytes 100) (Some closeC)),
          None),
     [EvDecode (Named pkg name ms pms u) buf; EvCall (Some v) msg;
      EvGo (Channel outC) (make_chan bytes 100)]) /\
  delivered s = [] /\ outChan s = make_chan bytes 100 /\ eof s = false /\
  (fwd s = Receiving \/ fwd s = Panicked select_panic) /\
  (fwd s = Receiving ->
   exists s', step Encode SendDir s s' /\ fwd s' = Panicked select_panic) /\
  (forall s', step Encode SendDir s s' ->
     fwd s' = fwd s \/ fwd s' = Panicked select_panic) /\
  (fwd s = Panicked select_panic -> forall s', ~ step Encode SendDir s s').
Proof.
  intros Hu HI Hp Hpkg Hname _ HO D R Run.
  rewrite (RegisterStreamingHandler_named v p pkg name ms pms u
             Hu HI Hp Hpkg Hname).
  split; [reflexivity|]. cbn [snd]. split.
  { destruct (input_struct_In _ _ HI) as (a & Ha & He).
    unfold ProcessClientRequest, set_handlers. cbn [handlers].
    rewrite lookup_insert_eq. cbn -[callInterfaceFunc]. rewrite D.
    rewrite (callInterfaceFunc_calls _ _ _ _ _ Ha He). rewrite R.
    unfold assert_chan_bool. rewrite HO. reflexivity. }
  assert (Inv : delivered s = [] /\ outChan s = make_chan bytes 100 /\
                eof s = false /\
                (fwd s = Receiving \/ fwd s = Panicked select_panic)).
  { apply (send_only_steps (make_chan bytes 100) _ _ eq_refl eq_refl Run).
    cbn. auto. }
  destruct Inv as (I1 & I2 & I3 & I4).
  split; [exact I1|]. split; [exact I2|]. split; [exact I3|].
  split; [exact I4|]. split; [|split].
  - intros F. destruct s as [sc hc ic k f oc d e]. cbn in F. subst f.
    eexists. split; [now apply forwarder_panics|reflexivity].
  - intros s' St.
    destruct I4 as [F|F]; inversion St; subst; cbn in *;
      auto; try contradiction; discriminate.
  - intros F s' St. inversion St; subst; cbn in *;
      try discriminate; try contradiction;
      match goal with A : alive _ |- _ => rewrite F in A; exact A end.
Qed.

End SendOnly.

Section RegistrationMore.
Import reflect Shape.
Context {Message : Type}.
Implicit Types (f : iface Message) (p q : ServiceProcessor Message)
  (v : value Message).

(** A registration that does not return nil leaves the processor as it
    was. *)
Lemma RegisterHandler_failure f p r q :
  RegisterHandler f p = (r, q) -> r <> Ret None -> q = p.
Proof.
  unfold RegisterHandler.
  destruct (handlerInputCheck f) as [[e|]|m]; try (intros [= <- <-]; auto).
  destruct (createServiceHandler f) as [[[pm sh]|e]|m];
    intros [= <- <-]; auto. contradiction.
Qed.

Lemma RegisterStreamingHandler_failure f p r q :
  RegisterStreamingHandler f p = (r, q) -> r <> Ret None -> q = p.
Proof.
  unfold RegisterStreamingHandler.
  destruct (handlerInputCheck f) as [[e|]|m]; try (intros [= <- <-]; auto).
  destruct (streamingServiceHandler f) as [[[pm sh]|e]|m];
    intros [= <- <-]; auto. contradiction.
Qed.

Lemma RegisterHandlers_app (a b : list (iface Message)) p :
  RegisterHandlers (a ++ b) p =
    match RegisterHandlers a p with
    | (Ret None, q) => RegisterHandlers b q
    | stop => stop
    end.
Proof.
  revert p. induction a as [|f a IH]; intros p; cbn.
  - destruct (RegisterHandlers b p) as [[[e|]|m] q]; reflexivity.
  - destruct (RegisterHandler f p) as [[[e|]|m] q]; try reflexivity. apply IH.
Qed.

Lemma RegisterStreamingHandlers_app (a b : list (iface Message)) p :
  RegisterStreamingHandlers (a ++ b) p =
    match RegisterStreamingHandlers a p with
    | (Ret None, q) => RegisterStreamingHandlers b q
    | stop => stop
    end.
Proof.
  revert p. induction a as [|f a IH]; intros p; cbn.
  - destruct (RegisterStreamingHandlers b p) as [[[e|]|m] q]; reflexivity.
  - destruct (RegisterStreamingHandler f p) as [[[e|]|m] q]; try reflexivity.
    apply IH.
Qed.

(** X6. A batch registration stops at the first handler that is refused
    (or panics): it returns that handler's outcome, the handlers before it
    stay registered, and the handlers after it are not looked at. The same
    for both batch forms. *)
Theorem batch_stops_at_first_failure (a b : list (iface Message)) f p q r :
  r <> Ret None ->
  (RegisterHandlers a p = (Ret None, q) ->
   (RegisterHandler f q).1 = r ->
   RegisterHandlers (a ++ f :: b) p = (r, q)) /\
  (RegisterStreamingHandlers a p = (Ret None, q) ->
   (RegisterStreamingHandler f q).1 = r ->
   RegisterStreamingHandlers (a ++ f :: b) p = (r, q)).
Proof.
  intros N. split; intros Ha Hf.
  - rewrite RegisterHandlers_app, Ha. cbn.
    destruct (RegisterHandler f q) as [r' q'] eqn:E. cbn in Hf. subst r'.
    assert (q' = q) as -> by (eapply RegisterHandler_failure; eauto).
    destruct r as [[e|]|m]; try reflexivity. contradiction.
  - rewrite RegisterStreamingHandlers_app, Ha. cbn.
    destruct (RegisterStreamingHandler f q) as [r' q'] eqn:E. cbn in Hf.
    subst r'.
    assert (q' = q) as -> by (eapply RegisterStreamingHandler_failure; eauto).
    destruct r as [[e|]|m]; try reflexivity. contradiction.
Qed.

(** X7. The route key is the type name without its package: two handlers
    whose input structs have the same name, in whatever packages, share a
    key. Registered one after the other, both calls return nil, the entry
    under the name is the later handler's (here a streaming one replacing
    a unary one), and no other key changes. *)
Theorem same_name_last_wins v1 v2 p pkg1 pkg2 name ms1 pms1 u1 ms2 pms2 u2 :
  unary (htype v1) ->
  input_struct (htype v1) (Named pkg1 name ms1 pms1 u1) ->
  streaming (htype v2) ->
  input_struct (htype v2) (Named pkg2 name ms2 pms2 u2) ->
  pkg1 <> EmptyString -> strings.contains "." pkg1 = false ->
  pkg2 <> EmptyString -> strings.contains "." pkg2 = false ->
  strings.contains "." name = false ->
  let p1 := (RegisterHandler (Some v1) p).2 in
  let p2 := (RegisterStreamingHandler (Some v2) p1).2 in
  (RegisterHandler (Some v1) p).1 = Ret None /\
  (RegisterStreamingHandler (Some v2) p1).1 = Ret None /\
  handlers p1 !! name =
    Some (MkServiceHandler (Some v1) (Named pkg1 name ms1 pms1 u1) false) /\
  handlers p2 !! name =
    Some (MkServiceHandler (Some v2) (Named pkg2 name ms2 pms2 u2) true) /\
  forall k, k <> name -> handlers p2 !! k = handlers p !! k.
Proof.
  intros U1 I1 U2 I2 P1 D1 P2 D2 Dn p1 p2. unfold p2, p1.
  destruct (RegisterHandler_named v1 p pkg1 name ms1 pms1 u1 U1 I1 P1 D1 Dn)
    as [-> _].
  rewrite (RegisterStreamingHandler_named (Message := Message)
             v2 _ pkg2 name ms2 pms2 u2 U2 I2 P2 D2 Dn).
  cbn. split; [reflexivity|]. split; [reflexivity|].
  split; [apply lookup_insert_eq|]. split; [apply lookup_insert_eq|].
  intros k Hk. now rewrite !lookup_insert_ne by congruence.
Qed.

End RegistrationMore.

Section RestMore.
Import reflect Shape.
Context {Message : Type}.
Variable json_Unmarshal : string -> reflect.type -> outcome Message.
Variable json_Marshal : any Message -> outcome string.
Variable hex_DecodeString : string -> outcome string.
Variable base64_EncodeToString : string -> string.
Variable regexp_MatchString : string -> string -> outcome bool.
Implicit Types (f : iface Message) (p q : ServiceProcessor Message)
  (h : restHandler Message) (r : Request).

Abbreviation serve :=
  (restServe json_Unmarshal json_Marshal hex_DecodeString base64_EncodeToString
     regexp_MatchString).
Abbreviation payload :=
  (restPayload hex_DecodeString base64_EncodeToString regexp_MatchString).

(** A GET kind that [prepareHandlerGET] returns without an error is not
    the invalid one. *)
Lemma prepareHandlerGET_kind f k n :
  prepareHandlerGET f = Ret (Ok (k, n)) -> k <> invalidGET.
Proof.
  unfold prepareHandlerGET.
  destruct (recv (TypeOf f)) as [ft|]; cbn; [|discriminate].
  destruct (In ft 0) as [a|]; cbn; [|discriminate].
  destruct (Elem a) as [in0|]; cbn; [|discriminate].
  destruct (decide (kind in0 ≠ Struct)); [discriminate|].
  destruct (NumField in0) as [nf|]; cbn; [|discriminate].
  destruct (decide (nf = 0)); [intros [= <- <-]; discriminate|].
  destruct (decide (nf = 1)); [|discriminate].
  destruct (Field in0 0) as [fld|]; cbn; [|discriminate].
  destruct (decide (kind fld.2 = Slice)).
  - destruct (Elem fld.2) as [el|]; cbn; [|discriminate].
    destruct (bool_decide (kind el = Uint8)); [intros [= <- <-]; discriminate|].
    destruct (decide (kind fld.2 = Int)); [|discriminate].
    intros [= <- <-]; discriminate.
  - cbn. destruct (decide (kind fld.2 = Int)); [|discriminate].
    intros [= <- <-]; discriminate.
Qed.

(** What a REST registration that returns nil has done: one route added
    to the router, the registry untouched. *)
Lemma RegisterRESTHandler_success f since namespace method p q :
  RegisterRESTHandler f since namespace method p = (Ret None, q) ->
  exists resource sh k field,
    (method = "GET" \/ method = "POST" \/ method = "PUT") /\
    (3 <= since)%Z /\
    createServiceHandler f = Ret (Ok (resource, sh)) /\
    (method <> "GET" -> k = invalidGET) /\
    (method = "GET" -> prepareHandlerGET f = Ret (Ok (k, field))) /\
    handlers q = handlers p /\
    mux q = mux p ++
      [("/v" +:+ pretty since +:+ "/" +:+ namespace +:+ "/" +:+ resource +:+
        (if bool_decide (k = intGET) || bool_decide (k = sliceGET)
         then "/" else EmptyString),
        MkRestHandler k field namespace resource sh f)].
Proof.
  unfold RegisterRESTHandler.
  destruct (negb (String.eqb method "GET") && negb (String.eqb method "POST")
            && negb (String.eqb method "PUT")) eqn:HM; [discriminate|].
  assert (M : method = "GET" \/ method = "POST" \/ method = "PUT").
  { destruct (String.eqb_spec method "GET"); [auto|].
    destruct (String.eqb_spec method "POST"); [auto|].
    destruct (String.eqb_spec method "PUT"); [auto|]. discriminate. }
  clear HM.
  destruct (since <? 3)%Z eqn:HS; [discriminate|]. apply Z.ltb_ge in HS.
  destruct (createServiceHandler f) as [[[resource sh]|e]|m]; try discriminate.
  destruct (String.eqb_spec method "GET") as [->|NG].
  - destruct (prepareHandlerGET f) as [[[k field]|e]|m] eqn:PG;
      try discriminate.
    destruct (HandleFunc _ _ _) as [m'|] eqn:HF; [|discriminate].
    intros [= <-]. exists resource, sh, k, field.
    split; [exact M|]. split; [exact HS|]. split; [reflexivity|]. split; [congruence|]. split; [auto|].
    split; [reflexivity|]. cbn.
    unfold HandleFunc in HF. destruct (existsb _ _); [discriminate|].
    now injection HF as <-.
  - destruct (HandleFunc _ _ _) as [m'|] eqn:HF; [|discriminate].
    intros [= <-]. exists resource, sh, invalidGET, EmptyString.
    split; [exact M|]. split; [exact HS|]. split; [reflexivity|]. split; [auto|]. split; [congruence|].
    split; [reflexivity|]. cbn.
    unfold HandleFunc in HF. destruct (existsb _ _); [discriminate|].
    now injection HF as <-.
Qed.

(** X8. The method named at registration does not restrict the methods
    the route serves. For the closure of every route that
    [RegisterRESTHandler] has registered, whatever method was named: a
    POST or PUT request without the content type [application/json] is
    answered 400 and the handler is not called; with it, the body is the
    payload, unchanged; a request with another method than GET, POST, PUT
    is answered 405; and a GET request on a route registered with POST or
    PUT is answered 400, invalid GET. *)
Theorem rest_route_methods f since namespace method p q :
  RegisterRESTHandler f since namespace method p = (Ret None, q) ->
  exists pattern h,
    mux q = mux p ++ [(pattern, h)] /\ rest_f _ h = f /\
    (forall r, Method r = "POST" \/ Method r = "PUT" ->
       (ContentType r <> "application/json" ->
        serve h r =
          (Ret (http_Error "content type needs to be application/json"
                  StatusBadRequest), [])) /\
       (forall b, ContentType r = "application/json" -> Body r = Ok b ->
                  payload h r = inl b)) /\
    (forall r, Method r <> "GET" -> Method r <> "POST" -> Method r <> "PUT" ->
       serve h r =
         (Ret (http_Error ("unsupported method: " +:+ Method r)
                 StatusMethodNotAllowed), [])) /\
    (forall r, method <> "GET" -> Method r = "GET" ->
       serve h r = (Ret (http_Error "invalid GET" StatusBadRequest), [])).
Proof.
  intros H.
  destruct (RegisterRESTHandler_success _ _ _ _ _ _ H)
    as (resource & sh & k & field & _ & _ & _ & Kn & _ & _ & ->).
  eexists _, _. split; [reflexivity|]. split; [reflexivity|].
  split; [|split].
  - intros r Hm. split.
    + intros Hc. unfold restServe, restPayload.
      apply String.eqb_neq in Hc.
      destruct Hm as [-> | ->]; cbn; rewrite Hc; reflexivity.
    + intros b Hc Hb. unfold restPayload.
      destruct Hm as [-> | ->]; cbn; rewrite Hc, Hb; reflexivity.
  - intros r HG HP HU. unfold restServe, restPayload.
    apply String.eqb_neq in HG, HP, HU. rewrite HG, HP, HU. reflexivity.
  - intros r Hm Hr. unfold restServe, restPayload. rewrite Hr. cbn.
    rewrite (Kn Hm). reflexivity.
Qed.

(** X9. The router refuses a pattern twice: after a REST registration
    that returned nil, the same registration again panics, and the
    processor stays as it was. *)
Theorem rest_route_twice f since namespace method p q :
  RegisterRESTHandler f since namespace method p = (Ret None, q) ->
  exists pattern h m,
    mux q = mux p ++ [(pattern, h)] /\
    RegisterRESTHandler f since namespace method q = (Panic m, q).
Proof.
  intros H.
  destruct (RegisterRESTHandler_success _ _ _ _ _ _ H)
    as (resource & sh & k & field & M & HS & HC & Kn & KG & _ & HM).
  eexists _, _, _. split; [exact HM|].
  unfold RegisterRESTHandler.
  assert (B : negb (String.eqb method "GET") && negb (String.eqb method "POST")
              && negb (String.eqb method "PUT") = false).
  { destruct M as [->|[->| ->]]; reflexivity. }
  rewrite B. apply Z.ltb_ge in HS. rewrite HS, HC.
  destruct (String.eqb_spec method "GET") as [->|NG].
  - rewrite (KG eq_refl). unfold HandleFunc. rewrite HM.
    rewrite existsb_app. cbn [existsb fst].
    match goal with
    | |- context [orb _ (orb (String.eqb ?a ?b) _)] =>
        replace (String.eqb a b) with true
          by (symmetry; apply String.eqb_refl)
    end.
    rewrite !orb_true_r. reflexivity.
  - unfold HandleFunc. rewrite HM, (Kn NG).
    rewrite existsb_app. cbn [existsb fst].
    match goal with
    | |- context [orb _ (orb (String.eqb ?a ?b) _)] =>
        replace (String.eqb a b) with true
          by (symmetry; apply String.eqb_refl)
    end.
    rewrite !orb_true_r. reflexivity.
Qed.

End RestMore.

Section Patterns.

Lemma append_nil_r (s : string) : s +:+ EmptyString = s.
Proof.
  induction s as [|c s IH]; [reflexivity|].
  change (String c s +:+ EmptyString) with (String c (s +:+ EmptyString)).
  now rewrite IH.
Qed.

Lemma append_cons (c : ascii) (s t : string) :
  String c s +:+ t = String c (s +:+ t).
Proof. reflexivity. Qed.

Lemma append_nil_l (s : string) : EmptyString +:+ s = s.
Proof. reflexivity. Qed.

Lemma append_assoc (s t u : string) : (s +:+ t) +:+ u = s +:+ (t +:+ u).
Proof.
  induction s as [|c s IH]; [reflexivity|].
  now rewrite !append_cons, IH.
Qed.

Lemma append_eq_nil (s t : string) :
  s +:+ t = EmptyString -> s = EmptyString /\ t = EmptyString.
Proof. destruct s; [rewrite append_nil_l; auto|discriminate]. Qed.

Lemma append_eq_cons (s t u : string) (c : ascii) :
  s +:+ t = String c u ->
  (s = EmptyString /\ t = String c u) \/
  exists s', s = String c s' /\ u = s' +:+ t.
Proof.
  destruct s as [|d s].
  - rewrite append_nil_l. auto.
  - rewrite append_cons. intros [= -> <-]. right. eauto.
Qed.

Lemma nullable_accepts (r : regexp.re) :
  regexp.nullable r = true <-> accepts r EmptyString.
Proof.
  induction r as [| |k|r1 IH1 r2 IH2|r1 IH1 r2 IH2|r IH]; cbn.
  - split; [discriminate|inversion 1].
  - split; [constructor|reflexivity].
  - split; [discriminate|inversion 1].
  - rewrite andb_true_iff, IH1, IH2. split.
    + intros [H1 H2]. change EmptyString with (EmptyString +:+ EmptyString).
      now constructor.
    + inversion 1; subst.
      match goal with
      | E : _ +:+ _ = EmptyString |- _ => apply append_eq_nil in E as [-> ->]
      end. auto.
  - rewrite orb_true_iff, IH1, IH2. split.
    + intros [H|H]; [now apply accepts_alt_l|now apply accepts_alt_r].
    + inversion 1; auto.
  - split; [constructor|reflexivity].
Qed.

(** A non-empty text of a star starts with a non-empty text of its
    body. *)
Lemma accepts_star_cons (r : regexp.re) (s : string) :
  accepts (regexp.Star r) s -> forall c u, s = String c u ->
  exists s1 s2, u = s1 +:+ s2 /\ accepts r (String c s1) /\
                accepts (regexp.Star r) s2.
Proof.
  remember (regexp.Star r) as sr eqn:E. induction 1 as
    [| | | | | |r0 s1 s2 H1 _ H2 IH2]; try discriminate.
  injection E as ->. intros c u Hs.
  apply append_eq_cons in Hs as [[-> ->]|(s' & -> & ->)].
  - now apply IH2.
  - eauto.
Qed.

Lemma deriv_accepts (r : regexp.re) (c : ascii) (s : string) :
  accepts (regexp.deriv c r) s <-> accepts r (String c s).
Proof.
  revert s. induction r as [| |k|r1 IH1 r2 IH2|r1 IH1 r2 IH2|r IH];
    intros s; cbn.
  - split; inversion 1.
  - split; inversion 1.
  - destruct (regexp.in_class k c) eqn:K; split.
    + inversion 1. now constructor.
    + inversion 1; subst. constructor.
    + inversion 1.
    + inversion 1; subst. congruence.
  - assert (L : accepts (regexp.Cat (regexp.deriv c r1) r2) s <->
                exists s1 s2, s = s1 +:+ s2 /\ accepts r1 (String c s1) /\
                              accepts r2 s2).
    { split.
      - inversion 1; subst. eexists _, _. split; [reflexivity|].
        split; [now apply IH1|assumption].
      - intros (s1 & s2 & -> & H1 & H2). constructor; [now apply IH1|auto]. }
    assert (R : accepts (regexp.Cat r1 r2) (String c s) <->
                (exists s1 s2, s = s1 +:+ s2 /\ accepts r1 (String c s1) /\
                               accepts r2 s2) \/
                (accepts r1 EmptyString /\ accepts r2 (String c s))).
    { split.
      - inversion 1; subst.
        match goal with
        | E : _ +:+ _ = String _ _ |- _ =>
            apply append_eq_cons in E as [[-> ->]|(s' & -> & ->)]
        end; eauto 6.
      - intros [(s1 & s2 & -> & H1 & H2)|[H1 H2]].
        + rewrite <- append_cons. now constructor.
        + rewrite <- (append_nil_l (String c s)). now constructor. }
    rewrite R. destruct (regexp.nullable r1) eqn:N.
    + split.
      * inversion 1; subst; [left; now apply L|right].
        split; [now apply nullable_accepts|now apply IH2].
      * intros [H|[H1 H2]]; [apply accepts_alt_l; now apply L|].
        apply accepts_alt_r. now apply IH2.
    + rewrite L. split; [auto|]. intros [H|[H1 H2]]; [auto|].
      apply nullable_accepts in H1. congruence.
  - split.
    + inversion 1; subst; [apply accepts_alt_l; now apply IH1|
                           apply accepts_alt_r; now apply IH2].
    + inversion 1; subst; [apply accepts_alt_l; now apply IH1|
                           apply accepts_alt_r; now apply IH2].
  - split.
    + inversion 1; subst. rewrite <- append_cons.
      constructor; [now apply IH|assumption].
    + intros H.
      destruct (accepts_star_cons _ _ H c s eq_refl) as (s1 & s2 & -> & H1 & H2).
      constructor; [now apply IH|assumption].
Qed.

(** The matcher decides the language. *)
Lemma matches_accepts (r : regexp.re) (s : string) :
  regexp.matches r s = true <-> accepts r s.
Proof.
  revert r. induction s as [|c s IH]; intros r; cbn.
  - apply nullable_accepts.
  - rewrite IH. apply deriv_accepts.
Qed.

Lemma accepts_lit (l s : string) : accepts (regexp.lit l) s <-> s = l.
Proof.
  revert s. induction l as [|c l IH]; intros s; cbn.
  - split; [inversion 1; reflexivity|intros ->; constructor].
  - split.
    + inversion 1 as [| |? ? s1 s2 H1 H2| | | |]; subst.
      inversion H1; subst. apply IH in H2 as ->.
      match goal with
      | K : regexp.in_class _ _ = true |- _ =>
          cbn in K; apply Ascii.eqb_eq in K as ->
      end. reflexivity.
    + intros ->. change (String c l) with (String c EmptyString +:+ l).
      constructor; [constructor; cbn; apply Ascii.eqb_refl|now apply IH].
Qed.

Lemma accepts_lit_cat (l : string) (r : regexp.re) (s : string) :
  accepts (regexp.Cat (regexp.lit l) r) s <->
  exists t, s = l +:+ t /\ accepts r t.
Proof.
  split.
  - inversion 1 as [| |? ? s1 s2 H1 H2 E| | | |]; subst.
    apply accepts_lit in H1 as ->. eauto.
  - intros (t & -> & H). constructor; [now apply accepts_lit|assumption].
Qed.

Lemma accepts_star_class (k : regexp.class) (s : string) :
  accepts (regexp.Star (regexp.Sym k)) s <-> all_in k s = true.
Proof.
  split.
  - remember (regexp.Star (regexp.Sym k)) as sr eqn:E.
    induction 1 as [| | | | | |r0 s1 s2 H1 _ H2 IH2]; try discriminate.
    + reflexivity.
    + injection E as ->. inversion H1; subst.
      rewrite append_cons, append_nil_l. cbn.
      rewrite andb_true_iff. auto.
  - induction s as [|c s IH]; cbn.
    + constructor.
    + rewrite andb_true_iff. intros [Hc Hs].
      change (String c s) with (String c EmptyString +:+ s).
      constructor; [now constructor|auto].
Qed.

Lemma accepts_plus_class (k : regexp.class) (s : string) :
  accepts (regexp.plus (regexp.Sym k)) s <->
  s <> EmptyString /\ all_in k s = true.
Proof.
  unfold regexp.plus. split.
  - inversion 1 as [| |? ? s1 s2 H1 H2 E| | | |]; subst.
    inversion H1; subst. apply accepts_star_class in H2.
    rewrite append_cons, append_nil_l.
    split; [discriminate|]. cbn. rewrite andb_true_iff. auto.
  - intros [N H]. destruct s as [|c s]; [contradiction|].
    cbn in H. apply andb_true_iff in H as [Hc Hs].
    change (String c s) with (String c EmptyString +:+ s).
    constructor; [now constructor|now apply accepts_star_class].
Qed.

(** The pattern of the closure matches exactly the route paths. *)
Lemma pathPattern_matches (namespace resource : string) (k : regexp.class)
    (path : string) :
  regexp.matches
    (pathPattern namespace resource (regexp.plus (regexp.Sym k))) path = true
  <-> exists d seg,
        regexp.is_digit d = true /\ seg <> EmptyString /\
        all_in k seg = true /\
        path = route_path namespace resource d seg.
Proof.
  rewrite matches_accepts. unfold pathPattern, route_path.
  rewrite accepts_lit_cat. split.
  - intros (t1 & -> & H).
    inversion H as [| |? ? s1 s2 H1 H2 E| | | |]; subst. clear H.
    inversion H1; subst. clear H1.
    apply (accepts_lit_cat "/") in H2 as (t2 & -> & H).
    apply (accepts_lit_cat namespace) in H as (t3 & -> & H).
    apply (accepts_lit_cat "/") in H as (t4 & -> & H).
    apply (accepts_lit_cat resource) in H as (t5 & -> & H).
    apply (accepts_lit_cat "/") in H as (t6 & -> & H).
    apply accepts_plus_class in H as [N A].
    exists c, t6. repeat split; auto.
  - intros (d & seg & D & N & A & ->). eexists. split; [reflexivity|].
    change (String d ?x) with (String d EmptyString +:+ x).
    constructor; [now constructor|].
    repeat (apply accepts_lit_cat; eexists; split; [reflexivity|]).
    now apply accepts_plus_class.
Qed.

End Patterns.

Section RestPaths.
Context {Message : Type}.
Variable hex_DecodeString : string -> outcome string.
Variable base64_EncodeToString : string -> string.
Variable regexp_MatchString : string -> string -> outcome bool.
Implicit Types (h : restHandler Message) (r : Request).

Lemma Split_nonempty (s : string) (c : ascii) : strings.Split s c <> [].
Proof.
  destruct s as [|d s]; cbn -[Ascii.eqb]; [discriminate|].
  destruct (Ascii.eqb d c); [discriminate|].
  destruct (strings.Split s c); discriminate.
Qed.

(** Splitting distributes over a separator. *)
Lemma Split_sep (a b : string) (c : ascii) :
  strings.Split (a +:+ String c b) c = strings.Split a c ++ strings.Split b c.
Proof.
  induction a as [|d a IH].
  - rewrite append_nil_l. cbn -[Ascii.eqb]. now rewrite Ascii.eqb_refl.
  - rewrite append_cons. cbn -[Ascii.eqb]. rewrite IH.
    destruct (Ascii.eqb d c); [reflexivity|].
    pose proof (Split_nonempty a c) as N.
    destruct (strings.Split a c); [contradiction|reflexivity].
Qed.

Lemma Split_file_after (a seg : string) :
  strings.contains "/" seg = false ->
  path.Split_file (a +:+ String "/" seg) = seg.
Proof.
  intros H. unfold path.Split_file. rewrite Split_sep, (Split_without _ _ H).
  apply last_last.
Qed.

Lemma digits_no_slash (seg : string) :
  all_in regexp.Digit seg = true -> strings.contains "/" seg = false.
Proof.
  induction seg as [|c seg IH]; cbn -[Ascii.eqb regexp.in_class];
    [reflexivity|].
  rewrite andb_true_iff. intros [Hc Hs]. rewrite (IH Hs), orb_false_r.
  destruct (Ascii.eqb_spec c "/") as [->|]; [discriminate Hc|reflexivity].
Qed.

Lemma hex_no_slash (seg : string) :
  all_in regexp.HexLower seg = true -> strings.contains "/" seg = false.
Proof.
  induction seg as [|c seg IH]; cbn -[Ascii.eqb regexp.in_class];
    [reflexivity|].
  rewrite andb_true_iff. intros [Hc Hs]. rewrite (IH Hs), orb_false_r.
  destruct (Ascii.eqb_spec c "/") as [->|]; [discriminate Hc|reflexivity].
Qed.

Lemma route_path_file (namespace resource : string) (d : ascii) (seg : string) :
  strings.contains "/" seg = false ->
  path.Split_file (route_path namespace resource d seg) = seg.
Proof.
  intros H. unfold route_path.
  change ("/v" +:+ String d ("/" +:+ namespace +:+ "/" +:+ resource +:+ "/" +:+ seg))
    with (("/v" +:+ String d EmptyString) +:+
          (("/" +:+ namespace) +:+ (("/" +:+ resource) +:+ String "/" seg))).
  rewrite <- !append_assoc. now apply Split_file_after.
Qed.

Abbreviation payload' :=
  (restPayload hex_DecodeString base64_EncodeToString regexp_MatchString).

(** X10. The paths a GET route of kind integer serves, when its
    namespace and its resource are plain (ASCII, without a metacharacter
    of regular expressions). The closure accepts a path exactly when it
    is [/v], one digit, [/namespace/], [resource/] and a non-empty run of
    digits; the payload is then the one-field object of the field's name
    with the run of digits as its value, written with a space after the
    colon; every other path is answered 404, invalid path. *)
Theorem rest_int_paths h r :
  regexp.plain (rest_namespace h) = true ->
  regexp.plain (rest_resource h) = true ->
  rest_k h = intGET -> Method r = "GET" ->
  (forall d seg,
     regexp.is_digit d = true -> seg <> EmptyString ->
     all_in regexp.Digit seg = true ->
     EscapedPath r = route_path (rest_namespace h) (rest_resource h) d seg ->
     payload' h r =
       inl ("{" +:+ dquote +:+ rest_fieldNameGET h +:+ dquote +:+ ": " +:+
            seg +:+ "}")) /\
  ((forall d seg,
      regexp.is_digit d = true -> seg <> EmptyString ->
      all_in regexp.Digit seg = true ->
      EscapedPath r <> route_path (rest_namespace h) (rest_resource h) d seg) ->
   payload' h r = inr (http_Error "invalid path" StatusNotFound)).
Proof.
  intros PN PR K M. unfold restPayload, matchPath. rewrite M, K, PN, PR.
  cbn [String.eqb Ascii.eqb andb].
  change (String.eqb "GET" "GET") with true. cbv iota.
  split.
  - intros d seg D N A E.
    assert (P : regexp.matches
                  (pathPattern (rest_namespace h) (rest_resource h)
                     (regexp.plus (regexp.Sym regexp.Digit)))
                  (EscapedPath r) = true).
    { apply pathPattern_matches. eauto 6. }
    rewrite P. rewrite E, route_path_file; [reflexivity|].
    now apply digits_no_slash.
  - intros N.
    destruct (regexp.matches _ (EscapedPath r)) eqn:P; [|reflexivity].
    apply pathPattern_matches in P as (d & seg & D & Ne & A & E).
    exfalso. eapply N; eauto.
Qed.

(** X11. The paths a GET route with a byte-slice field serves, when its
    namespace and its resource are plain (ASCII, without a metacharacter
    of regular expressions): the same shape with a non-empty run of
    lower-case hexadecimal digits. The run is handed to the hex decoder;
    when it refuses (an odd length) the answer is 400 with its message,
    else the payload is the one-field object with the base64 text of the
    bytes in quotes. Every other path is answered 404. *)
Theorem rest_slice_paths h r :
  regexp.plain (rest_namespace h) = true ->
  regexp.plain (rest_resource h) = true ->
  rest_k h = sliceGET -> Method r = "GET" ->
  (forall d seg,
     regexp.is_digit d = true -> seg <> EmptyString ->
     all_in regexp.HexLower seg = true ->
     EscapedPath r = route_path (rest_namespace h) (rest_resource h) d seg ->
     payload' h r =
       match hex_DecodeString seg with
       | Err err => inr (http_Error err StatusBadRequest)
       | Ok byteBuf =>
           inl ("{" +:+ dquote +:+ rest_fieldNameGET h +:+ dquote +:+ ": " +:+
                dquote +:+ base64_EncodeToString byteBuf +:+ dquote +:+ "}")
       end) /\
  ((forall d seg,
      regexp.is_digit d = true -> seg <> EmptyString ->
      all_in regexp.HexLower seg = true ->
      EscapedPath r <> route_path (rest_namespace h) (rest_resource h) d seg) ->
   payload' h r = inr (http_Error "invalid path" StatusNotFound)).
Proof.
  intros PN PR K M. unfold restPayload, matchPath. rewrite M, K, PN, PR.
  cbn [andb].
  change (String.eqb "GET" "GET") with true. cbv iota.
  split.
  - intros d seg D N A E.
    assert (P : regexp.matches
                  (pathPattern (rest_namespace h) (rest_resource h)
                     (regexp.plus (regexp.Sym regexp.HexLower)))
                  (EscapedPath r) = true).
    { apply pathPattern_matches. eauto 6. }
    rewrite P. rewrite E, route_path_file; [reflexivity|].
    now apply hex_no_slash.
  - intros N.
    destruct (regexp.matches _ (EscapedPath r)) eqn:P; [|reflexivity].
    apply pathPattern_matches in P as (d & seg & D & Ne & A & E).
    exfalso. eapply N; eauto.
Qed.

End RestPaths.

Section StreamFailure.
Context {Message : Type}.
Variable Encode : any Message -> outcome bytes.
Variable dir : reflect.ChanDir.
Hypothesis receivable : dir <> reflect.SendDir.
Implicit Types (s : stream Message) (bs : list bytes) (vs : list (any Message)).

Lemma cut_short_start vs1 vs2 bs bad n (oc : chan bytes) :
  Forall2 (fun v b => Encode v = Ok b) vs1 bs ->
  buf oc = [] -> closed oc = false -> 0 < cap oc ->
  cut_short Encode bs bad (start (vs1 ++ bad :: vs2) n oc).
Proof.
  intros F B C K. unfold cut_short, start, in_hand. cbn. rewrite B, C.
  split; [discriminate|]. split; [assumption|]. split; [discriminate|].
  left. split; [discriminate|]. split; [reflexivity|].
  exists vs1, bs, vs2. auto.
Qed.

Lemma received_refused v e (oc : chan bytes) :
  Encode v = Err e ->
  received Encode v oc = (Stopped, MkChan (buf oc) (cap oc) true).
Proof. unfold received. now intros ->. Qed.

(** The goroutine takes the next item, from the channel or straight from
    the handler. *)
Lemma cut_short_take bs bad e v rest_items d (oc : chan bytes) :
  Encode bad = Err e ->
  closed oc = false ->
  (exists pre rest tail,
      v :: rest_items = pre ++ bad :: tail /\
      Forall2 (fun v b => Encode v = Ok b) pre rest /\
      d ++ buf oc ++ [] ++ rest = bs) ->
  let f' := (received Encode v oc).1 in
  let oc' := (received Encode v oc).2 in
  (f' <> Stopped /\ closed oc' = false /\
   exists pre rest tail,
     rest_items = pre ++ bad :: tail /\
     Forall2 (fun v b => Encode v = Ok b) pre rest /\
     d ++ buf oc' ++ match f' with Sending b => [b] | _ => [] end ++ rest = bs)
  \/ (f' = Stopped /\ closed oc' = true /\ d ++ buf oc' = bs).
Proof.
  intros Hbad Hc (pre & rest & tail & E & F & EQ).
  destruct pre as [|v' pre].
  - cbn in E. injection E as -> ->. inversion F; subst.
    rewrite (received_refused _ _ _ Hbad). cbn. right.
    repeat split. now rewrite !app_nil_r.
  - cbn in E. injection E as <- ->.
    inversion F as [|? b ? rest' Ev F']; subst.
    rewrite (received_encodable Encode _ _ _ Ev). cbn. left.
    split; [discriminate|]. split; [assumption|].
    exists pre, rest', tail. auto.
Qed.

Lemma cut_short_step bs bad e s s' :
  Encode bad = Err e ->
  cut_short Encode bs bad s -> step Encode dir s s' ->
  cut_short Encode bs bad s'.
Proof.
  intros Hbad (I2 & I5 & I6 & I) St. unfold cut_short, in_hand in *.
  inversion St; subst; cbn in *; [| | |contradiction| | | | |].
  - (* handler_send *)
    split; [intros Hc; specialize (I2 Hc); discriminate|].
    split; [assumption|]. split; [assumption|].
    destruct I as [(Hf & Hc & pre & rest & tail & E & F & EQ)|B]; [left|right; auto].
    split; [assumption|]. split; [assumption|].
    exists pre, rest, tail. rewrite <- app_assoc. auto.
  - (* handler_handoff *)
    destruct I as [(Hf & Hc & X)|(Hf & _)]; [|discriminate].
    split; [intros Hh; specialize (I2 Hh); discriminate|].
    pose proof (cut_short_take bs bad e v vs d oc Hbad Hc X) as T. cbn in T.
    split; [unfold received; destruct (Encode v); assumption|].
    split.
    { intros He. destruct (I6 He) as [Hc' _]. congruence. }
    exact T.
  - (* handler_close *)
    split; [auto|]. split; [assumption|]. split; [assumption|]. exact I.
  - (* forwarder_receive *)
    destruct I as [(Hf & Hc & X)|(Hf & _)]; [|discriminate].
    split; [assumption|].
    pose proof (cut_short_take bs bad e v (ic ++ vs) d oc Hbad Hc X) as T.
    cbn in T.
    split; [unfold received; destruct (Encode v); assumption|].
    split.
    { intros He. destruct (I6 He) as [Hc' _]. congruence. }
    exact T.
  - (* forwarder_closed *)
    destruct I as [(Hf & Hc & pre & rest & tail & E & F & EQ)|(Hf & _)];
      [|discriminate].
    rewrite (I2 eq_refl) in E. cbn in E. destruct pre; discriminate.
  - (* forwarder_send *)
    destruct I as [(Hf & Hc & pre & rest & tail & E & F & EQ)|(Hf & _)];
      [|discriminate].
    split; [assumption|]. split; [assumption|].
    split.
    { intros He. destruct (I6 He) as [Hc' _]. congruence. }
    left. split; [discriminate|]. split; [assumption|].
    exists pre, rest, tail. split; [assumption|]. split; [assumption|].
    rewrite <- EQ. now rewrite <- !app_assoc.
  - (* transport_receive *)
    split; [assumption|]. split; [assumption|]. split; [discriminate|].
    destruct I as [(Hf & Hc & pre & rest & tail & E & F & EQ)|(Hf & Hc & EQ)].
    + left. split; [assumption|]. split; [assumption|].
      exists pre, rest, tail. split; [assumption|]. split; [assumption|].
      rewrite <- EQ. now rewrite <- !app_assoc.
    + right. split; [assumption|]. split; [assumption|].
      rewrite <- EQ. now rewrite <- !app_assoc.
  - (* transport_eof *)
    split; [assumption|]. split; [assumption|]. split; [auto|].
    exact I.
Qed.

Lemma cut_short_steps bs bad e s s' :
  Encode bad = Err e ->
  cut_short Encode bs bad s -> steps Encode dir s s' ->
  cut_short Encode bs bad s'.
Proof. induction 3; eauto using cut_short_step. Qed.

Lemma cut_short_progress bs bad s :
  cut_short Encode bs bad s -> alive (fwd s) -> eof s = false ->
  exists s', step Encode dir s s'.
Proof.
  intros (I2 & I5 & I6 & I).
  destruct s as [sc hc ic n f [ob oc ocl] d e]. cbn in *. intros A ->.
  destruct ob as [|b ob].
  2: { eexists. now apply transport_receive. }
  destruct ocl.
  { eexists. now apply transport_eof. }
  destruct I as [(Hf & _ & pre & rest & tail & E & _)|(_ & Hc & _)];
    [|discriminate].
  destruct f as [|b| |m]; [| |contradiction|contradiction].
  - destruct ic as [|v ic].
    + destruct sc as [|v vs].
      * cbn in E. destruct pre; discriminate.
      * eexists. now apply handler_handoff.
    + eexists. now apply forwarder_receive.
  - eexists. apply forwarder_send. cbn. lia.
Qed.

(** X12. An item that does not encode ends the stream. On a channel that
    can be received from, for a handler that sends items that encode to
    [bs], then an item the encoder refuses, then any more: in every
    state of a run the items the transport has read are the first of
    [bs]; once it has seen the channel closed they are all of [bs], so
    the items sent after the refused one are never delivered and no
    error reaches the transport; until then a step is always possible;
    and from then on a handler that has more to send into a full (or
    unbuffered) channel can never move again. *)
Theorem stream_cut_at_failure vs1 vs2 bs bad e (n : nat) s :
  Forall2 (fun v b => Encode v = Ok b) vs1 bs ->
  Encode bad = Err e ->
  steps Encode dir (start (vs1 ++ bad :: vs2) n (make_chan bytes 100)) s ->
  delivered s `prefix_of` bs /\
  (eof s = true -> delivered s = bs /\ closed (outChan s) = true) /\
  (eof s = false -> exists s', step Encode dir s s') /\
  (eof s = true -> script s <> [] -> inCap s <= length (inChan s) ->
   forall s', ~ step Encode dir s s').
Proof.
  intros F Hbad R.
  assert (C : cut_short Encode bs bad s).
  { eapply cut_short_steps; [exact Hbad| |exact R].
    apply cut_short_start; auto. cbn. lia. }
  assert (A : alive (fwd s)).
  { apply (alive_steps Encode dir receivable _ _ R). exact I. }
  split.
  { destruct C as (_ & _ & _ & [(_ & _ & pre & rest & tail & _ & _ & <-)|(_ & _ & <-)]);
      eexists; reflexivity. }
  split.
  { intros He. destruct C as (_ & _ & I6 & I). destruct (I6 He) as [Hc Hb].
    split; [|assumption].
    destruct I as [(_ & Hc' & _)|(_ & _ & <-)]; [congruence|].
    now rewrite Hb, app_nil_r. }
  split; [now apply (cut_short_progress bs bad)|].
  clear A.
  intros He Hs Hn s' St.
  destruct C as (_ & _ & I6 & I). destruct (I6 He) as [Hc Hb].
  destruct I as [(_ & Hc' & _)|(Hf & _ & _)]; [congruence|].
  inversion St; subst; cbn in *; try discriminate; try lia; try congruence.
Qed.

End StreamFailure.

(** * The configuration files *)

Section CertificateURLs.
Import app.

Lemma split_from_nonempty (sep : string) (k : nat) (s : string) :
  split_from sep k s <> [].
Proof.
  revert k. induction s as [|c s IH]; intros k; cbn -[HasPrefix];
    [discriminate|].
  destruct k as [|k]; [|apply IH].
  destruct (HasPrefix (String c s) sep); [discriminate|].
  destruct (split_from sep 0 s); discriminate.
Qed.

Lemma Split_sep_nonempty (cu : string) :
  exists v vals, Split cu typeCertificateURLSep = v :: vals.
Proof.
  unfold Split, typeCertificateURLSep.
  pose proof (split_from_nonempty "://" 0 cu) as N.
  destruct (split_from "://" 0 cu) as [|v vals]; [contradiction|eauto].
Qed.

(** A text without the separator is one part. *)
Lemma split_from_without (sep s : string) :
  Contains s sep = false -> split_from sep 0 s = [s].
Proof.
  induction s as [|c s IH]; [reflexivity|].
  cbn -[HasPrefix]. intros H. apply orb_false_iff in H as [-> H].
  now rewrite (IH H).
Qed.

(** A text with the separator is two parts or more. *)
Lemma split_from_with (sep s : string) :
  sep <> EmptyString -> Contains s sep = true ->
  2 <= length (split_from sep 0 s).
Proof.
  intros Hsep. induction s as [|c s IH].
  - cbn. destruct sep; [contradiction|discriminate].
  - cbn -[HasPrefix]. destruct (HasPrefix (String c s) sep).
    + intros _.
      pose proof (split_from_nonempty sep (String.length sep - 1) s) as N.
      destruct (split_from sep (String.length sep - 1) s); [contradiction|].
      cbn. lia.
    + cbn. intros H. specialize (IH H).
      destruct (split_from sep 0 s); cbn in *; lia.
Qed.

Lemma certificateURLType_cases (t : string) :
  (certificateURLType t = String' /\ t = String') \/
  (certificateURLType t = File /\ (t = File \/ t = EmptyString)) \/
  (certificateURLType t = InvalidCertificateURLType /\
   t <> String' /\ t <> File /\ t <> EmptyString).
Proof.
  unfold certificateURLType.
  destruct (String.eqb_spec t EmptyString) as [->|N0]; [right; left; auto|].
  cbn [existsb].
  destruct (String.eqb_spec String' t) as [<-|N1]; [left; auto|].
  destruct (String.eqb_spec File t) as [<-|N2]; [right; left; auto|].
  right. right. cbn. repeat split; congruence.
Qed.

(** X13. No method of a CertificateURL panics, whatever the text: the
    parts are always there when they are indexed. The type is one of
    [string], [file] and [wrong]; it is [wrong] exactly when [Valid] is
    false; and [Content] is the blob for [string], what reading the file
    named by the blob gives for [file], and otherwise the error that
    names the type [wrong]. *)
Theorem CertificateURL_total (ReadFile : string -> outcome string)
    (cu : CertificateURL) :
  exists v t b,
    Valid cu = Ret v /\ CertificateURLType_of cu = Ret t /\
    blobPart cu = Ret b /\
    (t = String' \/ t = File \/ t = InvalidCertificateURLType) /\
    (v = false <-> t = InvalidCertificateURLType) /\
    Content ReadFile cu =
      Ret (if String.eqb t String' then Ok b
           else if String.eqb t File then ReadFile b
           else Err "Unknown CertificateURL type (wrong), cannot get its content").
Proof.
  unfold Content, CertificateURLType_of, Valid, typePart, blobPart.
  destruct (Split_sep_nonempty cu) as (v0 & vals & ->).
  destruct vals as [|v1 vals]; cbn [length Nat.eqb Nat.ltb Nat.leb].
  - (* one part *)
    cbn. eexists true, File, v0. repeat split; try reflexivity; auto.
    all: discriminate.
  - change (index (v0 :: v1 :: vals) 0) with (Ret (A := string) v0).
    change (index (v0 :: v1 :: vals) 1) with (Ret (A := string) v1).
    destruct vals as [|v2 vals]; cbn [length Nat.eqb Nat.ltb Nat.leb].
    + (* two parts *)
      cbn [mbind result_bind].
      destruct (certificateURLType_cases v0) as [[E _]|[[E _]|[E _]]];
        rewrite E; cbn.
      * exists true, String', v1. repeat split; auto; discriminate.
      * exists true, File, v1. repeat split; auto; discriminate.
      * exists false, InvalidCertificateURLType, v1. repeat split; auto.
    + (* three parts or more *)
      cbn. exists false, InvalidCertificateURLType, v1. repeat split; auto.
Qed.

Lemma Split_string_url (b : string) :
  Split ("string://" +:+ b) typeCertificateURLSep =
    "string" :: Split b typeCertificateURLSep.
Proof. reflexivity. Qed.

Lemma Split_file_url (b : string) :
  Split ("file://" +:+ b) typeCertificateURLSep =
    "file" :: Split b typeCertificateURLSep.
Proof. reflexivity. Qed.

Lemma Split_untyped (b : string) :
  Split ("://" +:+ b) typeCertificateURLSep =
    EmptyString :: Split b typeCertificateURLSep.
Proof. reflexivity. Qed.

(** X14. A certificate given in the text: the content of [string://]
    followed by [b] is [b] itself, as long as [b] does not contain the
    separator [://]; when it does, the URL is not valid and the content
    is the error of an unknown type. *)
Theorem Content_string (ReadFile : string -> outcome string) (b : string) :
  (Contains b "://" = false ->
   Valid ("string://" +:+ b) = Ret true /\
   Content ReadFile ("string://" +:+ b) = Ret (Ok b)) /\
  (Contains b "://" = true ->
   Valid ("string://" +:+ b) = Ret false /\
   Content ReadFile ("string://" +:+ b) =
     Ret (Err "Unknown CertificateURL type (wrong), cannot get its content")).
Proof.
  unfold Content, CertificateURLType_of, Valid, typePart, blobPart.
  rewrite Split_string_url. unfold Split, typeCertificateURLSep. split; intros H.
  - rewrite (split_from_without _ _ H). split; reflexivity.
  - apply split_from_with in H; [|discriminate].
    destruct (split_from "://" 0 b) as [|x [|y l]]; cbn in H; try lia.
    split; reflexivity.
Qed.

(** X15. A certificate in a file: a text without the separator is the
    path itself, and so is what follows [file://] or a bare [://]; the
    content is what reading that path gives, the read error included. *)
Theorem Content_file (ReadFile : string -> outcome string) (b : string) :
  Contains b "://" = false ->
  (CertificateURLType_of b = Ret File /\ Content ReadFile b = Ret (ReadFile b)) /\
  (CertificateURLType_of ("file://" +:+ b) = Ret File /\
   Content ReadFile ("file://" +:+ b) = Ret (ReadFile b)) /\
  (CertificateURLType_of ("://" +:+ b) = Ret File /\
   Content ReadFile ("://" +:+ b) = Ret (ReadFile b)).
Proof.
  intros H. unfold Content, CertificateURLType_of, Valid, typePart, blobPart.
  rewrite Split_file_url, Split_untyped. unfold Split, typeCertificateURLSep.
  rewrite (split_from_without _ _ H). repeat split; reflexivity.
Qed.

End CertificateURLs.

Section ServiceConfigs.
Import app.
Variables Suite_ Scalar Point ServiceIdentity : Type.
Variable ServiceFactory_Suite : string -> option Suite_.
Variable suite_Scalar : Suite_ -> Scalar.
Variable suite_String : Suite_ -> string.
Variable StringHexToScalar : Suite_ -> string -> outcome Scalar.
Variable StringHexToPoint : Suite_ -> string -> outcome Point.
Variable WriteHexPoint : Suite_ -> Point -> outcome string.
Variable NewServiceIdentity : string -> Point -> Scalar -> ServiceIdentity.

Abbreviation parseIdentity :=
  (parseServiceIdentity Suite_ Scalar Point ServiceIdentity
     ServiceFactory_Suite suite_Scalar StringHexToScalar StringHexToPoint
     NewServiceIdentity).
Abbreviation parseConfig :=
  (parseServiceConfig Suite_ Scalar Point ServiceIdentity
     ServiceFactory_Suite suite_Scalar StringHexToScalar StringHexToPoint
     NewServiceIdentity).
Abbreviation parseConfigFrom :=
  (parseServiceConfigFrom Suite_ Scalar Point ServiceIdentity
     ServiceFactory_Suite suite_Scalar StringHexToScalar StringHexToPoint
     NewServiceIdentity).
Abbreviation parseServerConfig :=
  (parseServerServiceConfig Suite_ Scalar Point ServiceIdentity
     ServiceFactory_Suite suite_Scalar StringHexToScalar StringHexToPoint
     NewServiceIdentity).
Abbreviation parseServerConfigFrom :=
  (parseServerServiceConfigFrom Suite_ Scalar Point ServiceIdentity
     ServiceFactory_Suite suite_Scalar StringHexToScalar StringHexToPoint
     NewServiceIdentity).

Abbreviation parses :=
  (app.parses Suite_ Scalar Point ServiceIdentity
     ServiceFactory_Suite suite_Scalar StringHexToScalar StringHexToPoint
     NewServiceIdentity).

Lemma parseServiceConfigFrom_Ok configs si out :
  parseConfigFrom configs si = Ok out <->
  exists sids, out = si ++ sids /\ Forall2 parses configs sids.
Proof.
  revert si. induction configs as [|[name sc] rest IH]; intros si; cbn.
  - split.
    + intros [= <-]. exists []. rewrite app_nil_r. split; [auto|constructor].
    + intros (sids & -> & F). inversion F. now rewrite app_nil_r.
  - destruct (parseIdentity name (Public sc) (Private sc)) as [sid|err] eqn:P.
    + rewrite IH. split.
      * intros (sids & -> & F). exists (sid :: sids).
        rewrite <- app_assoc. split; [reflexivity|]. constructor; auto.
      * intros (sids & -> & F). inversion F as [|? sid' ? sids' P' F']; subst.
        unfold parses in P'. cbn in P'. rewrite P in P'. injection P' as <-.
        exists sids'. rewrite <- app_assoc. auto.
    + split; [discriminate|].
      intros (sids & _ & F). inversion F as [|? sid' ? sids' P' F']; subst.
      unfold parses in P'. cbn in P'. congruence.
Qed.

Lemma parseServiceConfigFrom_Err configs si msg :
  parseConfigFrom configs si = Err msg <->
  exists pre e post sids,
    configs = pre ++ e :: post /\ Forall2 parses pre sids /\
    parseIdentity e.1 (Public e.2) (Private e.2) = Err msg.
Proof.
  revert si. induction configs as [|[name sc] rest IH]; intros si; cbn.
  - split; [discriminate|]. intros (pre & e & post & _ & E & _).
    destruct pre; discriminate.
  - destruct (parseIdentity name (Public sc) (Private sc)) as [sid|err] eqn:P.
    + rewrite IH. split.
      * intros (pre & e & post & sids & -> & F & Pe).
        exists ((name, sc) :: pre), e, post, (sid :: sids).
        split; [reflexivity|]. split; [constructor; auto|auto].
      * intros (pre & e & post & sids & E & F & Pe).
        destruct pre as [|e0 pre]; cbn in E.
        -- injection E as <- <-. cbn in Pe. congruence.
        -- injection E as <- ->. inversion F; subst. eauto 8.
    + split.
      * intros [= <-]. exists [], (name, sc), rest, [].
        split; [reflexivity|]. split; [constructor|exact P].
      * intros (pre & e & post & sids & E & F & Pe).
        destruct pre as [|e0 pre]; cbn in E.
        -- injection E as <- <-. cbn in Pe. congruence.
        -- injection E as <- ->. inversion F as [|? ? ? ? P0 ?]; subst.
           unfold parses in P0. cbn in P0. congruence.
Qed.

(** X16. [parseServiceConfig] is all or nothing, in whatever order the
    map is visited: it returns the identities, one per entry and in the
    order visited, exactly when every entry parses; and it returns an
    error exactly when some entry does not, the error then being the one
    of the first such entry visited, with no identity returned. *)
Theorem parseServiceConfig_all_or_nothing
    (configs : list (string * ServiceConfig)) :
  (forall sids, parseConfig configs = Ok sids <-> Forall2 parses configs sids) /\
  (forall msg, parseConfig configs = Err msg <->
     exists pre e post sids,
       configs = pre ++ e :: post /\ Forall2 parses pre sids /\
       parseIdentity e.1 (Public e.2) (Private e.2) = Err msg).
Proof.
  split.
  - intros sids. unfold parseServiceConfig. rewrite parseServiceConfigFrom_Ok.
    cbn. split; [intros (? & -> & ?); auto|eauto].
  - intros msg. apply parseServiceConfigFrom_Err.
Qed.

(** X17. [parseServerServiceConfig] parses the entries of a server as
    [parseServiceConfig] parses the same entries with the private keys
    blanked; and it never consults the parser of scalars: with any other
    parser in its place it gives the same. *)
Theorem parseServerServiceConfig_blank
    (configs : list (string * ServiceConfig)) :
  parseServerConfig
    (map (fun e => (e.1, MkServerServiceConfig (Public e.2))) configs) =
  parseConfig
    (map (fun e => (e.1, MkServiceConfig (Public e.2) EmptyString)) configs) /\
  forall (other : Suite_ -> string -> outcome Scalar) servers,
    parseServerServiceConfig Suite_ Scalar Point ServiceIdentity
      ServiceFactory_Suite suite_Scalar other StringHexToPoint
      NewServiceIdentity servers =
    parseServerConfig servers.
Proof.
  split.
  - unfold parseServerServiceConfig, parseServiceConfig.
    generalize (@nil ServiceIdentity).
    induction configs as [|[name sc] rest IH]; intros si; cbn; [reflexivity|].
    destruct (parseIdentity name (Public sc) EmptyString);
      [apply IH|reflexivity].
  - intros other servers. unfold parseServerServiceConfig.
    generalize (@nil ServiceIdentity).
    induction servers as [|[name sc] rest IH]; intros si; cbn; [reflexivity|].
    change (parseServiceIdentity Suite_ Scalar Point ServiceIdentity
              ServiceFactory_Suite suite_Scalar other StringHexToPoint
              NewServiceIdentity name (SPublic sc) EmptyString)
      with (parseIdentity name (SPublic sc) EmptyString).
    destruct (parseIdentity name (SPublic sc) EmptyString);
      [apply IH|reflexivity].
Qed.

Lemma parseServiceIdentity_cases (name pub priv : string) :
  match ServiceFactory_Suite name with
  | None =>
      parseIdentity name pub priv =
        Err ("Service `" +:+ name +:+ "` has not been registered with a suite")
  | Some suite =>
      (priv = EmptyString ->
       parseIdentity name pub priv =
         match StringHexToPoint suite pub with
         | Err err => Err ("parsing `" +:+ name +:+ "` public key: " +:+ err)
         | Ok public =>
             Ok (NewServiceIdentity name public (suite_Scalar suite))
         end) /\
      (priv <> EmptyString ->
       forall err, StringHexToScalar suite priv = Err err ->
       parseIdentity name pub priv =
         Err ("parsing `" +:+ name +:+ "` private key: " +:+ err))
  end.
Proof.
  unfold parseServiceIdentity.
  destruct (ServiceFactory_Suite name) as [suite|]; [|reflexivity].
  split.
  - intros ->. reflexivity.
  - intros N err E. apply String.eqb_neq in N. now rewrite N, E.
Qed.

Abbreviation newServerToml :=
  (NewServerToml Suite_ Point suite_String WriteHexPoint).

Lemma publics_fold (order : list (string * ServiceConfig))
    (acc : gmap string ServerServiceConfig) (name : string) :
  NoDup order.*1 ->
  let publics :=
    foldl (fun (publics : gmap string ServerServiceConfig) e =>
             <[e.1 := MkServerServiceConfig (Public e.2)]> publics) acc order in
  (forall c, (name, c) ∈ order ->
     publics !! name = Some (MkServerServiceConfig (Public c))) /\
  (name ∉ order.*1 -> publics !! name = acc !! name).
Proof.
  revert acc. induction order as [|[n c0] rest IH]; intros acc ND; cbn.
  - split; [intros c H; inversion H|auto].
  - cbn in ND. apply NoDup_cons in ND as [Hn ND].
    destruct (IH (<[n := MkServerServiceConfig (Public c0)]> acc) ND) as [I1 I2].
    split.
    + intros c H. apply elem_of_cons in H as [[= <- <-]|H].
      * rewrite (I2 Hn). apply lookup_insert_eq.
      * now apply I1.
    + intros H. apply not_elem_of_cons in H as [Hne H].
      rewrite (I2 H). now apply lookup_insert_ne.
Qed.

(** X18. [NewServerToml] keeps only the public keys: when the public key
    of the server can be written the result is not nil, it carries the
    address, the suite's name, the written key and the description, and
    its services are exactly the names of the given services, each with
    its public key and nothing of its private key; when the key cannot be
    written the result is nil. *)
Theorem NewServerToml_publics suite public addr desc
    (order : list (string * ServiceConfig)) :
  NoDup order.*1 ->
  match WriteHexPoint suite public with
  | Err _ => newServerToml suite public addr desc order = None
  | Ok buff =>
      exists st,
        newServerToml suite public addr desc order = Some st /\
        Address st = addr /\ Suite st = suite_String suite /\
        TPublic st = buff /\ Description st = desc /\ URL st = EmptyString /\
        forall name,
          Services st !! name =
            match list_find (fun e => e.1 = name) order with
            | Some (_, e) => Some (MkServerServiceConfig (Public e.2))
            | None => None
            end
  end.
Proof.
  intros ND. unfold NewServerToml.
  destruct (WriteHexPoint suite public) as [buff|err]; [|reflexivity].
  eexists. split; [reflexivity|]. cbn. repeat split.
  intros name.
  destruct (publics_fold order ∅ name ND) as [I1 I2].
  destruct (list_find (fun e => e.1 = name) order) as [[i e]|] eqn:F.
  - apply list_find_Some in F as (Hi & He & _). destruct e as [n c].
    cbn in He. subst n. apply I1. eapply list_elem_of_lookup_2; eauto.
  - rewrite I2; [apply lookup_empty|].
    intros H. apply list_elem_of_fmap in H as ([n c] & -> & H).
    apply list_find_None in F. rewrite Forall_forall in F.
    now apply (F _ H).
Qed.

End ServiceConfigs.

Section Descriptions.
Import app.
Variable toml_Encode_group : list ServerToml -> outcome string.
Variable toml_Encode_server : ServerToml -> outcome string.

Abbreviation groupString := (GroupToml_String toml_Encode_group).
Abbreviation serverString := (ServerToml_String toml_Encode_server).


End Descriptions.

Section ConodeConfig.
Import app.
Variables Suite_ Scalar Point ServiceIdentity Certificate : Type.
Variable ServiceFactory_Suite : string -> option Suite_.
Variable suite_Scalar : Suite_ -> Scalar.
Variable StringHexToScalar : Suite_ -> string -> outcome Scalar.
Variable StringHexToPoint : Suite_ -> string -> outcome Point.
Variable NewServiceIdentity : string -> Point -> Scalar -> ServiceIdentity.
Variable toml_DecodeFile : string -> outcome CothorityConfig.
Variable suites_Find : string -> outcome Suite_.
Variable range_services :
  gmap string ServiceConfig -> list (string * ServiceConfig).

Abbreviation parseCothority ReadFile X509KeyPair :=
  (ParseCothority Suite_ Scalar Point ServiceIdentity ServiceFactory_Suite
     suite_Scalar StringHexToScalar StringHexToPoint NewServiceIdentity
     Certificate toml_DecodeFile suites_Find ReadFile X509KeyPair
     range_services).

Lemma Content_returns (ReadFile : string -> outcome string)
    (cu : CertificateURL) :
  exists r, Content ReadFile cu = Ret r.
Proof.
  unfold Content, CertificateURLType_of, Valid, typePart, blobPart.
  destruct (Split_sep_nonempty cu) as (v0 & vals & ->).
  destruct vals as [|v1 vals]; cbn [length Nat.eqb Nat.ltb Nat.leb].
  - cbn. eauto.
  - change (index (v0 :: v1 :: vals) 0) with (Ret (A := string) v0).
    change (index (v0 :: v1 :: vals) 1) with (Ret (A := string) v1).
    destruct vals as [|v2 vals]; cbn [length Nat.eqb Nat.ltb Nat.leb].
    + cbn [mbind result_bind].
      destruct (certificateURLType_cases v0) as [[E _]|[[E _]|[E _]]];
        rewrite E; cbn; eauto.
    + cbn. eauto.
Qed.

(** X20. [ParseCothority] never panics. When it succeeds, the file was
    decoded; the configuration it returns is the decoded one with
    [Ed25519] put for an empty suite name, so its suite name is never
    empty; the server uses the suite found under that name, listens on
    the configured address, and its identity carries the address, the
    description and a private key; and the server has a TLS
    configuration exactly when both the certificate and the key of the
    file are non-empty. *)
Theorem ParseCothority_success (ReadFile : string -> outcome string)
    (X509KeyPair : string -> string -> outcome Certificate) (file : string) :
  exists r, parseCothority ReadFile X509KeyPair file = Ret r /\
  forall hc' server, r = Ok (hc', server) ->
  exists hc, toml_DecodeFile file = Ok hc /\
    hc' = (if String.eqb (CSuite hc) EmptyString
           then set_CSuite hc "Ed25519" else hc) /\
    CSuite hc' <> EmptyString /\
    suites_Find (CSuite hc') = Ok (SSuite server) /\
    SListen server = ListenAddress hc /\
    IAddress (SIdentity server) = CAddress hc /\
    IDescription (SIdentity server) = CDescription hc /\
    Iprivate (SIdentity server) <> None /\
    (TLSConfig server <> None <->
     WebSocketTLSCertificate hc <> EmptyString /\
     WebSocketTLSCertificateKey hc <> EmptyString).
Proof.
  unfold ParseCothority.
  destruct (toml_DecodeFile file) as [hc|err] eqn:D;
    [|eexists; split; [reflexivity|discriminate]].
  set (hcd := if String.eqb (CSuite hc) EmptyString
              then set_CSuite hc "Ed25519" else hc).
  assert (NE : CSuite hcd <> EmptyString).
  { subst hcd. destruct (String.eqb (CSuite hc) EmptyString) eqn:E.
    - discriminate.
    - now apply String.eqb_neq. }
  assert (F : ListenAddress hcd = ListenAddress hc /\
              CAddress hcd = CAddress hc /\
              CDescription hcd = CDescription hc /\
              WebSocketTLSCertificate hcd = WebSocketTLSCertificate hc /\
              WebSocketTLSCertificateKey hcd = WebSocketTLSCertificateKey hc).
  { subst hcd. destruct (String.eqb (CSuite hc) EmptyString); auto. }
  destruct F as (F1 & F2 & F3 & F4 & F5).
  destruct (suites_Find (CSuite hcd)) as [suite|err] eqn:S;
    [|eexists; split; [reflexivity|discriminate]].
  destruct (StringHexToScalar suite (CPrivate hcd)) as [private|err];
    [|eexists; split; [reflexivity|discriminate]].
  destruct (StringHexToPoint suite (CPublic hcd)) as [point|err];
    [|eexists; split; [reflexivity|discriminate]].
  destruct (parseServiceConfig _ _ _ _ _ _ _ _ _ _) as [sids|err];
    [|eexists; split; [reflexivity|discriminate]].
  rewrite F4, F5.
  destruct (String.eqb (WebSocketTLSCertificate hc) EmptyString) eqn:E1;
    cbn [negb andb].
  { eexists; split; [reflexivity|]. intros hc' server [= <- <-].
    exists hc. cbn. apply String.eqb_eq in E1.
    repeat split; auto; try discriminate; try tauto. }
  destruct (String.eqb (WebSocketTLSCertificateKey hc) EmptyString) eqn:E2;
    cbn [negb andb].
  { eexists; split; [reflexivity|]. intros hc' server [= <- <-].
    exists hc. cbn. apply String.eqb_eq in E2.
    repeat split; auto; try discriminate; try tauto. }
  apply String.eqb_neq in E1, E2.
  destruct (Content_returns ReadFile (WebSocketTLSCertificate hc)) as [c ->].
  cbn [mbind result_bind].
  destruct c as [tlsCertificate|err];
    [|eexists; split; [reflexivity|discriminate]].
  destruct (Content_returns ReadFile (WebSocketTLSCertificateKey hc)) as [k ->].
  cbn [mbind result_bind].
  destruct k as [tlsCertificateKey|err];
    [|eexists; split; [reflexivity|discriminate]].
  destruct (X509KeyPair tlsCertificate tlsCertificateKey) as [cert|err];
    [|eexists; split; [reflexivity|discriminate]].
  eexists; split; [reflexivity|]. intros hc' server [= <- <-].
  exists hc. cbn. repeat split; auto; discriminate.
Qed.

(** X21. Without a certificate or without a key, [ParseCothority] reads
    no certificate and loads no key pair: its result is the same
    whatever the files hold. *)
Theorem ParseCothority_without_tls (file : string) (hc : CothorityConfig)
    (ReadFile1 ReadFile2 : string -> outcome string)
    (X509KeyPair1 X509KeyPair2 : string -> string -> outcome Certificate) :
  toml_DecodeFile file = Ok hc ->
  WebSocketTLSCertificate hc = EmptyString \/
  WebSocketTLSCertificateKey hc = EmptyString ->
  parseCothority ReadFile1 X509KeyPair1 file =
  parseCothority ReadFile2 X509KeyPair2 file.
Proof.
  intros D H. unfold ParseCothority. rewrite D.
  set (hcd := if String.eqb (CSuite hc) EmptyString
              then set_CSuite hc "Ed25519" else hc).
  assert (F : WebSocketTLSCertificate hcd = WebSocketTLSCertificate hc /\
              WebSocketTLSCertificateKey hcd = WebSocketTLSCertificateKey hc).
  { subst hcd. destruct (String.eqb (CSuite hc) EmptyString); auto. }
  destruct F as (F4 & F5).
  destruct (suites_Find (CSuite hcd)) as [suite|err]; [|reflexivity].
  destruct (StringHexToScalar suite (CPrivate hcd)); [|reflexivity].
  destruct (StringHexToPoint suite (CPublic hcd)); [|reflexivity].
  destruct (parseServiceConfig _ _ _ _ _ _ _ _ _ _); [|reflexivity].
  rewrite F4, F5.
  destruct H as [-> | ->]; cbn [String.eqb negb andb]; [reflexivity|].
  now rewrite andb_false_r.
Qed.

Variable Roster : Type.
Variable range_server_services :
  gmap string ServerServiceConfig -> list (string * ServerServiceConfig).
Variable ReadHexPoint : Suite_ -> string -> outcome Point.
Variable NewRoster :
  list (option (ServerIdentity Scalar Point ServiceIdentity)) -> Roster.

Abbreviation toIdentity :=
  (toServerIdentity Suite_ Scalar Point ServiceIdentity ServiceFactory_Suite
     suite_Scalar StringHexToScalar StringHexToPoint NewServiceIdentity
     suites_Find range_server_services ReadHexPoint).
Abbreviation convert :=
  (convertServers Suite_ Scalar Point ServiceIdentity ServiceFactory_Suite
     suite_Scalar StringHexToScalar StringHexToPoint NewServiceIdentity
     suites_Find range_server_services ReadHexPoint).
Abbreviation readGroup :=
  (ReadGroupDescToml Suite_ Scalar Point ServiceIdentity ServiceFactory_Suite
     suite_Scalar StringHexToScalar StringHexToPoint NewServiceIdentity
     suites_Find range_server_services ReadHexPoint Roster NewRoster).

(** A conversion without error gives an identity with the address, the
    description and the URL of the entry, and no private key; the suite
    of the entry was found. *)
Lemma toServerIdentity_ok (s : ServerToml) en :
  toIdentity s = (en, None) ->
  exists e suite, en = Some e /\ suites_Find (Suite s) = Ok suite /\
    ReadHexPoint suite (TPublic s) = Ok (IPublic e) /\
    IAddress e = Address s /\ IDescription e = Description s /\
    IURL e = URL s /\ Iprivate e = None.
Proof.
  unfold toServerIdentity.
  destruct (suites_Find (Suite s)) as [suite|err]; [|discriminate].
  destruct (ReadHexPoint suite (TPublic s)) as [public|err] eqn:R;
    [|discriminate].
  destruct (parseServerServiceConfig _ _ _ _ _ _ _ _ _ _) as [sids|err];
    [|discriminate].
  intros [= <-]. eexists _, suite. cbn. repeat split; auto.
Qed.

Lemma convertServers_ok (servers : list ServerToml) :
  forall i entities descs E D,
  convert servers i entities descs = Ok (E, D) ->
  exists E', E = entities ++ E' /\ length E' = length servers /\
    (forall j, j < i -> D !! j = descs !! j) /\
    (forall j, i + length servers <= j -> D !! j = descs !! j) /\
    forall k s, servers !! k = Some s ->
      exists e suite, E' !! k = Some (Some e) /\
        suites_Find (if String.eqb (Suite s) EmptyString
                     then "Ed25519" else Suite s) = Ok suite /\
        ReadHexPoint suite (TPublic s) = Ok (IPublic e) /\
        IAddress e = Address s /\ IDescription e = Description s /\
        IURL e = URL s /\ Iprivate e = None /\
        D !! (i + k) = Some (Description s).
Proof.
  induction servers as [|s rest IH]; intros i entities descs E D; cbn.
  - intros [= <- <-]. exists []. rewrite app_nil_r.
    repeat split; auto. intros k s H. rewrite lookup_nil in H. discriminate.
  - set (s' := if String.eqb (Suite s) EmptyString
               then set_Suite s "Ed25519" else s).
    assert (F : Address s' = Address s /\ Description s' = Description s /\
                URL s' = URL s /\ TPublic s' = TPublic s /\
                Suite s' = if String.eqb (Suite s) EmptyString
                           then "Ed25519" else Suite s).
    { subst s'. destruct (String.eqb (Suite s) EmptyString); auto. }
    destruct F as (F1 & F2 & F3 & F4 & F5).
    destruct (toIdentity s') as [en [err|]] eqn:T; [discriminate|].
    intros H. apply IH in H as (E' & -> & L & Lo & Hi & Each).
    apply toServerIdentity_ok in T
      as (e & suite & -> & Sf & Rp & A1 & A2 & A3 & A4).
    exists (Some e :: E'). rewrite <- app_assoc.
    split; [reflexivity|]. split; [cbn; now rewrite L|].
    split; [|split].
    + intros j Hj. rewrite Lo by lia.
      apply lookup_insert_ne. lia.
    + intros j Hj. cbn in Hj. rewrite Hi by lia.
      apply lookup_insert_ne. lia.
    + intros [|k] s0 Hk; cbn in Hk.
      * injection Hk as <-. exists e, suite. rewrite <- F5, <- F4.
        repeat split; try congruence.
        rewrite Nat.add_0_r, Lo by lia. rewrite F2.
        apply lookup_insert_eq.
      * destruct (Each k s0 Hk) as (e0 & suite0 & P).
        exists e0, suite0. cbn [lookup].
        replace (i + S k) with (S i + k) by lia. exact P.
Qed.

(** X22. When [ReadGroupDescToml] succeeds, the file was decoded and the
    roster is made of one identity for each server of the file, in the
    order of the file and none of them nil: the identity of a server
    has its address, its URL, its description and the public key read
    with its suite, where an empty suite name stands for [Ed25519], and
    it has no private key. [GetDescription] of that identity is the
    description of the server, and it is empty for any other pointer. *)
Theorem ReadGroupDescToml_success (decoded : outcome GroupToml)
    (g : Group Roster) :
  readGroup decoded = Ok g ->
  exists group entities,
    decoded = Ok group /\ GRoster g = NewRoster entities /\
    length entities = length (Servers group) /\
    (forall i s, Servers group !! i = Some s ->
       exists e suite, entities !! i = Some (Some e) /\
         suites_Find (if String.eqb (Suite s) EmptyString
                      then "Ed25519" else Suite s) = Ok suite /\
         ReadHexPoint suite (TPublic s) = Ok (IPublic e) /\
         IAddress e = Address s /\ IDescription e = Description s /\
         IURL e = URL s /\ Iprivate e = None /\
         GetDescription g i = Description s) /\
    (forall i, length (Servers group) <= i ->
       GetDescription g i = EmptyString).
Proof.
  unfold ReadGroupDescToml. destruct decoded as [group|err]; [|discriminate].
  destruct (convert (Servers group) 0 [] ∅) as [[E D]|err] eqn:C;
    [|discriminate].
  intros [= <-]. apply convertServers_ok in C
    as (E' & -> & L & _ & Hi & Each).
  exists group, E'. cbn [app GRoster].
  split; [reflexivity|]. split; [reflexivity|]. split; [exact L|]. split.
  - intros i s H. destruct (Each i s H)
      as (e & suite & P1 & P2 & P3 & P4 & P5 & P6 & P7 & P8).
    exists e, suite. unfold GetDescription. cbn [GDescription].
    cbn in P8. rewrite P8. repeat split; auto.
  - intros i H. unfold GetDescription. cbn [GDescription].
    rewrite Hi by (cbn; lia). now rewrite lookup_empty.
Qed.

Variable suite_String : Suite_ -> string.
Variable WriteHexPoint : Suite_ -> Point -> outcome string.

(** X23. What [NewServerToml] writes, [toServerIdentity] reads back:
    when the suite is found under its own name and the reader of points
    inverts the writer on this key, the entry made for a server converts
    to an identity, never nil, with the same public key, address and
    description, an empty URL and no private key; the error, if any, is
    the one of parsing the services, and the identity then has none. *)
Theorem NewServerToml_toServerIdentity (suite : Suite_) (public : Point)
    (addr desc : string) (order : list (string * ServiceConfig))
    (st : ServerToml) :
  NewServerToml Suite_ Point suite_String WriteHexPoint
    suite public addr desc order = Some st ->
  suites_Find (suite_String suite) = Ok suite ->
  (forall text, WriteHexPoint suite public = Ok text ->
                ReadHexPoint suite text = Ok public) ->
  exists en,
    (toIdentity st).1 = Some en /\
    IPublic en = public /\ IAddress en = addr /\ IDescription en = desc /\
    IURL en = EmptyString /\ Iprivate en = None /\
    match parseServerServiceConfig Suite_ Scalar Point ServiceIdentity
            ServiceFactory_Suite suite_Scalar StringHexToScalar
            StringHexToPoint NewServiceIdentity
            (range_server_services (Services st)) with
    | Ok sids => (toIdentity st).2 = None /\ IServiceIdentities en = sids
    | Err err => (toIdentity st).2 = Some err /\ IServiceIdentities en = []
    end.
Proof.
  unfold NewServerToml, toServerIdentity.
  destruct (WriteHexPoint suite public) as [buff|err] eqn:W; [|discriminate].
  intros [= <-] F R. cbn [Suite TPublic Address URL Description Services].
  rewrite F, (R buff eq_refl).
  destruct (parseServerServiceConfig _ _ _ _ _ _ _ _ _ _) as [sids|err];
    eexists; cbn; repeat split.
Qed.

End ConodeConfig.

(** * The properties at work on the sample handlers and files *)

Lemma echo_unary : Shape.unary (htype Cases.echo).
Proof.
  exists (reflect.PtrTo Sample.Body), (reflect.PtrTo Sample.Body),
    reflect.errType, false.
  split; [reflexivity|]. split; [exists Sample.Body; split; reflexivity|].
  split; [left; exists Sample.Body; split; reflexivity|reflexivity].
Defined.

Lemma echo_input : Shape.input_struct (htype Cases.echo) Sample.Body.
Proof.
  exists (reflect.PtrTo Sample.Body),
    [reflect.PtrTo Sample.Body; reflect.errType], false.
  repeat split.
Defined.

Lemma ticker_streaming (second : reflect.type)
    (body : reflect.type) (call : nat -> list (any nat)) :
  reflect.kind body = reflect.Struct ->
  (exists d, second = reflect.ChanOf d (reflect.Basic reflect.Tbool)) ->
  let ft := reflect.FuncOf [reflect.PtrTo body]
              [reflect.ChanOf reflect.BothDir (reflect.InterfaceOf []);
               second; reflect.errType] false in
  Shape.streaming (htype (MkValue ft call)) /\
  Shape.input_struct (htype (MkValue ft call)) body.
Proof.
  intros K [d ->] ft. split.
  - exists (reflect.PtrTo body),
      (reflect.ChanOf reflect.BothDir (reflect.InterfaceOf [])),
      (reflect.ChanOf d (reflect.Basic reflect.Tbool)), reflect.errType, false.
    split; [reflexivity|]. split; [exists body; split; [reflexivity|exact K]|].
    split; [exists reflect.BothDir, (reflect.InterfaceOf []);
            split; [reflexivity|left; reflexivity]|].
    split; [exists d, (reflect.Basic reflect.Tbool); split; reflexivity|].
    reflexivity.
  - exists (reflect.PtrTo body),
      [reflect.ChanOf reflect.BothDir (reflect.InterfaceOf []);
       reflect.ChanOf d (reflect.Basic reflect.Tbool); reflect.errType], false.
    split; [reflexivity|]. split; [reflexivity|exact K].
Defined.

Lemma dispatch_calls_once_witness :
  let p := Sample.withHandler Sample.echo false in
  let tr := [EvDecode Sample.Body (Some [Byte.x00]); EvCall Sample.echo 1;
             EvEncode (Value 1)] in
  ProcessClientRequest Sample.decode Sample.encode p "Body" (Some [Byte.x00]) =
    (Ret (Some [Byte.x01], None, None), tr) /\
  length (List.filter is_call tr) <= 1 /\
  length (List.filter is_decode tr) <= 1 /\
  forall f m, List.In (EvCall f m) tr ->
    exists h, handlers p !! "Body" = Some h /\ f = handler h /\
              Sample.decode (Some [Byte.x00]) (msgType h) = Ok m.
Proof.
  intros p tr.
  assert (H : ProcessClientRequest Sample.decode Sample.encode p "Body"
                (Some [Byte.x00]) = (Ret (Some [Byte.x01], None, None), tr))
    by (vm_compute; reflexivity).
  split; [exact H|].
  exact (dispatch_calls_once Sample.decode Sample.encode p "Body"
           (Some [Byte.x00]) _ tr H).
Defined.

Lemma handler_error_propagated_witness :
  let h := MkServiceHandler (Some Cases.failing) Sample.Body false in
  let p := set_handlers (NewServiceProcessor nat) "Body" h in
  handlers p !! "Body" = Some h /\
  reflect.In (htype Cases.failing) 0 = Ret (reflect.PtrTo Sample.Body) /\
  reflect.Elem (reflect.PtrTo Sample.Body) = Ret Sample.Body /\
  Sample.decode (Some []) (msgType h) = Ok 0 /\
  hcall Cases.failing 0 !! 1 = Some (Error "boom") /\
  ProcessClientRequest Sample.decode Sample.encode p "Body" (Some []) =
    (Ret (None, None, Some "boom"),
     [EvDecode Sample.Body (Some []); EvCall (Some Cases.failing) 0]).
Proof.
  intros h p.
  assert (H1 : handlers p !! "Body" = Some h) by (vm_compute; reflexivity).
  split; [exact H1|]. do 4 (split; [reflexivity|]).
  exact (handler_error_propagated Sample.decode Sample.encode p "Body"
           (Some []) h Cases.failing 0 "boom" _ _
           H1 eq_refl eq_refl eq_refl eq_refl eq_refl).
Defined.

Lemma register_then_dispatch_witness :
  let p := NewServiceProcessor nat in
  Shape.unary (htype Cases.echo) /\
  Shape.input_struct (htype Cases.echo) Sample.Body /\
  Sample.decode (Some [Byte.x00]) Sample.Body = Ok 1 /\
  hcall Cases.echo 1 = [Value 1; Nil] /\
  Sample.encode (Value 1) = Ok (Some [Byte.x01]) /\
  (RegisterHandler (Some Cases.echo) p).1 = Ret None /\
  ProcessClientRequest Sample.decode Sample.encode
    (RegisterHandler (Some Cases.echo) p).2 "Body" (Some [Byte.x00]) =
    (Ret (Some [Byte.x01], None, None),
     [EvDecode Sample.Body (Some [Byte.x00]); EvCall (Some Cases.echo) 1;
      EvEncode (Value 1)]).
Proof.
  intros p.
  split; [exact echo_unary|]. split; [exact echo_input|].
  do 3 (split; [reflexivity|]).
  exact (register_then_dispatch Sample.decode Sample.encode Cases.echo p
           "network" "Body" [] [] _ (Some [Byte.x00]) 1 (Value 1)
           (Some [Byte.x01]) echo_unary echo_input
           ltac:(discriminate) eq_refl eq_refl eq_refl eq_refl eq_refl).
Defined.

Lemma register_then_dispatch_streaming_witness :
  let p := NewServiceProcessor nat in
  Shape.streaming (htype Cases.ticker) /\
  Shape.input_struct (htype Cases.ticker) Sample.Body /\
  reflect.Out (htype Cases.ticker) 1 =
    Ret (reflect.ChanOf reflect.BothDir (reflect.Basic reflect.Tbool)) /\
  hcall Cases.ticker 0 = [Channel 0; Channel 1; Nil] /\
  (RegisterStreamingHandler (Some Cases.ticker) p).1 = Ret None /\
  ProcessClientRequest Sample.decode Sample.encode
    (RegisterStreamingHandler (Some Cases.ticker) p).2 "Body" (Some []) =
    (Ret (None, Some (MkStreamingTunnel (make_chan bytes 100) (Some 1)), None),
     [EvDecode Sample.Body (Some []); EvCall (Some Cases.ticker) 0;
      EvGo (Channel 0) (make_chan bytes 100)]).
Proof.
  intros p.
  destruct (ticker_streaming
              (reflect.ChanOf reflect.BothDir (reflect.Basic reflect.Tbool))
              Sample.Body (fun _ => [Channel 0; Channel 1; Nil])
              eq_refl (ex_intro _ reflect.BothDir eq_refl)) as [S I].
  split; [exact S|]. split; [exact I|]. do 2 (split; [reflexivity|]).
  exact (register_then_dispatch_streaming Sample.decode Sample.encode
           Cases.ticker p "network" "Body" [] [] _ (Some []) 0 0 1 S I
           ltac:(discriminate) eq_refl eq_refl eq_refl eq_refl eq_refl).
Defined.

Lemma streaming_close_channel_type_witness :
  let p := NewServiceProcessor nat in
  let t1 := reflect.ChanOf reflect.RecvDir (reflect.Basic reflect.Tbool) in
  Shape.streaming (htype Cases.oneWay) /\
  Shape.input_struct (htype Cases.oneWay) Sample.Body /\
  reflect.Out (htype Cases.oneWay) 1 = Ret t1 /\
  t1 <> reflect.ChanOf reflect.BothDir (reflect.Basic reflect.Tbool) /\
  Sample.decode (Some []) Sample.Body = Ok 0 /\
  hcall Cases.oneWay 0 = [Channel 0; Channel 1; Nil] /\
  (RegisterStreamingHandler (Some Cases.oneWay) p).1 = Ret None /\
  exists m,
    ProcessClientRequest Sample.decode Sample.encode
      (RegisterStreamingHandler (Some Cases.oneWay) p).2 "Body" (Some []) =
      (Panic m,
       [EvDecode Sample.Body (Some []); EvCall (Some Cases.oneWay) 0]).
Proof.
  intros p t1.
  destruct (ticker_streaming t1 Sample.Body
              (fun _ => [Channel 0; Channel 1; Nil])
              eq_refl (ex_intro _ reflect.RecvDir eq_refl)) as [S I].
  assert (N : t1 <> reflect.ChanOf reflect.BothDir (reflect.Basic reflect.Tbool))
    by discriminate.
  split; [exact S|]. split; [exact I|]. split; [reflexivity|].
  split; [exact N|]. do 2 (split; [reflexivity|]).
  destruct (streaming_close_channel_type Sample.decode Sample.encode
              Cases.oneWay p "network" "Body" [] [] _ (Some []) 0 t1 S I
              ltac:(discriminate) eq_refl eq_refl eq_refl N eq_refl)
    as (R & P & _).
  split; [exact R|].
  exact (P (Channel 0) (Channel 1) eq_refl).
Defined.

Lemma batch_stops_at_first_failure_witness :
  let p := NewServiceProcessor nat in
  let q := Sample.withHandler Sample.echo false in
  let r := (RegisterHandler (Some Cases.number) q).1 in
  r <> Ret None /\
  RegisterHandlers [Sample.echo] p = (Ret None, q) /\
  RegisterHandlers ([Sample.echo] ++ Some Cases.number :: [Sample.silent]) p =
    (r, q).
Proof.
  intros p q r.
  assert (N : r <> Ret None) by (vm_compute; discriminate).
  assert (H : RegisterHandlers [Sample.echo] p = (Ret None, q))
    by (vm_compute; reflexivity).
  split; [exact N|]. split; [exact H|].
  exact (proj1 (batch_stops_at_first_failure [Sample.echo] [Sample.silent]
                  (Some Cases.number) p q r N) H eq_refl).
Defined.

Lemma same_name_last_wins_witness :
  let p := NewServiceProcessor nat in
  let p1 := (RegisterHandler (Some Cases.echo) p).2 in
  let p2 := (RegisterStreamingHandler (Some Cases.otherTicker) p1).2 in
  Shape.unary (htype Cases.echo) /\
  Shape.input_struct (htype Cases.echo) Sample.Body /\
  Shape.streaming (htype Cases.otherTicker) /\
  Shape.input_struct (htype Cases.otherTicker) Cases.OtherBody /\
  handlers p1 !! "Body" =
    Some (MkServiceHandler (Some Cases.echo) Sample.Body false) /\
  handlers p2 !! "Body" =
    Some (MkServiceHandler (Some Cases.otherTicker) Cases.OtherBody true).
Proof.
  intros p p1 p2.
  destruct (ticker_streaming
              (reflect.ChanOf reflect.BothDir (reflect.Basic reflect.Tbool))
              Cases.OtherBody (fun _ => [Channel 0; Channel 1; Nil])
              eq_refl (ex_intro _ reflect.BothDir eq_refl)) as [S I].
  split; [exact echo_unary|]. split; [exact echo_input|].
  split; [exact S|]. split; [exact I|].
  destruct (same_name_last_wins Cases.echo Cases.otherTicker p
              "network" "other" "Body" [] [] _ [] [] _
              echo_unary echo_input S I
              ltac:(discriminate) eq_refl ltac:(discriminate) eq_refl eq_refl)
    as (_ & _ & H1 & H2 & _).
  split; [exact H1|exact H2].
Defined.

Lemma rest_route_methods_witness :
  let p := NewServiceProcessor nat in
  let q := (RegisterRESTHandler Sample.echo 3 "ns" "POST" p).2 in
  RegisterRESTHandler Sample.echo 3 "ns" "POST" p = (Ret None, q) /\
  exists pattern h,
    mux q = mux p ++ [(pattern, h)] /\ rest_f _ h = Sample.echo /\
    restServe Sample.unmarshal Sample.marshal Sample.hexDecode Sample.base64
      Sample.matchString h (Cases.get "/v3/ns/Body") =
      (Ret (http_Error "invalid GET" StatusBadRequest), []).
Proof.
  intros p q.
  assert (H : RegisterRESTHandler Sample.echo 3 "ns" "POST" p = (Ret None, q))
    by (vm_compute; reflexivity).
  split; [exact H|].
  destruct (rest_route_methods Sample.unmarshal Sample.marshal
              Sample.hexDecode Sample.base64 Sample.matchString
              Sample.echo 3 "ns" "POST" p q H)
    as (pattern & h & M & F & _ & _ & G).
  exists pattern, h. split; [exact M|]. split; [exact F|].
  apply G; [discriminate|reflexivity].
Defined.

Lemma rest_route_twice_witness :
  let p := NewServiceProcessor nat in
  let q := (RegisterRESTHandler Sample.echo 3 "ns" "POST" p).2 in
  RegisterRESTHandler Sample.echo 3 "ns" "POST" p = (Ret None, q) /\
  exists pattern h m,
    mux q = mux p ++ [(pattern, h)] /\
    RegisterRESTHandler Sample.echo 3 "ns" "POST" q = (Panic m, q).
Proof.
  intros p q.
  assert (H : RegisterRESTHandler Sample.echo 3 "ns" "POST" p = (Ret None, q))
    by (vm_compute; reflexivity).
  split; [exact H|].
  exact (rest_route_twice Sample.echo 3 "ns" "POST" p q H).
Defined.

Lemma rest_int_paths_witness :
  let r := Cases.get "/v3/ns/Body/42" in
  regexp.plain (rest_namespace Cases.intRoute) = true /\
  regexp.plain (rest_resource Cases.intRoute) = true /\
  rest_k Cases.intRoute = intGET /\ Method r = "GET" /\
  regexp.is_digit "3" = true /\ "42" <> EmptyString /\
  all_in regexp.Digit "42" = true /\
  EscapedPath r = route_path "ns" "Body" "3" "42" /\
  restPayload Sample.hexDecode Sample.base64 Sample.matchString Cases.intRoute r =
    inl ("{" +:+ dquote +:+ "A" +:+ dquote +:+ ": " +:+ "42" +:+ "}").
Proof.
  intros r.
  assert (N : "42" <> EmptyString) by discriminate.
  do 5 (split; [reflexivity|]). split; [exact N|].
  do 2 (split; [reflexivity|]).
  exact (proj1 (rest_int_paths Sample.hexDecode Sample.base64
                  Sample.matchString Cases.intRoute r
                  eq_refl eq_refl eq_refl eq_refl)
           "3"%char "42" eq_refl N eq_refl eq_refl).
Defined.

Lemma rest_slice_paths_witness :
  let r := Cases.get "/v3/ns/Body/0aff" in
  regexp.plain (rest_namespace Cases.sliceRoute) = true /\
  regexp.plain (rest_resource Cases.sliceRoute) = true /\
  rest_k Cases.sliceRoute = sliceGET /\ Method r = "GET" /\
  regexp.is_digit "3" = true /\ "0aff" <> EmptyString /\
  all_in regexp.HexLower "0aff" = true /\
  EscapedPath r = route_path "ns" "Body" "3" "0aff" /\
  restPayload Sample.hexDecode Sample.base64 Sample.matchString Cases.sliceRoute r =
    inl ("{" +:+ dquote +:+ "A" +:+ dquote +:+ ": " +:+
         dquote +:+ "0aff" +:+ dquote +:+ "}").
Proof.
  intros r.
  assert (N : "0aff" <> EmptyString) by discriminate.
  do 5 (split; [reflexivity|]). split; [exact N|].
  do 2 (split; [reflexivity|]).
  exact (proj1 (rest_slice_paths Sample.hexDecode Sample.base64
                  Sample.matchString Cases.sliceRoute r
                  eq_refl eq_refl eq_refl eq_refl)
           "3"%char "0aff" eq_refl N eq_refl eq_refl).
Defined.

(** A run that meets an item the encoder refuses: the first item is
    handed over, encoded and buffered; the second is handed over and
    refused, and the goroutine closes the tunnel and returns; the
    transport reads the one item and then sees the end. The third item
    is never sent. *)
Lemma cut_run :
  steps Sample.encode reflect.BothDir
    (start [Value 2; Channel 7; Value 3] 0 (make_chan bytes 100))
    (MkStream [Value 3] false [] 0 Stopped (MkChan [] 100 true)
       [Some [Byte.x01; Byte.x01]] true).
Proof.
  eapply steps_first; [apply handler_handoff; discriminate|]. cbn.
  eapply steps_first; [apply forwarder_send; cbn; lia|]. cbn.
  eapply steps_first; [apply handler_handoff; discriminate|]. cbn.
  eapply steps_first; [apply transport_receive; exact I|]. cbn.
  eapply steps_first; [apply transport_eof; exact I|].
  apply steps_refl.
Qed.

Lemma stream_cut_at_failure_witness :
  let s := MkStream [Value 3] false [] 0 Stopped (MkChan [] 100 true)
             [Some [Byte.x01; Byte.x01]] true in
  let bs := [Some [Byte.x01; Byte.x01]] in
  reflect.BothDir <> reflect.SendDir /\
  Forall2 (fun v b => Sample.encode v = Ok b) [Value 2] bs /\
  Sample.encode (Channel 7) = Err "Encode takes a pointer to struct" /\
  steps Sample.encode reflect.BothDir
    (start ([Value 2] ++ Channel 7 :: [Value 3]) 0 (make_chan bytes 100)) s /\
  eof s = true /\ script s = [Value 3] /\
  delivered s = bs /\ closed (outChan s) = true /\
  forall s', ~ step Sample.encode reflect.BothDir s s'.
Proof.
  intros s bs.
  assert (Hd : reflect.BothDir <> reflect.SendDir) by discriminate.
  assert (H1 : Forall2 (fun v b => Sample.encode v = Ok b) [Value 2] bs)
    by (repeat constructor).
  split; [exact Hd|]. split; [exact H1|]. split; [reflexivity|].
  split; [exact cut_run|]. split; [reflexivity|]. split; [reflexivity|].
  destruct (stream_cut_at_failure Sample.encode reflect.BothDir Hd
              [Value 2] [Value 3] bs (Channel 7)
              "Encode takes a pointer to struct" 0 s H1 eq_refl cut_run)
    as (_ & E & _ & Stuck).
  destruct (E eq_refl) as [D C].
  split; [exact D|]. split; [exact C|].
  apply Stuck; [reflexivity|discriminate|cbn; lia].
Defined.

Lemma Content_string_witness :
  app.Contains "CERT" "://" = false /\
  app.Valid "string://CERT" = Ret true /\
  app.Content Cases.readFile "string://CERT" = Ret (Ok "CERT").
Proof.
  split; [reflexivity|].
  exact (proj1 (Content_string Cases.readFile "CERT") eq_refl).
Defined.

Lemma Content_file_witness :
  app.Contains "cert.pem" "://" = false /\
  app.Content Cases.readFile "file://cert.pem" =
    Ret (Ok "contents of cert.pem").
Proof.
  split; [reflexivity|].
  exact (proj2 (proj1 (proj2 (Content_file Cases.readFile "cert.pem" eq_refl)))).
Defined.

Lemma NewServerToml_publics_witness :
  NoDup Cases.services.*1 /\
  exists st,
    app.NewServerToml unit string (fun _ => "Ed25519") Cases.writePoint
      tt "pub" "tls://127.0.0.1:7770" "a conode" Cases.services = Some st /\
    app.TPublic st = "pub" /\
    app.Services st !! "svc" = Some (app.MkServerServiceConfig "spub").
Proof.
  assert (N : NoDup Cases.services.*1) by apply NoDup_singleton.
  split; [exact N|].
  destruct (NewServerToml_publics unit string (fun _ => "Ed25519")
              Cases.writePoint tt "pub" "tls://127.0.0.1:7770" "a conode"
              Cases.services N)
    as (st & E & _ & _ & P & _ & _ & S).
  exists st. split; [exact E|]. split; [exact P|].
  rewrite (S "svc"). reflexivity.
Defined.

Lemma ParseCothority_without_tls_witness :
  Cases.decodeFile "private.toml" = Ok Cases.config /\
  (app.WebSocketTLSCertificate Cases.config = EmptyString \/
   app.WebSocketTLSCertificateKey Cases.config = EmptyString) /\
  app.ParseCothority unit string string (string * string * string)
    Cases.factory Cases.suiteScalar Cases.hexScalar Cases.hexPoint
    Cases.newIdentity (string * string) Cases.decodeFile Cases.findSuite
    Cases.readFile Cases.keyPair Cases.range "private.toml" =
  app.ParseCothority unit string string (string * string * string)
    Cases.factory Cases.suiteScalar Cases.hexScalar Cases.hexPoint
    Cases.newIdentity (string * string) Cases.decodeFile Cases.findSuite
    (fun _ => Err "no such file") (fun _ _ => Err "no key pair")
    Cases.range "private.toml".
Proof.
  split; [reflexivity|]. split; [left; reflexivity|].
  exact (ParseCothority_without_tls unit string string
           (string * string * string) (string * string)
           Cases.factory Cases.suiteScalar Cases.hexScalar Cases.hexPoint
           Cases.newIdentity Cases.decodeFile Cases.findSuite Cases.range
           "private.toml" Cases.config
           Cases.readFile (fun _ => Err "no such file")
           Cases.keyPair (fun _ _ => Err "no key pair")
           eq_refl (or_introl eq_refl)).
Defined.

Lemma ReadGroupDescToml_success_witness :
  exists g,
    app.ReadGroupDescToml unit string string (string * string * string)
      Cases.factory Cases.suiteScalar Cases.hexScalar Cases.hexPoint
      Cases.newIdentity Cases.findSuite Cases.range Cases.hexPoint
      _ id (Ok (app.MkGroupToml [Cases.server])) = Ok g /\
    app.GetDescription g 0 = "a conode" /\
    app.GetDescription g 1 = EmptyString.
Proof.
  destruct (app.ReadGroupDescToml unit string string (string * string * string)
      Cases.factory Cases.suiteScalar Cases.hexScalar Cases.hexPoint
      Cases.newIdentity Cases.findSuite Cases.range Cases.hexPoint
      _ id (Ok (app.MkGroupToml [Cases.server]))) as [g|e] eqn:E;
    [|vm_compute in E; discriminate E].
  exists g. split; [reflexivity|].
  destruct (ReadGroupDescToml_success _ _ _ _ _ _ _ _ _ _ _ _ _ _ _ g E)
    as (group & entities & D & _ & _ & Each & Out).
  injection D as <-. split.
  - destruct (Each 0 Cases.server eq_refl)
      as (e & suite & _ & _ & _ & _ & _ & _ & _ & G). exact G.
  - apply Out. cbn. lia.
Defined.

Lemma NewServerToml_toServerIdentity_witness :
  exists st en,
    app.NewServerToml unit string (fun _ => "Ed25519") Cases.writePoint
      tt "pub" "tls://127.0.0.1:7770" "a conode" Cases.services = Some st /\
    Cases.findSuite "Ed25519" = Ok tt /\
    (forall text, Cases.writePoint tt "pub" = Ok text ->
                  Cases.hexPoint tt text = Ok "pub") /\
    (app.toServerIdentity unit string string (string * string * string)
       Cases.factory Cases.suiteScalar Cases.hexScalar Cases.hexPoint
       Cases.newIdentity Cases.findSuite Cases.range Cases.hexPoint st).1 =
      Some en /\
    app.IPublic en = "pub" /\ app.IDescription en = "a conode".
Proof.
  eexists.
  assert (R : forall text, Cases.writePoint tt "pub" = Ok text ->
                           Cases.hexPoint tt text = Ok "pub")
    by (intros text [= <-]; reflexivity).
  destruct (NewServerToml_toServerIdentity unit string string
              (string * string * string)
              Cases.factory Cases.suiteScalar Cases.hexScalar Cases.hexPoint
              Cases.newIdentity Cases.findSuite Cases.range Cases.hexPoint
              (fun _ => "Ed25519") Cases.writePoint
              tt "pub" "tls://127.0.0.1:7770" "a conode" Cases.services _
              eq_refl eq_refl R)
    as (en & E & P & _ & D & _).
  exists en. split; [reflexivity|]. split; [reflexivity|].
  split; [exact R|]. split; [exact E|]. split; [exact P|exact D].
Defined.

(** A run on a send-only channel with room for one item: the handler
    sends its item and closes the channel, and the goroutine panics. *)
Lemma send_only_run :
  steps Sample.encode reflect.SendDir
    (start [Value 2] 1 (make_chan bytes 100))
    (MkStream [] true [Value 2] 1 (Panicked select_panic)
       (make_chan bytes 100) [] false).
Proof.
  eapply steps_first; [apply handler_send; [exact I|cbn; lia]|]. cbn.
  eapply steps_first; [apply handler_close; exact I|].
  eapply steps_first; [apply forwarder_panics; reflexivity|].
  apply steps_refl.
Qed.

Lemma stream_send_only_panics_witness :
  let p := NewServiceProcessor nat in
  let s := MkStream [] true [Value 2] 1 (Panicked select_panic)
             (make_chan bytes 100) [] false in
  Shape.streaming (htype Cases.sendOnly) /\
  Shape.input_struct (htype Cases.sendOnly) Sample.Body /\
  replyDir (Some Cases.sendOnly) = Some reflect.SendDir /\
  reflect.Out (htype Cases.sendOnly) 1 =
    Ret (reflect.ChanOf reflect.BothDir (reflect.Basic reflect.Tbool)) /\
  Sample.decode (Some []) Sample.Body = Ok 0 /\
  hcall Cases.sendOnly 0 = [Channel 0; Channel 1; Nil] /\
  steps Sample.encode reflect.SendDir
    (start [Value 2] 1 (make_chan bytes 100)) s /\
  (RegisterStreamingHandler (Some Cases.sendOnly) p).1 = Ret None /\
  ProcessClientRequest Sample.decode Sample.encode
    (RegisterStreamingHandler (Some Cases.sendOnly) p).2 "Body" (Some []) =
    (Ret (None, Some (MkStreamingTunnel (make_chan bytes 100) (Some 1)), None),
     [EvDecode Sample.Body (Some []); EvCall (Some Cases.sendOnly) 0;
      EvGo (Channel 0) (make_chan bytes 100)]) /\
  script s = [] /\ hclosed s = true /\
  delivered s = [] /\ closed (outChan s) = false /\ eof s = false /\
  forall s', ~ step Sample.encode reflect.SendDir s s'.
Proof.
  intros p s.
  assert (S : Shape.streaming (htype Cases.sendOnly)).
  { exists (reflect.PtrTo Sample.Body),
      (reflect.ChanOf reflect.SendDir (reflect.InterfaceOf [])),
      (reflect.ChanOf reflect.BothDir (reflect.Basic reflect.Tbool)),
      reflect.errType, false.
    split; [reflexivity|].
    split; [exists Sample.Body; split; reflexivity|].
    split; [exists reflect.SendDir, (reflect.InterfaceOf []);
            split; [reflexivity|left; reflexivity]|].
    split; [exists reflect.BothDir, (reflect.Basic reflect.Tbool);
            split; reflexivity|].
    reflexivity. }
  assert (HI : Shape.input_struct (htype Cases.sendOnly) Sample.Body).
  { exists (reflect.PtrTo Sample.Body),
      [reflect.ChanOf reflect.SendDir (reflect.InterfaceOf []);
       reflect.ChanOf reflect.BothDir (reflect.Basic reflect.Tbool);
       reflect.errType], false.
    repeat split. }
  split; [exact S|]. split; [exact HI|]. do 4 (split; [reflexivity|]).
  split; [exact send_only_run|].
  destruct (stream_send_only_panics Sample.decode Sample.encode
              Cases.sendOnly p "network" "Body" [] [] _ (Some []) 0 0 1
              [Value 2] 1 s S HI
              ltac:(discriminate) eq_refl eq_refl eq_refl eq_refl eq_refl
              eq_refl send_only_run)
    as (R1 & R2 & D & O & E & _ & _ & _ & Stuck).
  split; [exact R1|]. split; [exact R2|].
  do 2 (split; [reflexivity|]). split; [exact D|].
  split; [reflexivity|]. split; [exact E|].
  exact (Stuck eq_refl).
Defined.
